(** * Autoconf: a Flask/GraphQL gateway for a small fleet of Cisco devices

    A shallow embedding of [app.py], [netmiko_config.py] and
    [graphql_schema.py], and the properties of the specification that are
    settled on it.

    Conventions of the embedding.
    - Python text is a [string]; a character is a code point below 256.
    - Python values that travel through YAML and JSON are terms of [pyval].
    - A Python [dict] is an association list read by first match; the code only
      ever looks keys up, so the order of the entries is not observable.
    - Code that raises is a computation in the monad [M], whose state is the
      [world]: the inventory file, the devices behind the network, and the
      trace of the input and output performed so far. *)

From Stdlib Require Import String Ascii List ZArith QArith Bool Lia.
From stdpp Require Import base option gmap strings.
Import ListNotations.
Local Open Scope string_scope.
Local Open Scope list_scope.

(* ===================================================================== *)
(** * Text                                                                *)
(* ===================================================================== *)

Module Text.

Definition code (c : ascii) : nat := nat_of_ascii c.

(** [needle in hay] *)
Fixpoint contains (needle hay : string) : bool :=
  String.prefix needle hay ||
  match hay with
  | EmptyString => false
  | String _ hay' => contains needle hay'
  end.

(** [s.startswith(p)] *)
Definition startswith (p s : string) : bool := String.prefix p s.

(** [s.split(sep)] for a separator of one character. *)
Fixpoint split (sep : ascii) (s : string) : list string :=
  match s with
  | EmptyString => [EmptyString]
  | String c s' =>
      if Ascii.eqb c sep then EmptyString :: split sep s'
      else match split sep s' with
           | h :: t => String c h :: t
           | [] => [String c EmptyString]
           end
  end.

Definition newline : ascii := ascii_of_nat 10.

(** Every suffix of a text, longest first: the start positions a search
    visits. *)
Fixpoint suffixes (s : string) : list string :=
  s :: match s with
       | EmptyString => []
       | String _ s' => suffixes s'
       end.

Definition is_digit (c : ascii) : bool :=
  (48 <=? code c)%nat && (code c <=? 57)%nat.

(** [str.isspace] on code points below 256, which is what [\s] tests. *)
Definition is_space (c : ascii) : bool :=
  let n := code c in
  ((9 <=? n)%nat && (n <=? 13)%nat) || ((28 <=? n)%nat && (n <=? 32)%nat)
  || (n =? 133)%nat || (n =? 160)%nat.

Definition lower (c : ascii) : ascii :=
  let n := code c in
  if (65 <=? n)%nat && (n <=? 90)%nat then ascii_of_nat (n + 32) else c.

Definition digit_val (c : ascii) : Z := Z.of_nat (code c) - 48.

(** The number a run of decimal digits denotes, most significant first. *)
Fixpoint digits_val (acc : Z) (s : string) : Z :=
  match s with
  | EmptyString => acc
  | String c s' => digits_val (10 * acc + digit_val c) s'
  end.

Fixpoint pow10 (n : nat) : positive :=
  match n with
  | O => 1%positive
  | S n' => (10 * pow10 n')%positive
  end.

(** The text before the first dot, and the text after it. *)
Fixpoint cut_dot (s : string) : string * option string :=
  match s with
  | EmptyString => (EmptyString, None)
  | String c s' =>
      if Ascii.eqb c "."%char then (EmptyString, Some s')
      else let '(a, b) := cut_dot s' in (String c a, b)
  end.

(** [float(text)] on a text of the shape digits, or digits dot digits, where
    it never raises. The result is the rational the numeral denotes; the
    rounding of [float] to the nearest binary64 number is not modelled. *)
Definition float (s : string) : Q :=
  match cut_dot s with
  | (a, None) => Qmake (digits_val 0 a) 1
  | (a, Some b) =>
      Qmake (digits_val (digits_val 0 a) b) (pow10 (String.length b))
  end.

End Text.

(* ===================================================================== *)
(** * The fragment of [re] that the program uses                           *)
(* ===================================================================== *)

Module Re.
Import Text.

(** One-character items of a pattern. *)
Inductive atom : Type :=
| Lit (c : ascii)              (* a literal letter *)
| OneOf (cs : list ascii)      (* [...] *)
| Digit                        (* \d *)
| Space.                       (* \s *)

Inductive regex : Type :=
| Atom (a : atom)
| Seq (r1 r2 : regex)
| Star (a : atom)              (* a*, greedy *)
| Plus (a : atom)              (* a+, greedy *)
| Opt (r : regex)              (* r?, greedy *)
| Group (r : regex).           (* ( r ), the capturing group 1 *)

(** [ignorecase] is the flag [re.IGNORECASE]. *)
Definition atom_ok (ignorecase : bool) (a : atom) (c : ascii) : bool :=
  match a with
  | Lit l => if ignorecase then Ascii.eqb (lower l) (lower c) else Ascii.eqb l c
  | OneOf cs =>
      existsb (fun l => if ignorecase then Ascii.eqb (lower l) (lower c)
                        else Ascii.eqb l c) cs
  | Digit => is_digit c
  | Space => is_space c
  end.

Section Matcher.
Context {R : Type}.
Variable ignorecase : bool.

(** The text [whole] with its tail [rest] removed. *)
Definition consumed (whole rest : string) : string :=
  String.substring 0 (String.length whole - String.length rest) whole.

(** Greedy repetition of one atom: take one more character first, and fall
    back to the continuation when what follows fails. *)
Fixpoint star (a : atom) (s : string) (k : string -> option R) : option R :=
  match s with
  | EmptyString => k s
  | String c s' =>
      if atom_ok ignorecase a c then
        match star a s' k with
        | Some x => Some x
        | None => k s
        end
      else k s
  end.

(** Backtracking matcher: [k] receives the text of group 1 so far and the
    rest of the input, and a [None] from it makes the matcher try its next
    alternative. *)
Fixpoint rmatch (r : regex) (s : string) (g : option string)
    (k : option string -> string -> option R) : option R :=
  match r with
  | Atom a =>
      match s with
      | String c s' => if atom_ok ignorecase a c then k g s' else None
      | EmptyString => None
      end
  | Seq r1 r2 => rmatch r1 s g (fun g' s' => rmatch r2 s' g' k)
  | Star a => star a s (k g)
  | Plus a =>
      match s with
      | String c s' => if atom_ok ignorecase a c then star a s' (k g) else None
      | EmptyString => None
      end
  | Opt r' =>
      match rmatch r' s g k with
      | Some x => Some x
      | None => k g s
      end
  | Group r' => rmatch r' s g (fun _ s' => k (Some (consumed s s')) s')
  end.
End Matcher.

(** A match object, reduced to what the program reads from it. *)
Record match_object : Type := { group1 : option string }.

Definition match_at (ignorecase : bool) (r : regex) (s : string)
    : option match_object :=
  rmatch ignorecase r s None (fun g _ => Some {| group1 := g |}).

Fixpoint first_some {A B} (f : A -> option B) (l : list A) : option B :=
  match l with
  | [] => None
  | x :: l' => match f x with Some y => Some y | None => first_some f l' end
  end.

(** [re.search]: the match at the leftmost position that has one. *)
Definition search (ignorecase : bool) (r : regex) (s : string)
    : option match_object :=
  first_some (match_at ignorecase r) (suffixes s).

Fixpoint lits (s : string) (r : regex) : regex :=
  match s with
  | EmptyString => r
  | String c s' => Seq (Atom (Lit c)) (lits s' r)
  end.

End Re.

(* ===================================================================== *)
(** * Python values, exceptions and the world                              *)
(* ===================================================================== *)

Module Py.

(** The values YAML and JSON documents are made of. Floats are left out, and
    so are YAML anchors, which would make two places of a document one
    object: a document is a tree. Dictionary keys are strings. *)
#[warnings="-register-all"]
Inductive pyval : Type :=
| PNone
| PBool (b : bool)
| PInt (n : Z)
| PStr (s : string)
| PList (l : list pyval)
| PDict (d : list (string * pyval)).

Inductive exn_class : Type :=
| FileNotFoundError | YAMLError | KeyError | TypeError | AttributeError
| ValueError | NetmikoTimeoutException | NetmikoAuthenticationException
| TimeoutExpired | OtherException.

(** An exception: its class and [str(e)]. Every class here derives from
    [Exception]. *)
Record exn : Type := Exn { exn_cls : exn_class; exn_str : string }.

Definition is_class (c : exn_class) (e : exn) : bool :=
  match c, exn_cls e with
  | FileNotFoundError, FileNotFoundError | YAMLError, YAMLError
  | KeyError, KeyError | TypeError, TypeError
  | AttributeError, AttributeError | ValueError, ValueError
  | NetmikoTimeoutException, NetmikoTimeoutException
  | NetmikoAuthenticationException, NetmikoAuthenticationException
  | TimeoutExpired, TimeoutExpired | OtherException, OtherException => true
  | _, _ => false
  end.

Definition type_name (v : pyval) : string :=
  match v with
  | PNone => "NoneType" | PBool _ => "bool" | PInt _ => "int"
  | PStr _ => "str" | PList _ => "list" | PDict _ => "dict"
  end.

Definition quoted (s : string) : string := "'" ++ s ++ "'".

(** The text of one double quote. *)
Definition dquote : string := String (ascii_of_nat 34) EmptyString.

(** [bool(v)] *)
Definition truthy (v : pyval) : bool :=
  match v with
  | PNone => false
  | PBool b => b
  | PInt n => negb (n =? 0)%Z
  | PStr s => negb (String.eqb s "")
  | PList l => match l with [] => false | _ => true end
  | PDict d => match d with [] => false | _ => true end
  end.

Fixpoint assoc {A} (k : string) (d : list (string * A)) : option A :=
  match d with
  | [] => None
  | (k', v) :: d' => if String.eqb k k' then Some v else assoc k d'
  end.

(** [d[k] = v] on the entries of a dictionary. *)
Fixpoint assoc_set {A} (k : string) (v : A) (d : list (string * A))
    : list (string * A) :=
  match d with
  | [] => [(k, v)]
  | (k', v') :: d' =>
      if String.eqb k k' then (k, v) :: d' else (k', v') :: assoc_set k v d'
  end.

(** [int(v)] of a number; [bool] is a subclass of [int]. *)
Definition number (v : pyval) : option Z :=
  match v with
  | PInt n => Some n
  | PBool b => Some (Z.b2z b)
  | _ => None
  end.

(** [a == b] *)
Fixpoint py_eq (a b : pyval) {struct a} : bool :=
  match a, b with
  | PNone, PNone => true
  | PBool x, PBool y => Bool.eqb x y
  | PBool x, PInt n => (Z.b2z x =? n)%Z
  | PInt n, PBool x => (n =? Z.b2z x)%Z
  | PInt n, PInt m => (n =? m)%Z
  | PStr s, PStr t => String.eqb s t
  | PList l, PList l' =>
      (fix go (l l' : list pyval) : bool :=
         match l, l' with
         | [], [] => true
         | x :: l, y :: l' => py_eq x y && go l l'
         | _, _ => false
         end) l l'
  | PDict d, PDict d' =>
      Nat.eqb (List.length d) (List.length d') &&
      (fix all (d : list (string * pyval)) : bool :=
         match d with
         | [] => true
         | (k, v) :: d =>
             match assoc k d' with
             | Some v' => py_eq v v'
             | None => false
             end && all d
         end) d
  | _, _ => false
  end.

(** What the process exchanges with the outside. *)
Record completed_process : Type :=
  { returncode : Z; stdout : string; stderr : string }.

(** Devices, the ping utility, the clock and the file system apart from the
    inventory file: each call takes the state of the outside to a new state
    and either returns or raises. *)
Class Outside : Type := {
  net : Type;
  connect_handler : list (string * pyval) -> net -> net * (exn + unit);
  conn_send_command : string -> net -> net * (exn + string);
  conn_enable : net -> net * (exn + unit);
  conn_send_config_set : pyval -> net -> net * (exn + string);
  conn_save_config : net -> net * (exn + string);
  conn_disconnect : net -> net * (exn + unit);
  subprocess_run : list pyval -> net -> net * (exn + completed_process);
  platform_system : net -> string;
  strftime : string -> net -> string;
  write_text : string -> string -> net -> net * (exn + unit);
  (** [yaml.safe_load] of a value handed over as the text of a document *)
  safe_load : pyval -> exn + pyval;
  (** [str(v)] of a value that is not a string *)
  repr : pyval -> string
}.

(** What the process did to the outside, in order. *)
Inductive event : Type :=
| EvOpenInventory                         (* open(devices.yaml, 'r') *)
| EvSaveInventory (v : pyval)             (* yaml.dump into devices.yaml *)
| EvConnect (args : list (string * pyval))
| EvSendCommand (c : string)
| EvEnable
| EvSendConfigSet (cs : pyval)
| EvSaveConfig
| EvDisconnect
| EvRun (cmd : list pyval)
| EvWriteText (path text : string).

(** The inventory file: missing, not YAML, or the document [yaml.safe_load]
    reads from it. *)
Inductive file_state : Type :=
| Absent
| Unparseable (why : string)
| Document (v : pyval).

Section World.
Context `{Outside}.

Record world : Type := World {
  inventory : file_state;
  outside : net;
  session : gmap string string;
  printed : list string;
  trace : list event
}.

(** A computation that may raise. *)
Definition M (A : Type) : Type := world -> world * (exn + A).

Definition ret {A} (x : A) : M A := fun w => (w, inr x).
Definition raise {A} (e : exn) : M A := fun w => (w, inl e).
Definition bind {A B} (m : M A) (f : A -> M B) : M B :=
  fun w => match m w with
           | (w', inr x) => f x w'
           | (w', inl e) => (w', inl e)
           end.
(** [try: m  except Exception as e: h e] *)
Definition try_except {A} (m : M A) (h : exn -> M A) : M A :=
  fun w => match m w with
           | (w', inr x) => (w', inr x)
           | (w', inl e) => h e w'
           end.
Definition lift {A} (r : exn + A) : M A := fun w => (w, r).
Definition get_world : M world := fun w => (w, inr w).
Definition log (ev : event) : M unit :=
  fun w => (World (inventory w) (outside w) (session w) (printed w)
                  (trace w ++ [ev]), inr tt).
Definition print (s : string) : M unit :=
  fun w => (World (inventory w) (outside w) (session w) (printed w ++ [s])
                  (trace w), inr tt).
(** A call to the outside, recorded in the trace before it is made. *)
Definition call {A} (ev : event) (f : net -> net * (exn + A)) : M A :=
  fun w => let '(n, r) := f (outside w) in
           (World (inventory w) n (session w) (printed w) (trace w ++ [ev]), r).
Definition set_inventory (f : file_state) : M unit :=
  fun w => (World f (outside w) (session w) (printed w) (trace w), inr tt).
Definition set_session (s : gmap string string) : M unit :=
  fun w => (World (inventory w) (outside w) s (printed w) (trace w), inr tt).
(** [datetime.now().strftime(fmt)] *)
Definition now (fmt : string) : M string :=
  fun w => (w, inr (strftime fmt (outside w))).

(** [open('devices.yaml', 'r')] followed by [yaml.safe_load] of the file *)
Definition read_yaml : M pyval :=
  fun w =>
    let w' := World (inventory w) (outside w) (session w) (printed w)
                    (trace w ++ [EvOpenInventory]) in
    match inventory w with
    | Absent => (w', inl (Exn FileNotFoundError "devices.yaml"))
    | Unparseable why => (w', inl (Exn YAMLError why))
    | Document v => (w', inr v)
    end.
End World.

Declare Scope py_scope.
Delimit Scope py_scope with py.
Notation "'do' x <- m ; k" := (bind m (fun x => k))
  (at level 10, x name, m at level 100, k at level 200) : py_scope.
Notation "'run' m ; k" := (bind m (fun _ => k))
  (at level 10, m at level 100, k at level 200) : py_scope.

Section Builtins.
Context `{Outside}.
Local Open Scope py_scope.

(** [str(v)], as an f-string formats a value. *)
Definition str (v : pyval) : string :=
  match v with PStr s => s | _ => repr v end.

(** [v[k]] for a string key *)
Definition getitem (v : pyval) (k : string) : exn + pyval :=
  match v with
  | PDict d =>
      match assoc k d with
      | Some x => inr x
      | None => inl (Exn KeyError (quoted k))
      end
  | PStr _ => inl (Exn TypeError "string indices must be integers")
  | PList _ => inl (Exn TypeError "list indices must be integers or slices, not str")
  | _ => inl (Exn TypeError (quoted (type_name v) ++ " object is not subscriptable"))
  end.

(** [v.get(k, default)] *)
Definition get (v : pyval) (k : string) (default : pyval) : exn + pyval :=
  match v with
  | PDict d => inr (match assoc k d with Some x => x | None => default end)
  | _ => inl (Exn AttributeError
                (quoted (type_name v) ++ " object has no attribute 'get'"))
  end.

(** [k in v] for a string [k] *)
Definition contains_key (k : string) (v : pyval) : exn + bool :=
  match v with
  | PDict d => inr (match assoc k d with Some _ => true | None => false end)
  | PList l => inr (existsb (py_eq (PStr k)) l)
  | PStr s => inr (Text.contains k s)
  | _ => inl (Exn TypeError
                ("argument of type " ++ quoted (type_name v) ++ " is not iterable"))
  end.

(** The items a [for] loop over [v] visits. *)
Definition iterate (v : pyval) : exn + list pyval :=
  match v with
  | PList l => inr l
  | PDict d => inr (map (fun kv => PStr (fst kv)) d)
  | PStr s => inr (map (fun c => PStr (String c EmptyString))
                       (list_ascii_of_string s))
  | _ => inl (Exn TypeError (quoted (type_name v) ++ " object is not iterable"))
  end.

(** [v[k] = x] *)
Definition setitem (v : pyval) (k : string) (x : pyval) : exn + pyval :=
  match v with
  | PDict d => inr (PDict (assoc_set k x d))
  | _ => inl (Exn TypeError
                (quoted (type_name v) ++ " object does not support item assignment"))
  end.
End Builtins.

End Py.

(* ===================================================================== *)
(** * netmiko_config.py                                                    *)
(* ===================================================================== *)

Module NetmikoConfig.
Import Py.
Local Open Scope py_scope.

Section Defs.
Context `{Outside}.

Definition load_devices : M pyval :=
  try_except
    (do loaded <- read_yaml;
     let data := if truthy loaded then loaded else PDict [] in
     lift (get data "devices" (PList [])))
    (fun e => if is_class FileNotFoundError e then ret (PList [])
              else raise e).

(** [yaml.dump] writes a document that [yaml.safe_load] reads back as an
    equal value; opening the file for writing succeeds. *)
Definition save_devices (devices : pyval) : M unit :=
  run log (EvSaveInventory devices);
  set_inventory (Document devices).

Definition configure_device (device : pyval) (commands : list string)
    : M string :=
  try_except
    (do device_type <- lift (getitem device "device_type");
     do host <- lift (getitem device "ip");
     do username <- lift (getitem device "username");
     do password <- lift (getitem device "password");
     let args := [("device_type", device_type); ("host", host);
                  ("username", username); ("password", password)] in
     run call (EvConnect args) (connect_handler args);
     let cmds := PList (map PStr commands) in
     do output <- call (EvSendConfigSet cmds) (conn_send_config_set cmds);
     run call EvSaveConfig conn_save_config;
     run call EvDisconnect conn_disconnect;
     ret output)
    (fun e =>
       do name <- lift (getitem device "name");
       ret ("Error configurando " +:+ str name +:+ ": " +:+ exn_str e)).
End Defs.
End NetmikoConfig.

(* ===================================================================== *)
(** * graphql_schema.py                                                    *)
(* ===================================================================== *)

Module GraphqlSchema.
Import Py.
Local Open Scope py_scope.

(** [class Device(graphene.ObjectType)]; a field that was not given is
    [None]. *)
Record Device : Type := {
  id : pyval;
  name : pyval;
  host : pyval;
  username : pyval;
  password : pyval;
  secret : pyval;
  device_type : pyval
}.

(** [class DeviceInput(graphene.InputObjectType)], every field a required
    [String]. *)
Record DeviceInput : Type := {
  in_name : string;
  in_host : string;
  in_username : string;
  in_password : string;
  in_secret : string;
  in_device_type : string
}.

Definition Device_fields : list string :=
  ["id"; "name"; "host"; "username"; "password"; "secret"; "device_type"].

Definition field (d : list (string * pyval)) (k : string) : pyval :=
  match assoc k d with Some v => v | None => PNone end.

(** [Device] built from the entries of [dev] as keywords; a keyword that is
    not a field is a [TypeError]. *)
Definition Device_of (d : list (string * pyval)) : exn + Device :=
  match List.find (fun kv => negb (existsb (String.eqb (fst kv)) Device_fields)) d with
  | Some (k, _) =>
      inl (Exn TypeError (quoted k +:+ " is an invalid keyword argument for Device"))
  | None =>
      inr {| id := field d "id"; name := field d "name";
             host := field d "host"; username := field d "username";
             password := field d "password"; secret := field d "secret";
             device_type := field d "device_type" |}
  end.

(** [x == n] for an integer [n] *)
Definition eq_int (x : pyval) (n : Z) : bool := py_eq x (PInt n).

Section Defs.
Context `{Outside}.

(** [Query.resolve_devices] *)
Fixpoint devices_of (l : list pyval) : exn + list Device :=
  match l with
  | [] => inr []
  | PDict d :: l' =>
      match Device_of d with
      | inl e => inl e
      | inr dev =>
          match devices_of l' with
          | inl e => inl e
          | inr devs => inr (dev :: devs)
          end
      end
  | _ :: l' => devices_of l'
  end.

Definition resolve_devices : M (list Device) :=
  do devices <- NetmikoConfig.load_devices;
  do items <- lift (iterate devices);
  lift (devices_of items).

(** The loop of [Query.resolve_device_by_id] *)
Fixpoint find_by_id (l : list pyval) (id : Z) : exn + option Device :=
  match l with
  | [] => inr None
  | PDict d :: l' =>
      if eq_int (field d "id") id
      then match Device_of d with
           | inl e => inl e
           | inr dev => inr (Some dev)
           end
      else find_by_id l' id
  | _ :: l' => find_by_id l' id
  end.

Definition resolve_device_by_id (id : Z) : M (option Device) :=
  do devices <- NetmikoConfig.load_devices;
  do items <- lift (iterate devices);
  lift (find_by_id items id).

(** [[d["id"] for d in devices]] *)
Fixpoint ids_of (l : list pyval) : exn + list pyval :=
  match l with
  | [] => inr []
  | d :: l' =>
      match getitem d "id" with
      | inl e => inl e
      | inr i =>
          match ids_of l' with
          | inl e => inl e
          | inr rest => inr (i :: rest)
          end
      end
  end.

(** [max(ids) + 1] on a list that is not empty. Among the values of
    [pyval] only numbers can be both compared with one another and added
    to 1; with any other value in the list either [max] or the addition
    is a [TypeError]. *)
Fixpoint numbers (l : list pyval) : option (list Z) :=
  match l with
  | [] => Some []
  | v :: l' =>
      match number v, numbers l' with
      | Some n, Some ns => Some (n :: ns)
      | _, _ => None
      end
  end.

Definition max_plus_1 (ids : list pyval) : exn + Z :=
  match numbers ids with
  | Some (n :: ns) => inr (fold_left Z.max ns n + 1)%Z
  | Some [] => inl (Exn ValueError "max() arg is an empty sequence")
  | None => inl (Exn TypeError "unsupported operand type(s)")
  end.

(** [devices.append(x)] *)
Definition append (devices x : pyval) : exn + pyval :=
  match devices with
  | PList l => inr (PList (l ++ [x]))
  | _ => inl (Exn AttributeError
                (quoted (type_name devices) +:+ " object has no attribute 'append'"))
  end.

(** [CreateDevice.mutate]; the result is the [device] of the payload. *)
Definition CreateDevice_mutate (device_data : DeviceInput) : M pyval :=
  do devices <- NetmikoConfig.load_devices;
  do new_id <-
    (if truthy devices then
       do items <- lift (iterate devices);
       do ids <- lift (ids_of items);
       lift (max_plus_1 ids)
     else ret 1%Z);
  let new_device := PDict [
    ("id", PInt new_id);
    ("name", PStr (in_name device_data));
    ("host", PStr (in_host device_data));
    ("username", PStr (in_username device_data));
    ("password", PStr (in_password device_data));
    ("secret", PStr (in_secret device_data));
    ("device_type", PStr (in_device_type device_data))] in
  do devices' <- lift (append devices new_device);
  run NetmikoConfig.save_devices (PDict [("devices", devices')]);
  run NetmikoConfig.configure_device new_device
        ["hostname " +:+ in_name device_data];
  ret new_device.

(** The six assignments [dev[...] = device_data....] *)
Definition assign (dev : pyval) (device_data : DeviceInput) : exn + pyval :=
  match dev with
  | PDict d =>
      inr (PDict
        (assoc_set "device_type" (PStr (in_device_type device_data))
        (assoc_set "secret" (PStr (in_secret device_data))
        (assoc_set "password" (PStr (in_password device_data))
        (assoc_set "username" (PStr (in_username device_data))
        (assoc_set "host" (PStr (in_host device_data))
        (assoc_set "name" (PStr (in_name device_data)) d)))))))
  | _ => setitem dev "name" (PStr (in_name device_data))
  end.

(** The loop of [UpdateDevice.mutate], at the entry that follows [seen];
    [rebuild] puts the list of entries back into the object that was
    loaded. The result is [None], or the [device] of the payload. *)
Fixpoint update_loop (rebuild : list pyval -> pyval)
    (seen rest : list pyval) (id : Z) (device_data : DeviceInput)
    : M (option pyval) :=
  match rest with
  | [] => ret None
  | dev :: rest' =>
      do dev_id <- lift (getitem dev "id");
      if eq_int dev_id id then
        do dev' <- lift (assign dev device_data);
        run NetmikoConfig.save_devices
              (PDict [("devices", rebuild (seen ++ dev' :: rest'))]);
        run NetmikoConfig.configure_device dev'
              ["hostname " +:+ in_name device_data];
        ret (Some dev')
      else update_loop rebuild (seen ++ [dev]) rest' id device_data
  end.

Definition UpdateDevice_mutate (id : Z) (device_data : DeviceInput)
    : M (option pyval) :=
  do devices <- NetmikoConfig.load_devices;
  do items <- lift (iterate devices);
  update_loop (fun l => match devices with PList _ => PList l | _ => devices end)
              [] items id device_data.

(** [[d for d in devices if d["id"] != id]] *)
Fixpoint without_id (l : list pyval) (id : Z) : exn + list pyval :=
  match l with
  | [] => inr []
  | d :: l' =>
      match getitem d "id" with
      | inl e => inl e
      | inr i =>
          match without_id l' id with
          | inl e => inl e
          | inr kept => inr (if eq_int i id then kept else d :: kept)
          end
      end
  end.

(** [DeleteDevice.mutate]; the result is the [ok] of the payload. *)
Definition DeleteDevice_mutate (id : Z) : M bool :=
  do devices <- NetmikoConfig.load_devices;
  do items <- lift (iterate devices);
  do kept <- lift (without_id items id);
  run NetmikoConfig.save_devices (PDict [("devices", PList kept)]);
  ret true.
End Defs.
End GraphqlSchema.

(* ===================================================================== *)
(** * app.py                                                               *)
(* ===================================================================== *)

Module App.
Import Py.
Local Open Scope py_scope.

(** ** Reading a response time out of the text of ping *)

(** [r'time[=<]\s*(\d+(?:\.\d+)?)\s*ms'] *)
Definition time_pattern : Re.regex :=
  Re.lits "time"
    (Re.Seq (Re.Atom (Re.OneOf ["="%char; "<"%char]))
    (Re.Seq (Re.Star Re.Space)
    (Re.Seq (Re.Group
               (Re.Seq (Re.Plus Re.Digit)
                       (Re.Opt (Re.Seq (Re.Atom (Re.Lit "."%char))
                                       (Re.Plus Re.Digit)))))
    (Re.Seq (Re.Star Re.Space)
    (Re.lits "m" (Re.Atom (Re.Lit "s"%char))))))).

(** The body of the loop of [extract_response_time] on one line: the value
    it returns, or [None] when it goes on to the next line. *)
Definition line_time (line : string) : option Q :=
  if Text.contains "time=" line || Text.contains "tiempo=" line then
    match Re.search true time_pattern line with
    | Some time_match =>
        match Re.group1 time_match with
        | Some text => Some (Text.float text)
        | None => None
        end
    | None => None
    end
  else None.

Fixpoint scan_lines (lines : list string) : option Q :=
  match lines with
  | [] => None
  | line :: lines' =>
      match line_time line with
      | Some t => Some t
      | None => scan_lines lines'
      end
  end.

Definition extract_response_time (ping_output : string) : option Q :=
  scan_lines (Text.split Text.newline ping_output).

(** The dictionary [ping_device] returns. *)
Record ping_result : Type := {
  status : string;
  message : string;
  output : string;
  response_time : option Q
}.

(** [USERS] *)
Record user_entry : Type := { user_password : string; user_role : string }.

Definition USERS : gmap string user_entry :=
  <["admin" := {| user_password := "admin123"; user_role := "admin" |}]>
  (<["user" := {| user_password := "user123"; user_role := "user" |}]> ∅).

(** A request, as far as the handlers read it, and a response. *)
Record request : Type := { method : string; get_json : pyval }.
Record response : Type := { body : pyval; status_code : Z }.

Definition jsonify (d : list (string * pyval)) (code : Z) : response :=
  {| body := PDict d; status_code := code |}.

Definition error (text : string) (code : Z) : response :=
  jsonify [("error", PStr text)] code.

Definition timestamp_format : string := "%Y-%m-%d %H:%M:%S".

(** One entry of the results of [/ping], and what the route answers: a JSON
    body of plain values, or [jsonify({'results': results})], whose entries
    hold the dictionaries of [ping_device]. *)
Record ping_entry : Type := {
  entry_name : pyval;
  entry_host : pyval;
  entry_result : ping_result;
  entry_timestamp : string
}.

Inductive ping_reply : Type :=
| PingJson (r : response)
| PingResults (results : list ping_entry).

Section Defs.
Context `{Outside}.

Definition load_devices : M pyval :=
  try_except
    (do data <- read_yaml;
     lift (getitem data "devices"))
    (fun e =>
       if is_class FileNotFoundError e then
         run print "Error: No se encontró el archivo devices.yaml";
         ret (PList [])
       else if is_class YAMLError e then
         run print ("Error al leer el archivo YAML: " +:+ exn_str e);
         ret (PList [])
       else raise e).

(** The pair [connect_to_device] returns: an error text without a
    connection, or the connection. *)
Definition connect_to_device (device_info : pyval) : M (string + unit) :=
  try_except
    (do device_type <- lift (getitem device_info "device_type");
     do host <- lift (getitem device_info "host");
     do username <- lift (getitem device_info "username");
     do password <- lift (getitem device_info "password");
     do secret <- lift (get device_info "secret" (PStr ""));
     let args := [("device_type", device_type); ("host", host);
                  ("username", username); ("password", password);
                  ("secret", secret); ("timeout", PInt 10)] in
     run call (EvConnect args) (connect_handler args);
     ret (inr tt))
    (fun e =>
       if is_class NetmikoTimeoutException e then
         ret (inl "Timeout - No se pudo conectar al dispositivo")
       else if is_class NetmikoAuthenticationException e then
         ret (inl "Error de autenticación")
       else ret (inl ("Error de conexión: " +:+ exn_str e))).

Definition ping_device (host : pyval) : M ping_result :=
  try_except
    (do w <- get_world;
     let system := platform_system (outside w) in
     let cmd :=
       if String.eqb (string_of_list_ascii
                        (map Text.lower (list_ascii_of_string system)))
                     "windows"
       then [PStr "ping"; PStr "-n"; PStr "4"; host]
       else [PStr "ping"; PStr "-c"; PStr "4"; host] in
     do result <- call (EvRun cmd) (subprocess_run cmd);
     if (returncode result =? 0)%Z then
       ret {| status := "success";
              message := "Dispositivo alcanzable";
              output := stdout result;
              response_time := extract_response_time (stdout result) |}
     else
       ret {| status := "error";
              message := "Dispositivo no alcanzable";
              output := stdout result +:+ stderr result;
              response_time := None |})
    (fun e =>
       if is_class TimeoutExpired e then
         ret {| status := "timeout";
                message := "Tiempo de espera agotado";
                output := "El ping excedió el tiempo límite de 10 segundos";
                response_time := None |}
       else
         ret {| status := "error";
                message := "Error al ejecutar ping: " +:+ exn_str e;
                output := "";
                response_time := None |}).

(** ** Sessions *)

Definition login (req : request) : M response :=
  let data := get_json req in
  do username <- lift (get data "username" PNone);
  do password <- lift (get data "password" PNone);
  do entry <-
    match username with
    | PStr u => ret (USERS !! u)
    | PList _ | PDict _ =>
        raise (Exn TypeError ("unhashable type: " +:+ quoted (type_name username)))
    | _ => ret None
    end;
  match entry, username with
  | Some user, PStr u =>
      if py_eq (PStr (user_password user)) password then
        do w <- get_world;
        run set_session (<["role" := user_role user]>
                         (<["username" := u]> (session w)));
        ret (jsonify [("success", PBool true);
                      ("role", PStr (user_role user));
                      ("username", username)] 200)
      else
        ret (jsonify [("success", PBool false);
                      ("message", PStr "Usuario o contraseña incorrectos")] 200)
  | _, _ =>
      ret (jsonify [("success", PBool false);
                    ("message", PStr "Usuario o contraseña incorrectos")] 200)
  end.

Definition logout : M response :=
  run set_session ∅;
  ret (jsonify [("success", PBool true)] 200).

(** ['username' not in session or session['role'] != 'admin'] *)
Definition not_admin : M bool :=
  do w <- get_world;
  match session w !! "username" with
  | None => ret true
  | Some _ =>
      match session w !! "role" with
      | None => raise (Exn KeyError (quoted "role"))
      | Some role => ret (negb (String.eqb role "admin"))
      end
  end.

(** [next((d for d in devices if d['name'] == device_name), None)] *)
Fixpoint first_named (l : list pyval) (device_name : pyval)
    : exn + option pyval :=
  match l with
  | [] => inr None
  | d :: l' =>
      match getitem d "name" with
      | inl e => inl e
      | inr n => if py_eq n device_name then inr (Some d)
                 else first_named l' device_name
      end
  end.

Definition find_device (devices device_name : pyval) : M (option pyval) :=
  do items <- lift (iterate devices);
  lift (first_named items device_name).

(** [not device] *)
Definition missing (device : option pyval) : bool :=
  match device with
  | None => true
  | Some d => negb (truthy d)
  end.

(** ** Monitoring *)

(** [get_device_config], [get_interfaces], [get_cdp_neighbors] and
    [get_interface_traffic] are one text in the source but for the command
    sent, the key of the answer and the words of the error. *)
Definition monitoring (command key failure : string) (req : request)
    : M response :=
  do denied <- not_admin;
  if denied then ret (error "Acceso denegado" 403) else
  let data := get_json req in
  do device_name <- lift (get data "device_name" PNone);
  do devices <- load_devices;
  do device <- find_device devices device_name;
  match device with
  | Some dev =>
      if negb (truthy dev) then ret (error "Dispositivo no encontrado" 404) else
      do connection <- connect_to_device dev;
      match connection with
      | inl err => ret (error err 500)
      | inr _ =>
          try_except
            (do out <- call (EvSendCommand command) (conn_send_command command);
             run call EvDisconnect conn_disconnect;
             do stamp <- now timestamp_format;
             ret (jsonify [("success", PBool true);
                           ("device", device_name);
                           (key, PStr out);
                           ("timestamp", PStr stamp)] 200))
            (fun e =>
               run call EvDisconnect conn_disconnect;
               ret (error (failure +:+ exn_str e) 500))
      end
  | None => ret (error "Dispositivo no encontrado" 404)
  end.

Definition get_device_config : request -> M response :=
  monitoring "show running-config" "config" "Error al obtener configuración: ".
Definition get_interfaces : request -> M response :=
  monitoring "show ip interface brief" "interfaces" "Error al obtener interfaces: ".
Definition get_cdp_neighbors : request -> M response :=
  monitoring "show cdp neighbors detail" "cdp_neighbors"
             "Error al obtener vecinos CDP: ".
Definition get_interface_traffic : request -> M response :=
  monitoring "show interfaces" "traffic_info" "Error al obtener tráfico: ".

(** ** Maintenance *)

Definition simulation_steps : list string :=
  ["Verificando versión actual del sistema...";
   "Descargando archivo de parche...";
   "Verificando integridad del archivo...";
   "Creando respaldo de configuración...";
   "Aplicando parche de seguridad...";
   "Reiniciando servicios...";
   "Verificando funcionamiento...";
   "Parche aplicado exitosamente"].

Definition simulate_patch (req : request) : M response :=
  do denied <- not_admin;
  if denied then ret (error "Acceso denegado" 403) else
  let data := get_json req in
  do device_name <- lift (get data "device_name" PNone);
  do devices <- load_devices;
  do device <- find_device devices device_name;
  if missing device then ret (error "Dispositivo no encontrado" 404) else
  do stamp <- now timestamp_format;
  ret (jsonify [("success", PBool true);
                ("device", device_name);
                ("simulation_steps", PList (map PStr simulation_steps));
                ("status", PStr "completed");
                ("timestamp", PStr stamp)] 200).

(** One entry of the result of a template. *)
Definition command_result (command : pyval) (out status : string) : pyval :=
  PDict [("command", command); ("output", PStr out); ("status", PStr status)].

(** What the loop of [apply_yaml_template] tries for one command: the
    output of the device. [command.startswith] exists on a string only. *)
Definition send_template_command (command : pyval) : M string :=
  do text <-
    match command with
    | PStr s => ret s
    | _ => raise (Exn AttributeError
                    (quoted (type_name command) +:+
                     " object has no attribute 'startswith'"))
    end;
  if Text.startswith "configure" text then
    run call EvEnable conn_enable;
    call (EvSendCommand text) (conn_send_command text)
  else call (EvSendCommand text) (conn_send_command text).

(** The body of the loop: the entry it appends to [results]. *)
Definition run_command (command : pyval) : M pyval :=
  try_except
    (do out <- send_template_command command;
     ret (command_result command out "success"))
    (fun cmd_error =>
       ret (command_result command (exn_str cmd_error) "error")).

(** [for command in commands: ...], from the [results] built so far. *)
Fixpoint apply_commands (commands results : list pyval) : M (list pyval) :=
  match commands with
  | [] => ret results
  | command :: commands' =>
      do entry <- run_command command;
      apply_commands commands' (results ++ [entry])
  end.

Definition apply_yaml_template (req : request) : M response :=
  do denied <- not_admin;
  if denied then ret (error "Acceso denegado" 403) else
  let data := get_json req in
  do device_name <- lift (get data "device_name" PNone);
  do template_content <- lift (get data "template_content" PNone);
  do devices <- load_devices;
  do device <- find_device devices device_name;
  match device with
  | Some dev =>
      if negb (truthy dev) then ret (error "Dispositivo no encontrado" 404) else
      try_except
        (do yaml_data <- lift (safe_load template_content);
         do has_commands <- lift (contains_key "commands" yaml_data);
         if negb has_commands then
           ret (error ("Template debe contener una sección " +:+ dquote +:+
                      "commands" +:+ dquote) 400)
         else
         do connection <- connect_to_device dev;
         match connection with
         | inl err => ret (error err 500)
         | inr _ =>
             do commands_value <- lift (getitem yaml_data "commands");
             do commands <- lift (iterate commands_value);
             do results <- apply_commands commands [];
             run call EvDisconnect conn_disconnect;
             do stamp <- now timestamp_format;
             ret (jsonify [("success", PBool true);
                           ("device", device_name);
                           ("results", PList results);
                           ("timestamp", PStr stamp)] 200)
         end)
        (fun e =>
           if is_class YAMLError e then
             ret (error ("Error en formato YAML: " +:+ exn_str e) 400)
           else ret (error ("Error al aplicar template: " +:+ exn_str e) 500))
  | None => ret (error "Dispositivo no encontrado" 404)
  end.

Definition maintenance_backup (req : request) : M response :=
  do denied <- not_admin;
  if denied then ret (error "Acceso denegado" 403) else
  let data := get_json req in
  do device_name <- lift (get data "device_name" PNone);
  do devices <- load_devices;
  do device <- find_device devices device_name;
  match device with
  | Some dev =>
      if negb (truthy dev) then ret (error "Dispositivo no encontrado" 404) else
      try_except
        (do connection <- connect_to_device dev;
         match connection with
         | inl err => ret (error err 500)
         | inr _ =>
             run call EvEnable conn_enable;
             do out <- call (EvSendCommand "show running-config")
                            (conn_send_command "show running-config");
             run call EvDisconnect conn_disconnect;
             do stamp_of_file <- now "%Y%m%d%H%M%S";
             let filename := "/backups_routers/backup_" +:+ str device_name
                             +:+ "_" +:+ stamp_of_file +:+ ".txt" in
             run call (EvWriteText filename out) (write_text filename out);
             do stamp <- now timestamp_format;
             ret (jsonify
                    [("success", PBool true);
                     ("message", PStr ("Backup realizado correctamente y guardado como "
                                       +:+ filename));
                     ("timestamp", PStr stamp)] 200)
         end)
        (fun e => ret (error ("Error al realizar backup: " +:+ exn_str e) 500))
  | None => ret (error "Dispositivo no encontrado" 404)
  end.

(** ** Security *)

Definition change_device_password (req : request) : M response :=
  do denied <- not_admin;
  if denied then ret (error "Acceso denegado" 403) else
  let data := get_json req in
  do device_name <- lift (get data "device_name" PNone);
  do new_password <- lift (get data "new_password" PNone);
  do username_to_change <- lift (get data "username_to_change" (PStr "admin"));
  do devices <- load_devices;
  do device <- find_device devices device_name;
  match device with
  | Some dev =>
      if negb (truthy dev) then ret (error "Dispositivo no encontrado" 404) else
      do connection <- connect_to_device dev;
      match connection with
      | inl err => ret (error err 500)
      | inr _ =>
          try_except
            (run call EvEnable conn_enable;
             let config_commands := PList [
               PStr "configure terminal";
               PStr ("username " +:+ str username_to_change +:+ " password "
                     +:+ str new_password);
               PStr "exit"] in
             do out <- call (EvSendConfigSet config_commands)
                            (conn_send_config_set config_commands);
             do save_output <- call (EvSendCommand "write memory")
                                    (conn_send_command "write memory");
             run call EvDisconnect conn_disconnect;
             do stamp <- now timestamp_format;
             ret (jsonify
                    [("success", PBool true);
                     ("device", device_name);
                     ("message", PStr ("Contraseña cambiada exitosamente para usuario "
                                       +:+ str username_to_change));
                     ("output", PStr out);
                     ("save_output", PStr save_output);
                     ("timestamp", PStr stamp)] 200))
            (fun e =>
               run call EvDisconnect conn_disconnect;
               ret (error ("Error al cambiar contraseña: " +:+ exn_str e) 500))
      end
  | None => ret (error "Dispositivo no encontrado" 404)
  end.

Definition manage_users (req : request) : M response :=
  do denied <- not_admin;
  if denied then ret (error "Acceso denegado" 403) else
  let data := get_json req in
  do device_name <- lift (get data "device_name" PNone);
  do user_action <- lift (get data "action" PNone);
  do username <- lift (get data "username" PNone);
  do password <- lift (get data "password" (PStr ""));
  do devices <- load_devices;
  do device <- find_device devices device_name;
  match device with
  | Some dev =>
      if negb (truthy dev) then ret (error "Dispositivo no encontrado" 404) else
      do connection <- connect_to_device dev;
      match connection with
      | inl err => ret (error err 500)
      | inr _ =>
          try_except
            (run call EvEnable conn_enable;
             let finish (config_cmds : pyval) (message : string) : M response :=
               do out <- call (EvSendConfigSet config_cmds)
                              (conn_send_config_set config_cmds);
               run call EvDisconnect conn_disconnect;
               do stamp <- now timestamp_format;
               ret (jsonify [("success", PBool true);
                             ("message", PStr message);
                             ("output", PStr out);
                             ("timestamp", PStr stamp)] 200) in
             if py_eq user_action (PStr "add") then
               finish (PList [PStr "configure terminal";
                              PStr ("username " +:+ str username +:+
                                    " privilege 15 password " +:+ str password);
                              PStr "exit"])
                      ("Usuario " +:+ str username +:+ " agregado correctamente")
             else if py_eq user_action (PStr "remove") then
               finish (PList [PStr "configure terminal";
                              PStr ("no username " +:+ str username);
                              PStr "exit"])
                      ("Usuario " +:+ str username +:+ " eliminado correctamente")
             else ret (error "Acción no válida" 400))
            (fun e =>
               run call EvDisconnect conn_disconnect;
               ret (error ("Error al gestionar usuarios: " +:+ exn_str e) 500))
      end
  | None => ret (error "Dispositivo no encontrado" 404)
  end.

Definition configure_acls (req : request) : M response :=
  do denied <- not_admin;
  if denied then ret (error "Acceso denegado" 403) else
  let data := get_json req in
  do device_name <- lift (get data "device_name" PNone);
  do acl_commands <- lift (get data "acl_commands" (PList []));
  do devices <- load_devices;
  do device <- find_device devices device_name;
  match device with
  | Some dev =>
      if negb (truthy dev) then ret (error "Dispositivo no encontrado" 404) else
      do connection <- connect_to_device dev;
      match connection with
      | inl err => ret (error err 500)
      | inr _ =>
          try_except
            (run call EvEnable conn_enable;
             do out <- call (EvSendConfigSet acl_commands)
                            (conn_send_config_set acl_commands);
             run call EvDisconnect conn_disconnect;
             do stamp <- now timestamp_format;
             ret (jsonify [("success", PBool true);
                           ("message", PStr "ACLs configuradas correctamente");
                           ("output", PStr out);
                           ("timestamp", PStr stamp)] 200))
            (fun e =>
               run call EvDisconnect conn_disconnect;
               ret (error ("Error al configurar ACLs: " +:+ exn_str e) 500))
      end
  | None => ret (error "Dispositivo no encontrado" 404)
  end.

Definition audit_commands : list string :=
  ["show running-config"; "show users"; "show privilege"].

(** [for cmd in audit_commands: audit_results[cmd] = ...] *)
Fixpoint audit_loop (cmds : list string) (audit_results : list (string * pyval))
    : M (list (string * pyval)) :=
  match cmds with
  | [] => ret audit_results
  | cmd :: cmds' =>
      do out <- call (EvSendCommand cmd) (conn_send_command cmd);
      audit_loop cmds' (assoc_set cmd (PStr out) audit_results)
  end.

Definition security_audit (req : request) : M response :=
  do denied <- not_admin;
  if denied then ret (error "Acceso denegado" 403) else
  let data := get_json req in
  do device_name <- lift (get data "device_name" PNone);
  do devices <- load_devices;
  do device <- find_device devices device_name;
  match device with
  | Some dev =>
      if negb (truthy dev) then ret (error "Dispositivo no encontrado" 404) else
      do connection <- connect_to_device dev;
      match connection with
      | inl err => ret (error err 500)
      | inr _ =>
          try_except
            (run call EvEnable conn_enable;
             do audit_results <- audit_loop audit_commands [];
             run call EvDisconnect conn_disconnect;
             do stamp <- now timestamp_format;
             ret (jsonify [("success", PBool true);
                           ("message", PStr "Auditoría de seguridad realizada");
                           ("results", PDict audit_results);
                           ("timestamp", PStr stamp)] 200))
            (fun e =>
               run call EvDisconnect conn_disconnect;
               ret (error ("Error al realizar auditoría: " +:+ exn_str e) 500))
      end
  | None => ret (error "Dispositivo no encontrado" 404)
  end.

(** The routes that ask for the admin role. *)
Inductive admin_route : Type :=
| MonitoringConfig | MonitoringInterfaces | MonitoringCdp | MonitoringTraffic
| MaintenancePatchSimulation | MaintenanceApplyTemplate | MaintenanceBackup
| SecurityChangePassword | SecurityManageUsers | SecurityConfigureAcls
| SecurityAudit.

(** [@app.route(...)]: the handler of each. *)
Definition handler (r : admin_route) : request -> M response :=
  match r with
  | MonitoringConfig => get_device_config
  | MonitoringInterfaces => get_interfaces
  | MonitoringCdp => get_cdp_neighbors
  | MonitoringTraffic => get_interface_traffic
  | MaintenancePatchSimulation => simulate_patch
  | MaintenanceApplyTemplate => apply_yaml_template
  | MaintenanceBackup => maintenance_backup
  | SecurityChangePassword => change_device_password
  | SecurityManageUsers => manage_users
  | SecurityConfigureAcls => configure_acls
  | SecurityAudit => security_audit
  end.

(** ** Routes that ask for a session only *)

Definition check_auth : M response :=
  do w <- get_world;
  match session w !! "username" with
  | Some username =>
      match session w !! "role" with
      | Some role =>
          ret (jsonify [("authenticated", PBool true);
                        ("username", PStr username);
                        ("role", PStr role)] 200)
      | None => raise (Exn KeyError (quoted "role"))
      end
  | None => ret (jsonify [("authenticated", PBool false)] 200)
  end.

(** The loop of [get_devices], from the [device_list] built so far. *)
Fixpoint device_listing (devices device_list : list pyval) : exn + list pyval :=
  match devices with
  | [] => inr device_list
  | device :: devices' =>
      match getitem device "name" with
      | inl e => inl e
      | inr name =>
          match getitem device "host" with
          | inl e => inl e
          | inr host =>
              match getitem device "device_type" with
              | inl e => inl e
              | inr device_type =>
                  device_listing devices'
                    (device_list ++ [PDict [("name", name); ("host", host);
                                            ("device_type", device_type)]])
              end
          end
      end
  end.

Definition get_devices : M response :=
  do w <- get_world;
  match session w !! "username" with
  | None => ret (error "No autenticado" 401)
  | Some _ =>
      do devices <- load_devices;
      do items <- lift (iterate devices);
      do device_list <- lift (device_listing items []);
      ret (jsonify [("devices", PList device_list)] 200)
  end.

(** The loop of the [GET] branch of [ping_routers]. *)
Fixpoint status_listing (devices device_list : list pyval) : exn + list pyval :=
  match devices with
  | [] => inr device_list
  | device :: devices' =>
      match getitem device "name" with
      | inl e => inl e
      | inr name =>
          match getitem device "host" with
          | inl e => inl e
          | inr host =>
              status_listing devices'
                (device_list ++ [PDict [("name", name); ("host", host);
                                        ("status", PStr "unknown")]])
          end
      end
  end.

(** What [ping_routers] does with one device: print, probe, and the entry
    it appends. *)
Definition ping_one (device : pyval) : M ping_entry :=
  do name <- lift (getitem device "name");
  do host <- lift (getitem device "host");
  run print ("Haciendo ping a " +:+ str name +:+ " (" +:+ str host +:+ ")...");
  do host_to_ping <- lift (getitem device "host");
  do result <- ping_device host_to_ping;
  do name' <- lift (getitem device "name");
  do host' <- lift (getitem device "host");
  do stamp <- now timestamp_format;
  ret {| entry_name := name'; entry_host := host';
         entry_result := result; entry_timestamp := stamp |}.

(** [for device in devices: ...] of the branch [target == 'all']. *)
Fixpoint ping_all (devices : list pyval) (results : list ping_entry)
    : M (list ping_entry) :=
  match devices with
  | [] => ret results
  | device :: devices' =>
      do entry <- ping_one device;
      ping_all devices' (results ++ [entry])
  end.

Definition ping_routers (req : request) : M ping_reply :=
  do w <- get_world;
  match session w !! "username" with
  | None => ret (PingJson (error "No autenticado" 401))
  | Some _ =>
      do devices <- load_devices;
      if String.eqb (method req) "GET" then
        do items <- lift (iterate devices);
        do device_list <- lift (status_listing items []);
        ret (PingJson (jsonify [("devices", PList device_list)] 200))
      else if String.eqb (method req) "POST" then
        let data := get_json req in
        do target <- lift (get data "target" (PStr "all"));
        if py_eq target (PStr "all") then
          do items <- lift (iterate devices);
          do results <- ping_all items [];
          ret (PingResults results)
        else
          do device <- find_device devices target;
          match device with
          | Some dev =>
              if truthy dev then
                do entry <- ping_one dev;
                ret (PingResults [entry])
              else ret (PingJson (error "Dispositivo no encontrado" 404))
          | None => ret (PingJson (error "Dispositivo no encontrado" 404))
          end
      else
        raise (Exn TypeError "The view function did not return a valid response")
  end.
End Defs.
End App.

(* ===================================================================== *)
(** * Vocabulary of the statements                                         *)
(* ===================================================================== *)

Module Spec.
Import Py.

(** Every character of a text passes a test. *)
Fixpoint all_chars (p : ascii -> bool) (s : string) : bool :=
  match s with
  | EmptyString => true
  | String c s' => p c && all_chars p s'
  end.

(** What a pattern means, without the order in which a matcher tries the
    alternatives: [matches ic r text g g'] says that [r] matches exactly
    [text] and takes the text of group 1 from [g] to [g']. *)
Inductive matches (ic : bool) : Re.regex -> string -> option string ->
    option string -> Prop :=
| matches_atom a c g :
    Re.atom_ok ic a c = true ->
    matches ic (Re.Atom a) (String c EmptyString) g g
| matches_seq r1 r2 t1 t2 g g1 g2 :
    matches ic r1 t1 g g1 -> matches ic r2 t2 g1 g2 ->
    matches ic (Re.Seq r1 r2) (t1 +:+ t2) g g2
| matches_star a t g :
    all_chars (Re.atom_ok ic a) t = true ->
    matches ic (Re.Star a) t g g
| matches_plus a c t g :
    Re.atom_ok ic a c = true -> all_chars (Re.atom_ok ic a) t = true ->
    matches ic (Re.Plus a) (String c t) g g
| matches_opt_taken r t g g' :
    matches ic r t g g' -> matches ic (Re.Opt r) t g g'
| matches_opt_skipped r g :
    matches ic (Re.Opt r) EmptyString g g
| matches_group r t g g' :
    matches ic r t g g' -> matches ic (Re.Group r) t g (Some t).

(** A text begins with the letters [time], in upper or lower case. *)
Definition starts_with_time (s : string) : bool :=
  match s with
  | String a (String b (String c (String d _))) =>
      Re.atom_ok true (Re.Lit "t"%char) a && Re.atom_ok true (Re.Lit "i"%char) b &&
      Re.atom_ok true (Re.Lit "m"%char) c && Re.atom_ok true (Re.Lit "e"%char) d
  | _ => false
  end.

(** The letters [time] stand somewhere in a text. *)
Definition mentions_time (s : string) : bool :=
  existsb starts_with_time (Text.suffixes s).

(** A run of one or more decimal digits. *)
Definition digits (s : string) : Prop :=
  s <> EmptyString /\ all_chars Text.is_digit s = true.

(** The texts [float] is applied to: digits, or digits, a dot and digits. *)
Definition numeral (s : string) : Prop :=
  exists a, digits a /\ (s = a \/ exists b, digits b /\ s = a +:+ "." +:+ b).

(** A place where the pattern of [extract_response_time] matches: [s] starts
    with a text the pattern matches, with [text] in group 1. *)
Definition marker_at (s text : string) : Prop :=
  exists t rest,
    s = t +:+ rest /\ matches true App.time_pattern t None (Some text).

(** The events that reach a device. *)
Definition is_transport (ev : event) : bool :=
  match ev with
  | EvConnect _ | EvSendCommand _ | EvEnable | EvSendConfigSet _
  | EvSaveConfig | EvDisconnect => true
  | _ => false
  end.

Section Worlds.
Context `{Outside}.

(** The world once the inventory file has been opened for reading. *)
Definition opened (w : world) : world :=
  World (inventory w) (outside w) (session w) (printed w)
        (trace w ++ [EvOpenInventory]).

(** The world once [v] has been written to the inventory file. *)
Definition saved (v : pyval) (w : world) : world :=
  World (Document v) (outside w) (session w) (printed w)
        (trace w ++ [EvSaveInventory v]).

(** From [w] to [w'] nothing happened but calls to a device: the
    inventory file, the session and the standard output are as they were,
    and the trace grew by transport events only. *)
Definition pushed (w w' : world) : Prop :=
  inventory w' = inventory w /\ session w' = session w /\
  printed w' = printed w /\
  exists evs, trace w' = trace w ++ evs /\ forallb is_transport evs = true.

(** A computation that only talks to a device. *)
Definition pushes {A} (m : M A) : Prop :=
  forall w w' r, m w = (w', r) -> pushed w w'.
End Worlds.

(** The dictionary [CreateDevice.mutate] builds for the identifier [i]. *)
Definition created_record (i : Z) (d : GraphqlSchema.DeviceInput) : pyval :=
  PDict [("id", PInt i);
         ("name", PStr (GraphqlSchema.in_name d));
         ("host", PStr (GraphqlSchema.in_host d));
         ("username", PStr (GraphqlSchema.in_username d));
         ("password", PStr (GraphqlSchema.in_password d));
         ("secret", PStr (GraphqlSchema.in_secret d));
         ("device_type", PStr (GraphqlSchema.in_device_type d))].

(** One more than the largest of the numbers [ns], and 1 when there is
    none. *)
Definition next_id (ns : list Z) : Z :=
  match ns with
  | [] => 1%Z
  | n :: ns' => (fold_left Z.max ns' n + 1)%Z
  end.

(** The inventory document that holds the records [l]. *)
Definition inventory_of (l : list pyval) : pyval :=
  PDict [("devices", PList l)].

Section Template.
Context `{Outside}.


(** [audit_run n cmds results sent n' r] : what the device makes of the
    commands [cmds] sent one after the other from the state [n], when the
    sending stops at the first command that raises. [sent] are the commands
    that were sent and [n'] is the state they left; [r] is the exception of
    the command that raised, or, when every command returned, [results]
    with the output of each command under its name. *)
Inductive audit_run : net -> list string -> list (string * pyval) ->
    list string -> net -> exn + list (string * pyval) -> Prop :=
| audit_run_done n results :
    audit_run n [] results [] n (inr results)
| audit_run_returned n cmd text n1 cmds results sent n' r :
    conn_send_command cmd n = (n1, inr text) ->
    audit_run n1 cmds (assoc_set cmd (PStr text) results) sent n' r ->
    audit_run n (cmd :: cmds) results (cmd :: sent) n' r
| audit_run_raised n cmd e n1 cmds results :
    conn_send_command cmd n = (n1, inl e) ->
    audit_run n (cmd :: cmds) results [cmd] n1 (inl e).
End Template.

(** A laboratory to run the handlers in: a Linux host, one device that
    answers, a command the device refuses, a host that answers ping, a host
    that does not and a host on which ping hangs. *)
Definition lab : Outside := {|
  net := unit;
  connect_handler := fun args n =>
    match assoc "host" args with
    | Some (PStr "10.0.0.9") =>
        (n, inl (Exn NetmikoTimeoutException "TCP connection to device failed"))
    | _ => (n, inr tt)
    end;
  conn_send_command := fun c n =>
    if String.eqb c "show bad"
    then (n, inl (Exn OtherException "% Invalid input detected"))
    else (n, inr ("ok: " +:+ c));
  conn_enable := fun n => (n, inr tt);
  conn_send_config_set := fun _ n => (n, inr "configured");
  conn_save_config := fun n => (n, inr "saved");
  conn_disconnect := fun n => (n, inr tt);
  subprocess_run := fun cmd n =>
    match List.last cmd PNone with
    | PStr "10.0.0.1" =>
        (n, inr {| returncode := 0;
                   stdout := "64 bytes from 10.0.0.1: icmp_seq=1 ttl=64 time=23.4 ms";
                   stderr := "" |})
    | PStr "10.0.0.9" =>
        (n, inl (Exn TimeoutExpired "Command timed out after 10 seconds"))
    | _ => (n, inr {| returncode := 1; stdout := ""; stderr := "unknown host" |})
    end;
  platform_system := fun _ => "Linux";
  strftime := fun _ _ => "2024-01-01 00:00:00";
  write_text := fun _ _ n => (n, inr tt);
  safe_load := fun v =>
    match v with
    | PStr "commands: [show version, show bad, show clock]" =>
        inr (PDict [("commands",
                     PList [PStr "show version"; PStr "show bad"; PStr "show clock"])])
    | _ => inl (Exn YAMLError "could not find expected ':'")
    end;
  repr := fun _ => "<value>"
|}.

(** The laboratory with a device that refuses [show users]. *)
Definition strict_lab : Outside := {|
  net := unit;
  connect_handler := @connect_handler lab;
  conn_send_command := fun c n =>
    if String.eqb c "show users"
    then (n, inl (Exn OtherException "% Authorization failed"))
    else (n, inr ("ok: " +:+ c));
  conn_enable := @conn_enable lab;
  conn_send_config_set := @conn_send_config_set lab;
  conn_save_config := @conn_save_config lab;
  conn_disconnect := @conn_disconnect lab;
  subprocess_run := @subprocess_run lab;
  platform_system := @platform_system lab;
  strftime := @strftime lab;
  write_text := @write_text lab;
  safe_load := @safe_load lab;
  repr := @repr lab
|}.

(** A world of the laboratory with the given inventory file and session. *)
Definition lab_world (f : file_state) (s : gmap string string) : @world lab :=
  @World lab f tt s [] [].

Definition device_record (i : Z) (n h : string) : pyval :=
  PDict [("id", PInt i); ("name", PStr n); ("host", PStr h);
         ("username", PStr "cisco"); ("password", PStr "cisco");
         ("secret", PStr "cisco"); ("device_type", PStr "cisco_ios")].

Definition two_devices : file_state :=
  Document (PDict [("devices",
    PList [device_record 1 "R1" "10.0.0.1"; device_record 2 "R2" "10.0.0.2"])]).

Definition r3_input : GraphqlSchema.DeviceInput :=
  {| GraphqlSchema.in_name := "R3"; GraphqlSchema.in_host := "10.0.0.3";
     GraphqlSchema.in_username := "cisco"; GraphqlSchema.in_password := "cisco";
     GraphqlSchema.in_secret := "cisco";
     GraphqlSchema.in_device_type := "cisco_ios" |}.

Definition config_request : App.request :=
  {| App.method := "POST";
     App.get_json := PDict [("device_name", PStr "R1")] |}.

Definition template_request : App.request :=
  {| App.method := "POST";
     App.get_json :=
       PDict [("device_name", PStr "R1");
              ("template_content",
               PStr "commands: [show version, show bad, show clock]")] |}.

Ltac rewrite_all_true :=
  repeat match goal with
         | H : _ = true |- _ => rewrite H; clear H
         end.

(** A session as [login] and [logout] leave it: without a user, or with a
    user of [USERS] and the role of that user. *)
Definition session_ok (s : gmap string string) : Prop :=
  s !! "username" = None \/
  exists u entry,
    s !! "username" = Some u /\ App.USERS !! u = Some entry /\
    s !! "role" = Some (App.user_role entry).

(** The answer of [login] to credentials that are not in [USERS]. *)
Definition login_failure : App.response :=
  App.jsonify [("success", PBool false);
               ("message", PStr "Usuario o contraseña incorrectos")] 200.

(** A value that can be looked up in a dictionary: lists and dictionaries
    cannot. *)
Definition hashable (v : pyval) : bool :=
  match v with
  | PList _ | PDict _ => false
  | _ => true
  end.

Definition login_request (u p : string) : App.request :=
  {| App.method := "POST";
     App.get_json := PDict [("username", PStr u); ("password", PStr p)] |}.

(** The entry of the device list for a record: its name, host and device
    type, and nothing else. *)
Definition listed (d e : pyval) : Prop :=
  exists n h t,
    getitem d "name" = inr n /\ getitem d "host" = inr h /\
    getitem d "device_type" = inr t /\
    e = PDict [("name", n); ("host", h); ("device_type", t)].

(** The entry of the [GET] answer of [/ping] for a record. *)
Definition listed_unknown (d e : pyval) : Prop :=
  exists n h,
    getitem d "name" = inr n /\ getitem d "host" = inr h /\
    e = PDict [("name", n); ("host", h); ("status", PStr "unknown")].

(** The entry of the results of [/ping] for a record, and the command that
    was run for it: the entry has the name and the host of the record, and
    the command ends in that host. *)
Definition probed (d : pyval) (e : App.ping_entry) (cmd : list pyval) : Prop :=
  getitem d "name" = inr (App.entry_name e) /\
  getitem d "host" = inr (App.entry_host e) /\
  List.last cmd PNone = App.entry_host e.

(** A record with a name and a host. *)
Definition pingable (d : pyval) : Prop :=
  exists n h, getitem d "name" = inr n /\ getitem d "host" = inr h.

(** Three lists that go together entry by entry. *)
Inductive Forall3 {A B C} (R : A -> B -> C -> Prop)
    : list A -> list B -> list C -> Prop :=
| Forall3_nil : Forall3 R [] [] []
| Forall3_cons x y z l1 l2 l3 :
    R x y z -> Forall3 R l1 l2 l3 -> Forall3 R (x :: l1) (y :: l2) (z :: l3).

(** The name of a record is, or is not, the one asked for. *)
Definition named (n : pyval) (d : pyval) : Prop :=
  exists v, getitem d "name" = inr v /\ py_eq v n = true.

Definition not_named (n : pyval) (d : pyval) : Prop :=
  exists v, getitem d "name" = inr v /\ py_eq v n = false.

Definition ping_request (target : string) : App.request :=
  {| App.method := "POST"; App.get_json := PDict [("target", PStr target)] |}.

(** The admin routes that call [connect_to_device] as soon as the device is
    found. *)
Definition connects_first (r : App.admin_route) : bool :=
  match r with
  | App.MaintenancePatchSimulation | App.MaintenanceApplyTemplate => false
  | _ => true
  end.

(** The keys [connect_to_device] reads with [device_info[...]]. *)
Definition connection_keys : list string :=
  ["device_type"; "host"; "username"; "password"].

(** The text [connect_to_device] returns for an exception. *)
Definition connection_error (e : exn) : string :=
  if is_class NetmikoTimeoutException e
  then "Timeout - No se pudo conectar al dispositivo"
  else if is_class NetmikoAuthenticationException e
       then "Error de autenticación"
       else "Error de conexión: " +:+ exn_str e.

Definition users_request (action : string) : App.request :=
  {| App.method := "POST";
     App.get_json := PDict [("device_name", PStr "R1"); ("action", PStr action);
                            ("username", PStr "guest")] |}.

(** An inventory of one device that the laboratory cannot reach. *)
Definition far_device : file_state :=
  Document (inventory_of [device_record 9 "R9" "10.0.0.9"]).

Definition far_request : App.request :=
  {| App.method := "POST";
     App.get_json := PDict [("device_name", PStr "R9")] |}.


(** A record whose identifier is not [i]. *)
Definition has_other_id (i : Z) (d : pyval) : bool :=
  match getitem d "id" with
  | inr v => negb (GraphqlSchema.eq_int v i)
  | inl _ => false
  end.

(** The device [Device] makes of the record [CreateDevice.mutate] builds. *)
Definition created_device (i : Z) (d : GraphqlSchema.DeviceInput)
    : GraphqlSchema.Device :=
  {| GraphqlSchema.id := PInt i;
     GraphqlSchema.name := PStr (GraphqlSchema.in_name d);
     GraphqlSchema.host := PStr (GraphqlSchema.in_host d);
     GraphqlSchema.username := PStr (GraphqlSchema.in_username d);
     GraphqlSchema.password := PStr (GraphqlSchema.in_password d);
     GraphqlSchema.secret := PStr (GraphqlSchema.in_secret d);
     GraphqlSchema.device_type := PStr (GraphqlSchema.in_device_type d) |}.

(** The device [Device] makes of a record after [UpdateDevice.mutate]: the
    identifier it had and the six fields of the input. *)
Definition updated_device (i : pyval) (d : GraphqlSchema.DeviceInput)
    : GraphqlSchema.Device :=
  {| GraphqlSchema.id := i;
     GraphqlSchema.name := PStr (GraphqlSchema.in_name d);
     GraphqlSchema.host := PStr (GraphqlSchema.in_host d);
     GraphqlSchema.username := PStr (GraphqlSchema.in_username d);
     GraphqlSchema.password := PStr (GraphqlSchema.in_password d);
     GraphqlSchema.secret := PStr (GraphqlSchema.in_secret d);
     GraphqlSchema.device_type := PStr (GraphqlSchema.in_device_type d) |}.

(** A key that is a field of [Device]. *)
Definition is_field (kv : string * pyval) : bool :=
  existsb (String.eqb (fst kv)) GraphqlSchema.Device_fields.

(** The first character of a text, if it has one, fails a test. *)
Definition head_fails (p : ascii -> bool) (s : string) : Prop :=
  forall c s', s = String c s' -> p c = false.

Definition ping_text : string :=
  "PING 10.0.0.1 (10.0.0.1) 56(84) bytes of data." +:+
  String Text.newline
    "64 bytes from 10.0.0.1: icmp_seq=1 ttl=64 time=23.4 ms".

Definition user_session : gmap string string :=
  <["role" := "user"]> (<["username" := "user"]> ∅).

Definition admin_session : gmap string string :=
  <["role" := "admin"]> (<["username" := "admin"]> ∅).

End Spec.

(* ===================================================================== *)
(** * The response time read from the output of ping                       *)
(* ===================================================================== *)

Module ResponseTime.
Import Py App Spec.
Local Arguments String.append !_ _ / : simpl nomatch.

Lemma scan_lines_app (l1 l2 : list string) :
  Forall (fun l => line_time l = None) l1 ->
  scan_lines (l1 ++ l2) = scan_lines l2.
Proof.
  induction 1 as [|l l1 Hl _ IH]; simpl.
  - reflexivity.
  - now rewrite Hl.
Qed.

Lemma scan_lines_some (lines : list string) (t : Q) :
  scan_lines lines = Some t ->
  exists l1 line l2,
    lines = l1 ++ line :: l2 /\
    Forall (fun l => line_time l = None) l1 /\
    line_time line = Some t.
Proof.
  induction lines as [|l lines IH]; simpl.
  - discriminate.
  - destruct (line_time l) as [t'|] eqn:E.
    + intros [= <-]. exists [], l, lines. repeat split; auto.
    + intros Hs. destruct (IH Hs) as (l1 & line & l2 & -> & Hl1 & Hline).
      exists (l :: l1), line, l2. repeat split; auto.
Qed.

Lemma scan_lines_none (lines : list string) :
  scan_lines lines = None <-> Forall (fun l => line_time l = None) lines.
Proof.
  induction lines as [|l lines IH]; simpl.
  - split; auto.
  - destruct (line_time l) as [t'|] eqn:E.
    + split; [discriminate|]. intros Hf. inversion Hf; congruence.
    + rewrite IH. split.
      * intros Hf. constructor; assumption.
      * intros Hf. now inversion Hf.
Qed.

(** C2. A line of ping in Spanish, with [tiempo=15 ms] and no [time=], gives
    no value: the guard of the loop lets the line in, and the pattern, which
    asks for the letters [time], then fails on it. The same line with the
    English marker gives 15. *)
Theorem tiempo_marker_gives_no_value :
  extract_response_time
    "Respuesta desde 10.0.0.1: bytes=32 tiempo=15 ms TTL=64" = None /\
  Text.contains "tiempo="
    "Respuesta desde 10.0.0.1: bytes=32 tiempo=15 ms TTL=64" = true /\
  extract_response_time
    "Respuesta desde 10.0.0.1: bytes=32 time=15 ms TTL=64" = Some (Qmake 15 1).
Proof.
  repeat split; vm_compute; reflexivity.
Qed.

(** The loop of [extract_response_time] goes through the lines of the
    output in order and stops at the first line for which the body of the
    loop returns. *)
Theorem extract_response_time_first_match (ping_output : string) :
  (forall t : Q,
     extract_response_time ping_output = Some t <->
     exists before line after,
       Text.split Text.newline ping_output = before ++ line :: after /\
       Forall (fun l => line_time l = None) before /\
       line_time line = Some t) /\
  (extract_response_time ping_output = None <->
   Forall (fun l => line_time l = None)
          (Text.split Text.newline ping_output)).
Proof.
  unfold extract_response_time. split.
  - intros t. split.
    + apply scan_lines_some.
    + intros (before & line & after & -> & Hb & Hl).
      rewrite (scan_lines_app _ _ Hb). simpl. now rewrite Hl.
  - apply scan_lines_none.
Qed.

(** C8. [extract_response_time] does not return the first marker of the
    output with a number and [ms] after it. The pattern is searched with
    [re.IGNORECASE], but the guard before it looks for [time=] and [tiempo=]
    in lower case only, and the pattern asks for the letters [time]:
    a reply with [TIME=5 ms], which the pattern alone matches with
    group [5], gives no value, and an output whose first reply has
    [TIME=5 ms] or [tiempo=15 ms] and whose second reply has [time=7 ms]
    gives 7, the value of the second reply. With [time=5 ms] in the first
    reply the same output gives 5. *)
Theorem first_marker_is_passed_over :
  extract_response_time
    "64 bytes from 10.0.0.1: icmp_seq=1 ttl=64 TIME=5 ms" = None /\
  Re.search true time_pattern
    "64 bytes from 10.0.0.1: icmp_seq=1 ttl=64 TIME=5 ms"
    = Some {| Re.group1 := Some "5" |} /\
  extract_response_time
    ("64 bytes from 10.0.0.1: icmp_seq=1 ttl=64 TIME=5 ms"
     +:+ String Text.newline
         "64 bytes from 10.0.0.1: icmp_seq=2 ttl=64 time=7 ms")
    = Some (Qmake 7 1) /\
  extract_response_time
    ("Respuesta desde 10.0.0.1: bytes=32 tiempo=15 ms TTL=64"
     +:+ String Text.newline
         "Respuesta desde 10.0.0.1: bytes=32 time=7 ms TTL=64")
    = Some (Qmake 7 1) /\
  extract_response_time
    ("64 bytes from 10.0.0.1: icmp_seq=1 ttl=64 time=5 ms"
     +:+ String Text.newline
         "64 bytes from 10.0.0.1: icmp_seq=2 ttl=64 time=7 ms")
    = Some (Qmake 5 1).
Proof.
  repeat split; vm_compute; reflexivity.
Qed.

(** ** The pattern, apart from the order of the search *)

Lemma append_assoc (a b c : string) : (a +:+ b) +:+ c = a +:+ (b +:+ c).
Proof. induction a as [|x a IH]; simpl; [reflexivity | now rewrite IH]. Qed.

Lemma consumed_append (t rest : string) : Re.consumed (t +:+ rest) rest = t.
Proof.
  unfold Re.consumed.
  assert (Hlen : forall a b : string,
             String.length (a +:+ b) = (String.length a + String.length b)%nat).
  { induction a as [|x a IH]; intros b; simpl; [reflexivity | now rewrite IH]. }
  rewrite Hlen.
  replace (String.length t + String.length rest - String.length rest)%nat
    with (String.length t) by lia.
  induction t as [|x t IH]; simpl.
  - destruct rest; reflexivity.
  - now rewrite IH.
Qed.

Section Soundness.
Context {R : Type}.
Variable ic : bool.

Lemma star_sound (a : Re.atom) (s : string) (k : string -> option R) (x : R) :
  Re.star ic a s k = Some x ->
  exists t rest,
    s = t +:+ rest /\ all_chars (Re.atom_ok ic a) t = true /\ k rest = Some x.
Proof.
  induction s as [|c s IH]; simpl.
  - intros Hk. exists EmptyString, EmptyString. auto.
  - destruct (Re.atom_ok ic a c) eqn:Hc.
    + destruct (Re.star ic a s k) as [y|] eqn:Hs.
      * intros [= ->]. destruct (IH eq_refl) as (t & rest & -> & Ht & Hk).
        exists (String c t), rest. simpl. rewrite Hc, Ht. auto.
      * intros Hk. exists EmptyString, (String c s). auto.
    + intros Hk. exists EmptyString, (String c s). auto.
Qed.

Lemma rmatch_sound (r : Re.regex) :
  forall (s : string) (g : option string)
         (k : option string -> string -> option R) (x : R),
    Re.rmatch ic r s g k = Some x ->
    exists t rest g',
      s = t +:+ rest /\ matches ic r t g g' /\ k g' rest = Some x.
Proof.
  induction r as [a | r1 IH1 r2 IH2 | a | a | r IH | r IH];
    intros s g k x; simpl.
  - destruct s as [|c s]; [discriminate|].
    destruct (Re.atom_ok ic a c) eqn:Hc; [|discriminate].
    intros Hk. exists (String c EmptyString), s, g.
    repeat split; auto. now constructor.
  - intros Hm. apply IH1 in Hm. destruct Hm as (t1 & rest1 & g1 & -> & M1 & Hm).
    apply IH2 in Hm. destruct Hm as (t2 & rest2 & g2 & -> & M2 & Hk).
    exists (t1 +:+ t2), rest2, g2. rewrite append_assoc.
    repeat split; auto. econstructor; eassumption.
  - intros Hm. apply star_sound in Hm. destruct Hm as (t & rest & -> & Ht & Hk).
    exists t, rest, g. repeat split; auto. now constructor.
  - destruct s as [|c s]; [discriminate|].
    destruct (Re.atom_ok ic a c) eqn:Hc; [|discriminate].
    intros Hm. apply star_sound in Hm. destruct Hm as (t & rest & -> & Ht & Hk).
    exists (String c t), rest, g. repeat split; auto. now constructor.
  - destruct (Re.rmatch ic r s g k) as [y|] eqn:Hr.
    + intros [= ->]. apply IH in Hr. destruct Hr as (t & rest & g' & -> & M & Hk).
      exists t, rest, g'. repeat split; auto. now constructor.
    + intros Hk. exists EmptyString, s, g. repeat split; auto.
      apply matches_opt_skipped.
  - intros Hm. apply IH in Hm. destruct Hm as (t & rest & g' & -> & M & Hk).
    rewrite consumed_append in Hk.
    exists t, rest, (Some t). repeat split; auto. econstructor; eassumption.
Qed.

Lemma star_complete (a : Re.atom) (t rest : string)
    (k : string -> option R) :
  all_chars (Re.atom_ok ic a) t = true ->
  is_Some (k rest) ->
  is_Some (Re.star ic a (t +:+ rest) k).
Proof.
  induction t as [|c t IH]; simpl.
  - intros _ Hk. destruct rest as [|c rest]; simpl; [assumption|].
    destruct (Re.atom_ok ic a c); [|assumption].
    destruct (Re.star ic a rest k); [eauto | assumption].
  - intros Hall Hk. apply andb_prop in Hall as [Hc Ht]. rewrite Hc.
    destruct (IH Ht Hk) as [y ->]. eauto.
Qed.

Lemma rmatch_complete (r : Re.regex) (t : string) (g g' : option string) :
  matches ic r t g g' ->
  forall (rest : string) (k : option string -> string -> option R),
    is_Some (k g' rest) ->
    is_Some (Re.rmatch ic r (t +:+ rest) g k).
Proof.
  induction 1 as [a c g Hc | r1 r2 t1 t2 g g1 g2 _ IH1 _ IH2 | a t g Ht
                 | a c t g Hc Ht | r t g g' _ IH | r g | r t g g' _ IH];
    intros rest k Hk; simpl.
  - now rewrite Hc.
  - rewrite append_assoc. apply IH1. now apply IH2.
  - now apply star_complete.
  - rewrite Hc. now apply star_complete.
  - destruct (IH rest k Hk) as [y ->]. eauto.
  - destruct (Re.rmatch ic r rest g k); [eauto | assumption].
  - apply IH. now rewrite consumed_append.
Qed.
End Soundness.

Lemma append_empty (a : string) : a +:+ EmptyString = a.
Proof. induction a as [|c a IH]; simpl; [reflexivity | now rewrite IH]. Qed.

(** Ignoring case, the only character that is a dot is the dot. *)
Lemma lit_dot (c : ascii) :
  Re.atom_ok true (Re.Lit "."%char) c = true -> c = "."%char.
Proof.
  destruct c as [[] [] [] [] [] [] [] []]; vm_compute;
    solve [reflexivity | discriminate].
Qed.


(** What group 1 of the pattern holds is a numeral. *)
Lemma marker_text_numeral (t text : string) :
  matches true time_pattern t None (Some text) -> numeral text.
Proof.
  unfold time_pattern. simpl. intros M.
  repeat match goal with
         | H : matches _ (Re.Seq _ _) _ _ _ |- _ => inversion H; subst; clear H
         | H : matches _ (Re.Atom _) _ _ _ |- _ => inversion H; subst; clear H
         | H : matches _ (Re.Star _) _ _ _ |- _ => inversion H; subst; clear H
         | H : matches _ (Re.Group _) _ _ _ |- _ => inversion H; subst; clear H
         | H : matches _ (Re.Plus _) _ _ _ |- _ => inversion H; subst; clear H
         | H : matches _ (Re.Opt _) _ _ _ |- _ => inversion H; subst; clear H
         end.
  - repeat match goal with
           | H : Re.atom_ok true Re.Digit _ = true |- _ =>
               change (Re.atom_ok true Re.Digit) with Text.is_digit in H
           | H : all_chars (Re.atom_ok true Re.Digit) _ = true |- _ =>
               change (Re.atom_ok true Re.Digit) with Text.is_digit in H
           | H : Re.atom_ok true (Re.Lit "."%char) _ = true |- _ =>
               apply lit_dot in H; subst
           end.
    match goal with
    | |- numeral (?a +:+ _ +:+ ?b) =>
        exists a; split;
          [ split; [discriminate | simpl; now rewrite_all_true]
          | right; exists b; split;
              [ split; [discriminate | simpl; now rewrite_all_true]
              | reflexivity ] ]
    end.
  - repeat match goal with
           | H : Re.atom_ok true Re.Digit _ = true |- _ =>
               change (Re.atom_ok true Re.Digit) with Text.is_digit in H
           | H : all_chars (Re.atom_ok true Re.Digit) _ = true |- _ =>
               change (Re.atom_ok true Re.Digit) with Text.is_digit in H
           end.
    match goal with
    | |- numeral (?a +:+ _) =>
        exists a; split;
          [ split; [discriminate | simpl; now rewrite_all_true]
          | left; apply append_empty ]
    end.
Qed.

Lemma match_at_sound (s : string) (m : Re.match_object) :
  Re.match_at true time_pattern s = Some m ->
  exists text, Re.group1 m = Some text /\ marker_at s text /\ numeral text.
Proof.
  unfold Re.match_at. intros Hm. apply rmatch_sound in Hm.
  destruct Hm as (t & rest & g' & -> & M & [= <-]). simpl.
  assert (exists text, g' = Some text) as [text ->].
  { revert M. unfold time_pattern. simpl. intros M.
    repeat match goal with
           | H : matches _ (Re.Seq _ _) _ _ _ |- _ => inversion H; subst; clear H
           | H : matches _ (Re.Atom _) _ _ _ |- _ => inversion H; subst; clear H
           | H : matches _ (Re.Star _) _ _ _ |- _ => inversion H; subst; clear H
           | H : matches _ (Re.Group _) _ _ _ |- _ => inversion H; subst; clear H
           end; eauto. }
  exists text. repeat split; auto.
  - exists t, rest. auto.
  - eapply marker_text_numeral; eassumption.
Qed.

Lemma match_at_complete (s text : string) :
  marker_at s text -> is_Some (Re.match_at true time_pattern s).
Proof.
  intros (t & rest & -> & M). unfold Re.match_at.
  eapply rmatch_complete; [eassumption | eauto].
Qed.

Lemma first_some_sound {A B} (f : A -> option B) (l : list A) (y : B) :
  Re.first_some f l = Some y ->
  exists l1 x l2, l = l1 ++ x :: l2 /\ Forall (fun a => f a = None) l1 /\ f x = Some y.
Proof.
  induction l as [|a l IH]; simpl; [discriminate|].
  destruct (f a) as [b|] eqn:E.
  - intros [= <-]. exists [], a, l. auto.
  - intros Hs. destruct (IH Hs) as (l1 & x & l2 & -> & Hl1 & Hx).
    exists (a :: l1), x, l2. auto.
Qed.

Lemma first_some_none {A B} (f : A -> option B) (l : list A) :
  Re.first_some f l = None <-> Forall (fun a => f a = None) l.
Proof.
  induction l as [|a l IH]; simpl.
  - split; auto.
  - destruct (f a) eqn:E.
    + split; [discriminate|]. intros Hf. inversion Hf; congruence.
    + rewrite IH. split; intros Hf; [now constructor | now inversion Hf].
Qed.

(** X27. A value read from a line is the number of a numeral that stands in
    the line behind [time=] or [time<], at the leftmost place where the pattern
    matches; and a line gives no value exactly when it holds neither
    [time=] nor [tiempo=], or the pattern matches at no place of it. *)
Lemma line_time_meaning (line : string) :
  (forall v : Q,
     line_time line = Some v ->
     exists skipped here later text,
       Text.suffixes line = skipped ++ here :: later /\
       Forall (fun s => forall text', ~ marker_at s text') skipped /\
       marker_at here text /\ numeral text /\ v = Text.float text) /\
  (line_time line = None <->
   (Text.contains "time=" line || Text.contains "tiempo=" line = false) \/
   Forall (fun s => forall text', ~ marker_at s text') (Text.suffixes line)).
Proof.
  unfold line_time, Re.search. split.
  - intros v.
    destruct (Text.contains "time=" line || Text.contains "tiempo=" line);
      [|discriminate].
    destruct (Re.first_some _ _) as [m|] eqn:Hs; [|discriminate].
    apply first_some_sound in Hs.
    destruct Hs as (l1 & here & l2 & Hl & Hl1 & Hm).
    apply match_at_sound in Hm. destruct Hm as (text & Hg & Hmark & Hnum).
    rewrite Hg. intros [= <-].
    exists l1, here, l2, text. repeat split; auto.
    eapply Forall_impl; [exact Hl1|]. simpl. intros s Hnone text' Hmk.
    apply match_at_complete in Hmk. destruct Hmk as [y Hy]. congruence.
  - destruct (Text.contains "time=" line || Text.contains "tiempo=" line).
    + destruct (Re.first_some _ _) as [m|] eqn:Hs.
      * pose proof Hs as Hs'. apply first_some_sound in Hs.
        destruct Hs as (l1 & here & l2 & Hl & Hl1 & Hm).
        apply match_at_sound in Hm. destruct Hm as (text & Hg & Hmark & Hnum).
        rewrite Hg. split; [discriminate|].
        intros [Hf | Hf]; [discriminate|].
        rewrite Hl in Hf. apply Forall_app in Hf as [_ Hf].
        inversion Hf as [|? ? Hhere _]. exfalso. eapply Hhere, Hmark.
      * split; [|reflexivity]. intros _. right.
        apply first_some_none in Hs.
        eapply Forall_impl; [exact Hs|]. simpl. intros s Hnone text' Hmk.
        apply match_at_complete in Hmk. destruct Hmk as [y Hy]. congruence.
    + split; auto.
Qed.

(** ** Lines without the English word *)

Lemma match_at_needs_time (s : string) :
  starts_with_time s = false -> Re.match_at true time_pattern s = None.
Proof.
  unfold Re.match_at, time_pattern.
  destruct s as [|a [|b [|c [|d s]]]]; simpl; try reflexivity;
    repeat match goal with
           | |- context [if ?x then _ else _] => destruct x; simpl
           end; try reflexivity; discriminate.
Qed.

(** A line in which the letters [time] do not stand gives no value,
    whatever else it holds, [tiempo=] included. *)
Lemma line_without_time_gives_no_value (line : string) :
  mentions_time line = false -> line_time line = None.
Proof.
  unfold mentions_time, line_time, Re.search. intros Hno.
  destruct (Text.contains "time=" line || Text.contains "tiempo=" line);
    [|reflexivity].
  assert (Hnone : Re.first_some (Re.match_at true time_pattern)
                                (Text.suffixes line) = None).
  { induction (Text.suffixes line) as [|s l IH]; simpl in *; [reflexivity|].
    apply orb_false_iff in Hno as [Hs Hl].
    now rewrite (match_at_needs_time s Hs), IH. }
  now rewrite Hnone.
Qed.

Lemma output_without_time_gives_no_value (ping_output : string) :
  Forall (fun line => mentions_time line = false)
         (Text.split Text.newline ping_output) ->
  extract_response_time ping_output = None.
Proof.
  intros Hall. unfold extract_response_time. apply scan_lines_none.
  eapply Forall_impl; [exact Hall|]. apply line_without_time_gives_no_value.
Qed.

End ResponseTime.

(* ===================================================================== *)
(** * The inventory store and the mutations over it                        *)
(* ===================================================================== *)

Module Inventory.
Import Py Spec GraphqlSchema.

Section Frames.
Context `{Outside}.

Lemma pushed_refl (w : world) : pushed w w.
Proof.
  repeat split. exists []. split; [now rewrite app_nil_r | reflexivity].
Qed.

Lemma pushed_trans (w1 w2 w3 : world) :
  pushed w1 w2 -> pushed w2 w3 -> pushed w1 w3.
Proof.
  intros (Hi & Hs & Hp & evs & Ht & He) (Hi' & Hs' & Hp' & evs' & Ht' & He').
  repeat split; try congruence.
  exists (evs ++ evs'). split.
  - rewrite Ht', Ht. now rewrite app_assoc.
  - rewrite forallb_app. now rewrite He, He'.
Qed.

Lemma pushes_lift {A} (r : exn + A) : pushes (lift r).
Proof. intros w w' r' [= <- _]. apply pushed_refl. Qed.

Lemma pushes_ret {A} (x : A) : pushes (ret x).
Proof. intros w w' r' [= <- _]. apply pushed_refl. Qed.

Lemma pushes_call {A} (ev : event) (f : net -> net * (exn + A)) :
  is_transport ev = true -> pushes (call ev f).
Proof.
  intros Hev w w' r. unfold call. destruct (f (outside w)) as [n r'].
  intros [= <- _]. repeat split. exists [ev]. simpl. now rewrite Hev.
Qed.

Lemma pushes_bind {A B} (m : M A) (f : A -> M B) :
  pushes m -> (forall x, pushes (f x)) -> pushes (bind m f).
Proof.
  intros Hm Hf w w' r. unfold bind.
  destruct (m w) as [w1 [e|x]] eqn:E.
  - intros [= <- _]. eapply Hm, E.
  - intros Hfx. eapply pushed_trans; [eapply Hm, E | eapply Hf, Hfx].
Qed.

Lemma pushes_try {A} (m : M A) (h : exn -> M A) :
  pushes m -> (forall e, pushes (h e)) -> pushes (try_except m h).
Proof.
  intros Hm Hh w w' r. unfold try_except.
  destruct (m w) as [w1 [e|x]] eqn:E.
  - intros Hhe. eapply pushed_trans; [eapply Hm, E | eapply Hh, Hhe].
  - intros [= <- _]. eapply Hm, E.
Qed.

(** [configure_device] does nothing but talk to the device, whatever the
    device answers. *)
Lemma configure_device_pushes (device : pyval) (commands : list string) :
  pushes (NetmikoConfig.configure_device device commands).
Proof.
  unfold NetmikoConfig.configure_device.
  apply pushes_try.
  - repeat first
      [ apply pushes_bind; [|intros ?]
      | apply pushes_lift | apply pushes_ret
      | apply pushes_call; reflexivity ].
  - intros e. apply pushes_bind; [apply pushes_lift | intros ?; apply pushes_ret].
Qed.

(** A record that has a name makes [configure_device] return: every error
    of the push ends in the text the handler builds. *)
Lemma configure_device_returns (device : pyval) (commands : list string)
    (w : world) :
  is_Some (assoc "name" match device with PDict d => d | _ => [] end) ->
  exists w' text,
    NetmikoConfig.configure_device device commands w = (w', inr text) /\
    pushed w w'.
Proof.
  intros Hname.
  destruct (NetmikoConfig.configure_device device commands w) as [w' r] eqn:E.
  pose proof (configure_device_pushes _ _ _ _ _ E) as Hp.
  exists w'. revert E. unfold NetmikoConfig.configure_device, try_except.
  match goal with |- context [bind ?m ?f w] => destruct (bind m f w) as [w1 [e|x]] end.
  - unfold bind, lift, ret. destruct device as [| | | | |d]; simpl in Hname;
      try (destruct Hname; discriminate).
    simpl. destruct Hname as [n ->]. intros [= <- <-]. eauto.
  - intros [= <- <-]. eauto.
Qed.

(** What [load_devices] of [netmiko_config.py] returns for each state of
    the file, and that it only opens the file. *)
Lemma load_devices_value (w : world) :
  NetmikoConfig.load_devices w =
  (opened w,
   match inventory w with
   | Absent => inr (PList [])
   | Unparseable why => inl (Exn YAMLError why)
   | Document v => get (if truthy v then v else PDict []) "devices" (PList [])
   end).
Proof.
  unfold NetmikoConfig.load_devices, try_except, bind, read_yaml, lift, opened.
  destruct (inventory w) as [|why|v]; simpl; try reflexivity.
  destruct (get _ _ _) as [e|x] eqn:E; [|reflexivity].
  destruct (truthy v), v; simpl in E; try discriminate; inversion E; reflexivity.
Qed.
End Frames.

Section Mutations.
Context `{Outside}.

Lemma load_devices_pair (w : world) (r : exn + pyval) :
  snd (NetmikoConfig.load_devices w) = r ->
  NetmikoConfig.load_devices w = (opened w, r).
Proof. rewrite load_devices_value. simpl. now intros ->. Qed.

Lemma save_devices_saved (v : pyval) (w : world) :
  NetmikoConfig.save_devices v w = (saved v w, inr tt).
Proof. reflexivity. Qed.

(** An entry that has an identifier is a dictionary that holds it. *)
Lemma getitem_id (d v : pyval) :
  getitem d "id" = inr v ->
  exists entries, d = PDict entries /\ assoc "id" entries = Some v.
Proof.
  destruct d as [| | | | |entries]; simpl; try discriminate.
  destruct (assoc "id" entries) as [x|] eqn:E; [|discriminate].
  intros [= <-]. eauto.
Qed.

Lemma ids_of_app (l1 l2 : list pyval) (ids1 ids2 : list pyval) :
  ids_of l1 = inr ids1 -> ids_of l2 = inr ids2 ->
  ids_of (l1 ++ l2) = inr (ids1 ++ ids2).
Proof.
  revert ids1. induction l1 as [|d l1 IH]; intros ids1; simpl.
  - now intros [= <-].
  - destruct (getitem d "id") as [e|v]; [discriminate|].
    destruct (ids_of l1) as [e|rest]; [discriminate|].
    intros [= <-] H2. now rewrite (IH rest eq_refl H2).
Qed.

(** [max], as [CreateDevice.mutate] folds it. *)
Lemma fold_max_spec (ns : list Z) (n : Z) :
  let m := fold_left Z.max ns n in
  In m (n :: ns) /\ Forall (fun x => (x <= m)%Z) (n :: ns).
Proof.
  revert n. induction ns as [|x ns IH]; intros n; simpl.
  - split; [now left | repeat constructor; lia].
  - destruct (IH (Z.max n x)) as [Hin Hall]. simpl in Hin.
    inversion Hall as [|? ? Hmax Hrest]; subst. split.
    + destruct Hin as [Hin | Hin].
      * destruct (Z.max_spec n x) as [[_ E] | [_ E]];
          [right; left | left]; congruence.
      * right; right; exact Hin.
    + constructor; [lia|]. constructor; [lia | assumption].
Qed.

(** The loop of [UpdateDevice.mutate] passes the entries whose identifier
    is another one. *)
Lemma update_loop_skip (rebuild : list pyval -> pyval) (id : Z)
    (device_data : DeviceInput) (skipped rest : list pyval) :
  forall (seen ids : list pyval),
    ids_of skipped = inr ids ->
    Forall (fun v => eq_int v id = false) ids ->
    update_loop rebuild seen (skipped ++ rest) id device_data =
    update_loop rebuild (seen ++ skipped) rest id device_data.
Proof.
  induction skipped as [|d skipped IH]; intros seen ids; simpl.
  - intros _ _. now rewrite app_nil_r.
  - destruct (getitem d "id") as [e|v] eqn:Ed; [discriminate|].
    destruct (ids_of skipped) as [e|ids'] eqn:Ei; [discriminate|].
    intros [= <-] Hall. inversion Hall as [|? ? Hv Hrest]; subst.
    unfold bind at 1, lift at 1. rewrite Hv.
    rewrite (IH (seen ++ [d]) ids' eq_refl Hrest).
    now rewrite <- app_assoc.
Qed.

Lemma without_id_none (items ids : list pyval) (id : Z) :
  ids_of items = inr ids ->
  Forall (fun v => eq_int v id = false) ids ->
  without_id items id = inr items.
Proof.
  revert ids. induction items as [|d items IH]; intros ids; simpl.
  - reflexivity.
  - destruct (getitem d "id") as [e|v]; [discriminate|].
    destruct (ids_of items) as [e|ids'] eqn:Ei; [discriminate|].
    intros [= <-] Hall. inversion Hall as [|? ? Hv Hrest]; subst.
    now rewrite (IH ids' eq_refl Hrest), Hv.
Qed.

Lemma without_id_total (items ids : list pyval) (id : Z) :
  ids_of items = inr ids ->
  exists kept, without_id items id = inr kept.
Proof.
  revert ids. induction items as [|d items IH]; intros ids; simpl.
  - eauto.
  - destruct (getitem d "id") as [e|v]; [discriminate|].
    destruct (ids_of items) as [e|ids'] eqn:Ei; [discriminate|].
    intros _. destruct (IH ids' eq_refl) as [kept ->]. eauto.
Qed.

Lemma assoc_set_same {A} (k : string) (v : A) (d : list (string * A)) :
  assoc k (assoc_set k v d) = Some v.
Proof.
  induction d as [|[k' v'] d IH]; simpl.
  - now rewrite String.eqb_refl.
  - destruct (String.eqb k k') eqn:E; simpl.
    + now rewrite String.eqb_refl.
    + now rewrite E.
Qed.

Lemma assoc_set_other {A} (k k' : string) (v : A) (d : list (string * A)) :
  String.eqb k k' = false ->
  assoc k (assoc_set k' v d) = assoc k d.
Proof.
  intros Hk. induction d as [|[k0 v0] d IH]; simpl.
  - now rewrite Hk.
  - destruct (String.eqb k' k0) eqn:E; simpl.
    + apply String.eqb_eq in E. subst k0. now rewrite Hk.
    + now rewrite IH.
Qed.

(** After the six assignments the record has the name that was given. *)
Lemma assign_name (dev dev' : pyval) (device_data : DeviceInput) :
  assign dev device_data = inr dev' ->
  is_Some (assoc "name" match dev' with PDict d => d | _ => [] end).
Proof.
  destruct dev as [| | | | |d]; simpl; try discriminate.
  intros [= <-].
  rewrite !assoc_set_other by reflexivity.
  rewrite assoc_set_same. eauto.
Qed.

Lemma eq_int_number (v : pyval) (n i : Z) :
  number v = Some n -> eq_int v i = (n =? i)%Z.
Proof.
  destruct v; simpl; try discriminate; now intros [= <-].
Qed.

(** The loop of [resolve_device_by_id] passes the records whose
    identifiers are numbers below the one it looks for. *)
Lemma find_by_id_skip (i : Z) (tail : list pyval) (devs : list pyval) :
  forall (ids : list pyval) (ns : list Z),
    ids_of devs = inr ids -> numbers ids = Some ns ->
    Forall (fun n => (n < i)%Z) ns ->
    find_by_id (devs ++ tail) i = find_by_id tail i.
Proof.
  induction devs as [|d devs IH]; intros ids ns; simpl.
  - reflexivity.
  - destruct (getitem d "id") as [e|v] eqn:Ed; [discriminate|].
    destruct (ids_of devs) as [e|ids'] eqn:Ei; [discriminate|].
    intros [= <-]. simpl.
    destruct (number v) as [n|] eqn:En; [|discriminate].
    destruct (numbers ids') as [ns'|] eqn:Ens; [|discriminate].
    intros [= <-] Hall. inversion Hall as [|? ? Hn Hrest]; subst.
    apply getitem_id in Ed. destruct Ed as (entries & -> & Hid).
    unfold field. rewrite Hid, (eq_int_number _ _ _ En).
    replace (n =? i)%Z with false by (symmetry; apply Z.eqb_neq; lia).
    eapply IH; eauto.
Qed.

(** C3. The two [load_devices] at a file that is missing, and at one that
    is not what they expect. Both return the empty list for a missing
    file. On a text that is not YAML the one of [app.py] prints and returns
    the empty list, while the one of [netmiko_config.py], which the
    queries and mutations call, raises [YAMLError]. On an empty file it is
    the other way round: [netmiko_config.py] returns the empty list and
    [app.py] raises [TypeError]. *)
Theorem load_devices_on_bad_files (n : net) (s : gmap string string)
    (p : list string) (t : list event) (why : string) :
  snd (NetmikoConfig.load_devices (World Absent n s p t)) = inr (PList []) /\
  snd (App.load_devices (World Absent n s p t)) = inr (PList []) /\
  snd (App.load_devices (World (Unparseable why) n s p t)) = inr (PList []) /\
  snd (NetmikoConfig.load_devices (World (Unparseable why) n s p t))
    = inl (Exn YAMLError why) /\
  snd (NetmikoConfig.load_devices (World (Document PNone) n s p t))
    = inr (PList []) /\
  snd (App.load_devices (World (Document PNone) n s p t))
    = inl (Exn TypeError "'NoneType' object is not subscriptable").
Proof. repeat split. Qed.

(** [CreateDevice.mutate] on an inventory of records that all have a
    number as identifier. *)
Lemma create_result (w : world) (device_data : DeviceInput)
    (devs ids : list pyval) (ns : list Z) :
  snd (NetmikoConfig.load_devices w) = inr (PList devs) ->
  ids_of devs = inr ids -> numbers ids = Some ns ->
  exists w' : world,
    let new_device := created_record (next_id ns) device_data in
    let document := inventory_of (devs ++ [new_device]) in
    CreateDevice_mutate device_data w = (w', inr new_device) /\
    inventory w' = Document document /\
    pushed (saved document (opened w)) w'.
Proof.
  intros Hload Hids Hns. apply load_devices_pair in Hload.
  assert ((if truthy (PList devs)
           then bind (lift (iterate (PList devs)))
                  (fun items => bind (lift (ids_of items))
                     (fun ids => lift (max_plus_1 ids)))
           else ret 1%Z) (opened w) = (opened w, inr (next_id ns)))
    as Hid.
  { destruct devs as [|d devs]; simpl.
    - simpl in Hids. injection Hids as <-. simpl in Hns.
      injection Hns as <-. reflexivity.
    - unfold bind, lift. simpl iterate. cbv iota beta. rewrite Hids.
      unfold max_plus_1. rewrite Hns.
      destruct ns as [|n ns]; [|reflexivity].
      simpl in Hids. destruct (getitem d "id") as [e|v]; [discriminate|].
      destruct (ids_of devs) as [e|ids']; [discriminate|].
      injection Hids as <-. simpl in Hns.
      destruct (number v), (numbers ids'); discriminate. }
  destruct (configure_device_returns (created_record (next_id ns) device_data)
              ["hostname " +:+ in_name device_data]
              (saved (inventory_of
                        (devs ++ [created_record (next_id ns) device_data]))
                     (opened w)))
    as (w' & text & Hconf & Hpushed).
  { simpl. eauto. }
  exists w'. cbv zeta. split; [|split].
  - unfold CreateDevice_mutate. unfold bind at 1. rewrite Hload.
    unfold bind at 1. rewrite Hid.
    unfold bind at 1. unfold lift at 1. simpl append.
    unfold bind at 1. rewrite save_devices_saved.
    unfold bind at 1. unfold created_record, inventory_of in Hconf.
    rewrite Hconf. reflexivity.
  - destruct Hpushed as (Hinv & _). now rewrite Hinv.
  - exact Hpushed.
Qed.

(** C4. Whatever the device answers to the push, and also when the push
    fails: [CreateDevice.mutate] and [UpdateDevice.mutate] write the
    inventory with the new, or the changed, record first, after that only
    talk to the device, leave the file as they wrote it, and return the
    record. *)
Theorem mutation_is_saved_before_the_push (w : world)
    (device_data : DeviceInput) (devs : list pyval) :
  snd (NetmikoConfig.load_devices w) = inr (PList devs) ->
  (forall ids : list pyval,
     ids_of devs = inr ids -> is_Some (numbers ids) ->
     exists (w' : world) (new_id : Z),
       let new_device := created_record new_id device_data in
       let document := inventory_of (devs ++ [new_device]) in
       CreateDevice_mutate device_data w = (w', inr new_device) /\
       inventory w' = Document document /\
       pushed (saved document (opened w)) w') /\
  (forall (id : Z) (before after ids : list pyval) (dev found : pyval),
     devs = before ++ dev :: after ->
     ids_of before = inr ids ->
     Forall (fun v => eq_int v id = false) ids ->
     getitem dev "id" = inr found -> eq_int found id = true ->
     exists (w' : world) (dev' : pyval),
       let document := inventory_of (before ++ dev' :: after) in
       assign dev device_data = inr dev' /\
       UpdateDevice_mutate id device_data w = (w', inr (Some dev')) /\
       inventory w' = Document document /\
       pushed (saved document (opened w)) w').
Proof.
  intros Hload. split.
  - intros ids Hids [ns Hns].
    destruct (create_result w device_data devs ids ns Hload Hids Hns)
      as (w' & Hw').
    exists w', (next_id ns). exact Hw'.
  - apply load_devices_pair in Hload.
    intros id before after ids dev found -> Hids Hall Hfound Hmatch.
    assert (exists dev', assign dev device_data = inr dev') as [dev' Hassign].
    { destruct (getitem_id _ _ Hfound) as (entries & -> & _).
      simpl. eauto. }
    destruct (configure_device_returns dev'
                ["hostname " +:+ in_name device_data]
                (saved (inventory_of (before ++ dev' :: after)) (opened w)))
      as (w' & text & Hconf & Hpushed).
    { eapply assign_name; eassumption. }
    exists w', dev'. cbv zeta. split; [exact Hassign|]. split; [|split].
    + unfold UpdateDevice_mutate. unfold bind at 1. rewrite Hload.
      unfold bind at 1. unfold lift at 1. simpl iterate. cbv iota beta.
      rewrite (update_loop_skip _ _ _ _ _ [] ids Hids Hall).
      simpl update_loop. unfold bind at 1. unfold lift at 1.
      rewrite Hfound. cbv iota beta. rewrite Hmatch.
      unfold bind at 1. unfold lift at 1. rewrite Hassign. cbv iota beta.
      unfold bind at 1. rewrite save_devices_saved.
      unfold bind at 1. unfold inventory_of in Hconf. simpl app in *.
      rewrite Hconf. reflexivity.
    + destruct Hpushed as (Hinv & _). now rewrite Hinv.
    + exact Hpushed.
Qed.

(** C7. On an inventory whose records all have a number as identifier,
    [CreateDevice.mutate] gives the new record the largest of these
    numbers plus one, or 1 when there is no record, and
    [resolve_device_by_id] with that identifier, run next, returns the
    device with the fields of the record created. *)
Theorem created_device_is_found_by_its_id (w : world)
    (device_data : DeviceInput) (devs ids : list pyval) (ns : list Z) :
  snd (NetmikoConfig.load_devices w) = inr (PList devs) ->
  ids_of devs = inr ids -> numbers ids = Some ns ->
  exists (w' w'' : world) (new_id : Z),
    CreateDevice_mutate device_data w
      = (w', inr (created_record new_id device_data)) /\
    (ns = [] /\ new_id = 1%Z \/
     In (new_id - 1)%Z ns /\ Forall (fun n => (n <= new_id - 1)%Z) ns) /\
    resolve_device_by_id new_id w'
      = (w'', inr (Some {| id := PInt new_id;
                           name := PStr (in_name device_data);
                           host := PStr (in_host device_data);
                           username := PStr (in_username device_data);
                           password := PStr (in_password device_data);
                           secret := PStr (in_secret device_data);
                           device_type := PStr (in_device_type device_data) |})).
Proof.
  intros Hload Hids Hns.
  destruct (create_result w device_data devs ids ns Hload Hids Hns)
    as (w' & Hcreate & Hinv & _).
  assert (Hmax : ns = [] /\ next_id ns = 1%Z \/
                 In (next_id ns - 1)%Z ns /\
                 Forall (fun n => (n <= next_id ns - 1)%Z) ns).
  { destruct ns as [|n ns]; [left; auto | right].
    simpl next_id. replace (fold_left Z.max ns n + 1 - 1)%Z
      with (fold_left Z.max ns n) by lia.
    apply fold_max_spec. }
  assert (Hbelow : Forall (fun n => (n < next_id ns)%Z) ns).
  { destruct Hmax as [[-> _] | [_ Hall]]; [constructor|].
    eapply Forall_impl; [exact Hall|]. simpl. intros; lia. }
  exists w', (opened w'), (next_id ns). split; [exact Hcreate|].
  split; [exact Hmax|].
  unfold resolve_device_by_id. unfold bind at 1.
  rewrite load_devices_value, Hinv.
  unfold inventory_of. simpl truthy. cbv iota. simpl get.
  unfold bind at 1. unfold lift at 1. simpl iterate. cbv iota beta.
  unfold lift.
  rewrite (find_by_id_skip _ _ _ ids ns Hids Hns Hbelow).
  unfold created_record. simpl find_by_id. unfold field at 1. simpl assoc.
  unfold eq_int. simpl py_eq. rewrite Z.eqb_refl. reflexivity.
Qed.

(** C9. When the identifier is that of no record of the inventory,
    [UpdateDevice.mutate] returns [None], and all it did was open the
    inventory file to read it: it wrote no file and called no device. *)
Theorem update_of_unknown_id_changes_nothing (w : world) (id : Z)
    (device_data : DeviceInput) (devices : pyval) (items ids : list pyval) :
  snd (NetmikoConfig.load_devices w) = inr devices ->
  iterate devices = inr items ->
  ids_of items = inr ids ->
  Forall (fun v => eq_int v id = false) ids ->
  exists w' : world,
    UpdateDevice_mutate id device_data w = (w', inr None) /\
    inventory w' = inventory w /\ outside w' = outside w /\
    trace w' = trace w ++ [EvOpenInventory].
Proof.
  intros Hload Hiter Hids Hall. apply load_devices_pair in Hload.
  exists (opened w). split; [|repeat split].
  unfold UpdateDevice_mutate. unfold bind at 1. rewrite Hload.
  unfold bind at 1. unfold lift at 1. rewrite Hiter.
  rewrite <- (app_nil_r items).
  rewrite (update_loop_skip _ _ _ _ _ [] ids Hids Hall).
  reflexivity.
Qed.

(** C10. On an inventory whose records all have an identifier,
    [DeleteDevice.mutate] returns [ok=True] and writes the records whose
    identifier is another one; when the identifier is that of no record,
    what it writes is the list it loaded. It has no path that returns
    another [ok]. *)
Theorem delete_always_returns_ok (w : world) (id : Z)
    (items ids : list pyval) :
  snd (NetmikoConfig.load_devices w) = inr (PList items) ->
  ids_of items = inr ids ->
  (exists (kept : list pyval) (w' : world),
     without_id items id = inr kept /\
     DeleteDevice_mutate id w = (w', inr true) /\
     w' = saved (inventory_of kept) (opened w) /\
     (Forall (fun v => eq_int v id = false) ids -> kept = items)) /\
  (forall (w0 w1 : world) (i : Z) (ok : bool),
     DeleteDevice_mutate i w0 = (w1, inr ok) -> ok = true).
Proof.
  intros Hload Hids. apply load_devices_pair in Hload. split.
  - destruct (without_id_total items ids id Hids) as [kept Hkept].
    exists kept, (saved (inventory_of kept) (opened w)).
    split; [exact Hkept|]. split; [|split; [reflexivity|]].
    + unfold DeleteDevice_mutate. unfold bind at 1. rewrite Hload.
      unfold bind at 1. unfold lift at 1. simpl iterate. cbv iota beta.
      unfold bind at 1. unfold lift at 1. rewrite Hkept. reflexivity.
    + intros Hall. rewrite (without_id_none _ _ _ Hids Hall) in Hkept.
      now injection Hkept.
  - intros w0 w1 i ok. unfold DeleteDevice_mutate, bind.
    destruct (NetmikoConfig.load_devices w0) as [w2 [e|devices]];
      [discriminate|].
    unfold lift. destruct (iterate devices) as [e|l]; [discriminate|].
    destruct (without_id l i) as [e|kept]; [discriminate|].
    simpl. now intros [= _ <-].
Qed.
End Mutations.

Lemma mutation_is_saved_before_the_push_witness :
  let w := lab_world two_devices ∅ in
  let r1 := device_record 1 "R1" "10.0.0.1" in
  let r2 := device_record 2 "R2" "10.0.0.2" in
  snd (@NetmikoConfig.load_devices lab w) = inr (PList [r1; r2]) /\
  (exists (w' : @world lab) (new_id : Z),
     @CreateDevice_mutate lab r3_input w
       = (w', inr (created_record new_id r3_input)) /\
     inventory w'
       = Document (inventory_of ([r1; r2] ++ [created_record new_id r3_input]))) /\
  (exists (w' : @world lab) (dev' : pyval),
     @UpdateDevice_mutate lab 2 r3_input w = (w', inr (Some dev')) /\
     inventory w' = Document (inventory_of ([r1] ++ dev' :: []))).
Proof.
  intros w r1 r2.
  destruct (@mutation_is_saved_before_the_push lab w r3_input [r1; r2] eq_refl)
    as [Hcreate Hupdate].
  split; [reflexivity|]. split.
  - destruct (Hcreate [PInt 1; PInt 2] eq_refl (ex_intro _ [1; 2]%Z eq_refl))
      as (w' & new_id & Hres & Hinv & _).
    exists w', new_id. split; assumption.
  - destruct (Hupdate 2%Z [r1] [] [PInt 1] r2 (PInt 2))
      as (w' & dev' & _ & Hres & Hinv & _);
      [reflexivity | reflexivity | repeat constructor | reflexivity
      | reflexivity |].
    exists w', dev'. split; assumption.
Defined.

Lemma created_device_is_found_by_its_id_witness :
  let w := lab_world two_devices ∅ in
  let r1 := device_record 1 "R1" "10.0.0.1" in
  let r2 := device_record 2 "R2" "10.0.0.2" in
  snd (@NetmikoConfig.load_devices lab w) = inr (PList [r1; r2]) /\
  ids_of [r1; r2] = inr [PInt 1; PInt 2] /\
  numbers [PInt 1; PInt 2] = Some [1; 2]%Z /\
  exists (w' w'' : @world lab) (new_id : Z),
    @CreateDevice_mutate lab r3_input w
      = (w', inr (created_record new_id r3_input)) /\
    (In (new_id - 1)%Z [1; 2]%Z /\ Forall (fun n => (n <= new_id - 1)%Z) [1; 2]%Z) /\
    @resolve_device_by_id lab new_id w'
      = (w'', inr (Some {| id := PInt new_id; name := PStr "R3";
                           host := PStr "10.0.0.3"; username := PStr "cisco";
                           password := PStr "cisco"; secret := PStr "cisco";
                           device_type := PStr "cisco_ios" |})).
Proof.
  intros w r1 r2. repeat (split; [reflexivity|]).
  destruct (@created_device_is_found_by_its_id lab w r3_input [r1; r2]
              [PInt 1; PInt 2] [1; 2]%Z eq_refl eq_refl eq_refl)
    as (w' & w'' & new_id & Hres & [[Hnil _] | Hmax] & Hfound);
    [discriminate|].
  exists w', w'', new_id. repeat split; try assumption; apply Hmax.
Defined.

Lemma update_of_unknown_id_changes_nothing_witness :
  let w := lab_world two_devices ∅ in
  let r1 := device_record 1 "R1" "10.0.0.1" in
  let r2 := device_record 2 "R2" "10.0.0.2" in
  snd (@NetmikoConfig.load_devices lab w) = inr (PList [r1; r2]) /\
  iterate (PList [r1; r2]) = inr [r1; r2] /\
  ids_of [r1; r2] = inr [PInt 1; PInt 2] /\
  Forall (fun v => eq_int v 7 = false) [PInt 1; PInt 2] /\
  exists w' : @world lab,
    @UpdateDevice_mutate lab 7 r3_input w = (w', inr None) /\
    inventory w' = two_devices /\ trace w' = [EvOpenInventory].
Proof.
  intros w r1 r2. repeat (split; [reflexivity|]).
  split; [repeat constructor|].
  destruct (@update_of_unknown_id_changes_nothing lab w 7%Z r3_input
              (PList [r1; r2]) [r1; r2] [PInt 1; PInt 2])
    as (w' & Hres & Hinv & _ & Htrace);
    [reflexivity | reflexivity | reflexivity | repeat constructor |].
  exists w'. repeat split; assumption.
Defined.

Lemma delete_always_returns_ok_witness :
  let w := lab_world two_devices ∅ in
  let r1 := device_record 1 "R1" "10.0.0.1" in
  let r2 := device_record 2 "R2" "10.0.0.2" in
  snd (@NetmikoConfig.load_devices lab w) = inr (PList [r1; r2]) /\
  ids_of [r1; r2] = inr [PInt 1; PInt 2] /\
  exists w' : @world lab,
    @DeleteDevice_mutate lab 7 w = (w', inr true) /\
    inventory w' = two_devices.
Proof.
  intros w r1 r2. repeat (split; [reflexivity|]).
  destruct (@delete_always_returns_ok lab w 7%Z [r1; r2] [PInt 1; PInt 2]
              eq_refl eq_refl)
    as [(kept & w' & _ & Hres & -> & Hsame) _].
  exists (saved (inventory_of kept) (opened w)). split; [exact Hres|].
  rewrite Hsame by repeat constructor. reflexivity.
Defined.
End Inventory.

(* ===================================================================== *)
(** * The prober and the admin routes                                      *)
(* ===================================================================== *)

Module Routes.
Import Py Spec App.

Section Prober.
Context `{Outside}.

(** C6. [ping_device] runs the ping utility once and always returns a
    result. The status is [success], with the response time read from
    the standard output, when the exit code is 0; [error], without a
    response time, when it is any other code; and [timeout], with a fixed
    text as output whatever the process had printed, when the ten seconds
    given to [subprocess.run] ran out. *)
Theorem ping_device_maps_the_outcome (host : pyval) (w : world) :
  exists (cmd : list pyval) (outcome : exn + completed_process)
         (w' : world) (result : ping_result),
    (cmd = [PStr "ping"; PStr "-n"; PStr "4"; host] \/
     cmd = [PStr "ping"; PStr "-c"; PStr "4"; host]) /\
    subprocess_run cmd (outside w) = (outside w', outcome) /\
    trace w' = trace w ++ [EvRun cmd] /\
    ping_device host w = (w', inr result) /\
    match outcome with
    | inr process =>
        if (returncode process =? 0)%Z then
          status result = "success" /\
          output result = stdout process /\
          response_time result = extract_response_time (stdout process)
        else
          status result = "error" /\ response_time result = None
    | inl e =>
        if is_class TimeoutExpired e then
          status result = "timeout" /\
          output result = "El ping excedió el tiempo límite de 10 segundos" /\
          response_time result = None
        else
          status result = "error" /\ response_time result = None
    end.
Proof.
  unfold ping_device, try_except, bind, get_world, call.
  match goal with
  | |- context [subprocess_run ?c (outside w)] => set (cmd := c)
  end.
  exists cmd.
  destruct (subprocess_run cmd (outside w)) as [n outcome] eqn:Hrun.
  exists outcome.
  assert (Hcmd : cmd = [PStr "ping"; PStr "-n"; PStr "4"; host] \/
                 cmd = [PStr "ping"; PStr "-c"; PStr "4"; host]).
  { subst cmd. destruct (String.eqb _ _); auto. }
  exists (World (inventory w) n (session w) (printed w) (trace w ++ [EvRun cmd])).
  destruct outcome as [e|process].
  - destruct (is_class TimeoutExpired e) eqn:He;
      eexists; (split; [exact Hcmd|]);
      (split; [reflexivity|]); (split; [reflexivity|]);
      (split; [reflexivity|]); simpl; auto.
  - destruct (returncode process =? 0)%Z eqn:Hcode; unfold ret;
      eexists; (split; [exact Hcmd|]);
      (split; [reflexivity|]); (split; [reflexivity|]);
      (split; [reflexivity|]); simpl; auto.
Qed.
End Prober.

Section Template.
Context `{Outside}.


End Template.

(** A template of three commands of which the device refuses the second:
    three entries, [success], [error], [success]. *)
Example three_commands_second_fails :
  exists w' out1 out2 out3,
    @apply_commands lab [PStr "show version"; PStr "show bad"; PStr "show clock"]
                    [] (lab_world two_devices admin_session)
    = (w', inr [command_result (PStr "show version") out1 "success";
                command_result (PStr "show bad") out2 "error";
                command_result (PStr "show clock") out3 "success"]) /\
    trace w' = [EvSendCommand "show version"; EvSendCommand "show bad";
                EvSendCommand "show clock"].
Proof. repeat eexists. Qed.

Section Gate.
Context `{Outside}.

Lemma not_admin_denies (w : world) :
  session w !! "username" = None \/
  (exists role, session w !! "role" = Some role /\ role <> "admin") ->
  not_admin w = (w, inr true).
Proof.
  unfold not_admin, bind, get_world, ret.
  intros [Hnone | (role & Hrole & Hne)].
  - now rewrite Hnone.
  - destruct (session w !! "username") as [u|]; [|reflexivity].
    rewrite Hrole. apply String.eqb_neq in Hne. now rewrite Hne.
Qed.

(** C1, as amended. Every admin route answers a request without a
    session, and a request of a session whose role is not [admin], with
    the status 403 and the error [Acceso denegado], and leaves the world
    as it was: the inventory is not read and no device is called. *)
Theorem admin_routes_reject_with_403 (r : admin_route) (req : request)
    (w : world) :
  session w !! "username" = None \/
  (exists role, session w !! "role" = Some role /\ role <> "admin") ->
  handler r req w = (w, inr (error "Acceso denegado" 403)).
Proof.
  intros Hdenied. apply not_admin_denies in Hdenied.
  destruct r; simpl handler;
    unfold get_device_config, get_interfaces, get_cdp_neighbors,
           get_interface_traffic, monitoring, simulate_patch,
           apply_yaml_template, maintenance_backup, change_device_password,
           manage_users, configure_acls, security_audit;
    unfold bind at 1; rewrite Hdenied; reflexivity.
Qed.
End Gate.

(** C1, as stated, fails: without a session the route answers 403, not 401. *)
Lemma no_session_gets_403_not_401 :
  session (lab_world two_devices ∅) !! "username" = None /\
  snd (@handler lab MonitoringConfig config_request (lab_world two_devices ∅))
    = inr (error "Acceso denegado" 403) /\
  status_code (error "Acceso denegado" 403) <> 401%Z.
Proof.
  split; [reflexivity|]. split; [reflexivity|]. discriminate.
Qed.

Lemma admin_routes_reject_with_403_witness :
  (session (lab_world two_devices ∅) !! "username" = None /\
   @handler lab SecurityAudit config_request (lab_world two_devices ∅)
     = (lab_world two_devices ∅, inr (error "Acceso denegado" 403))) /\
  (session (lab_world two_devices user_session) !! "role" = Some "user" /\
   @handler lab MonitoringConfig config_request (lab_world two_devices user_session)
     = (lab_world two_devices user_session, inr (error "Acceso denegado" 403))).
Proof.
  split; (split; [reflexivity|]).
  - apply (@admin_routes_reject_with_403 lab). left. reflexivity.
  - apply (@admin_routes_reject_with_403 lab). right.
    exists "user". split; [reflexivity | discriminate].
Defined.

(** The whole route on that template, for an admin: status 200 and the
    three entries, the second an error. *)
Example apply_template_in_the_lab :
  snd (@apply_yaml_template lab template_request
         (lab_world two_devices admin_session))
  = inr (jsonify
           [("success", PBool true);
            ("device", PStr "R1");
            ("results",
             PList [command_result (PStr "show version") "ok: show version" "success";
                    command_result (PStr "show bad") "% Invalid input detected" "error";
                    command_result (PStr "show clock") "ok: show clock" "success"]);
            ("timestamp", PStr "2024-01-01 00:00:00")] 200).
Proof. vm_compute. reflexivity. Qed.

(** An admin who names a device the inventory does not hold gets 404. *)
Example unknown_device_gets_404 :
  snd (@security_audit lab
         {| method := "POST"; get_json := PDict [("device_name", PStr "R9")] |}
         (lab_world two_devices admin_session))
  = inr (error "Dispositivo no encontrado" 404).
Proof. vm_compute. reflexivity. Qed.

End Routes.

(* ===================================================================== *)
(** * Sessions: login, logout and what they open                           *)
(* ===================================================================== *)

Module Sessions.
Import Py Spec App.

Section Facts.
Context `{Outside}.

Lemma bind_returned {A B} (m : M A) (f : A -> M B) (w w' : world) (x : A) :
  m w = (w', inr x) -> bind m f w = f x w'.
Proof. intros Hm. unfold bind. now rewrite Hm. Qed.

Lemma bind_returned_l {A B} (x : A) (m : M A) (f : A -> M B) (w : world) :
  m w = (w, inr x) -> bind m f w = f x w.
Proof. apply bind_returned. Qed.

Lemma bind_raised {A B} (m : M A) (f : A -> M B) (w w' : world) (e : exn) :
  m w = (w', inl e) -> bind m f w = (w', inl e).
Proof. intros Hm. unfold bind. now rewrite Hm. Qed.

Lemma users_lookup (u : string) (entry : user_entry) :
  USERS !! u = Some entry <->
  (u = "admin" /\ entry = {| user_password := "admin123"; user_role := "admin" |}) \/
  (u = "user" /\ entry = {| user_password := "user123"; user_role := "user" |}).
Proof.
  unfold USERS. rewrite lookup_insert. destruct (decide ("admin" = u)) as [<-|Hne].
  - split; [intros [= <-]; left; auto|].
    intros [[_ ->] | [Hu _]]; [reflexivity | discriminate].
  - rewrite lookup_insert. destruct (decide ("user" = u)) as [<-|Hne'].
    + split; [intros [= <-]; right; auto|].
      intros [[Hu _] | [_ ->]]; [discriminate | reflexivity].
    + rewrite lookup_empty. split; [discriminate|].
      intros [[-> _] | [-> _]]; congruence.
Qed.

Lemma py_eq_str (s : string) (v : pyval) :
  py_eq (PStr s) v = true <-> v = PStr s.
Proof.
  destruct v; simpl; try (split; [discriminate | discriminate]).
  rewrite String.eqb_eq. split; [now intros -> | now intros [= ->]].
Qed.

(** X1. [login] succeeds exactly on the two pairs of [USERS]: it then stores
    the user and the role of that user in the session and answers with them;
    on any other user name that can be looked up, and on any other
    password, it leaves the world as it was and gives the one answer that
    does not tell which of the two was wrong. *)
Theorem login_succeeds_exactly_on_the_table (req : request) (w : world)
    (u p : pyval) :
  get (get_json req) "username" PNone = inr u ->
  get (get_json req) "password" PNone = inr p ->
  hashable u = true ->
  (forall name entry,
     u = PStr name -> USERS !! name = Some entry ->
     p = PStr (user_password entry) ->
     login req w =
     (World (inventory w) (outside w)
            (<["role" := user_role entry]> (<["username" := name]> (session w)))
            (printed w) (trace w),
      inr (jsonify [("success", PBool true);
                    ("role", PStr (user_role entry));
                    ("username", PStr name)] 200))) /\
  ((forall name entry,
      u = PStr name -> USERS !! name = Some entry ->
      p <> PStr (user_password entry)) ->
   login req w = (w, inr login_failure)).
Proof.
  intros Hu Hp Hhash. unfold login.
  rewrite (bind_returned _ _ w w u) by (unfold lift; now rewrite Hu).
  rewrite (bind_returned _ _ w w p) by (unfold lift; now rewrite Hp).
  split.
  - intros name entry -> Hentry ->.
    rewrite (bind_returned _ _ w w (Some entry)) by (unfold ret; now rewrite Hentry).
    assert (Heq : py_eq (PStr (user_password entry)) (PStr (user_password entry)) = true)
      by now apply py_eq_str.
    rewrite Heq. reflexivity.
  - intros Hwrong. destruct u as [| | |name| |]; try discriminate; try reflexivity.
    destruct (USERS !! name) as [entry|] eqn:Hentry.
    + rewrite (bind_returned _ _ w w (Some entry)) by reflexivity.
      destruct (py_eq (PStr (user_password entry)) p) eqn:Heq; [|reflexivity].
      apply py_eq_str in Heq. exfalso. eapply Hwrong; eauto.
    + rewrite (bind_returned _ _ w w None) by reflexivity.
      reflexivity.
Qed.

(** X2. A session that [login] and [logout] made stays one they could have
    made: both keep [session_ok], and on such a session the admin guard
    always answers, it never raises on a missing role. *)
Theorem session_ok_is_kept (w : world) :
  session_ok (session w) ->
  (forall req w' r, login req w = (w', r) -> session_ok (session w')) /\
  (forall w' r, logout w = (w', r) -> session_ok (session w')) /\
  (exists denied, not_admin w = (w, inr denied)).
Proof.
  intros Hok. split; [|split].
  - intros req w' r. unfold login, bind, lift.
    destruct (get (get_json req) "username" PNone) as [e|u]; [now intros [= <- _]|].
    destruct (get (get_json req) "password" PNone) as [e|p]; [now intros [= <- _]|].
    destruct u as [| | |name| |]; simpl; try (now intros [= <- _]).
    unfold ret. destruct (USERS !! name) as [entry|] eqn:Hentry;
      [|now intros [= <- _]].
    match goal with
    | |- context [if ?c then _ else _] => destruct c
    end; [|now intros [= <- _]].
    intros [= <- _]. simpl.
    right. exists name, entry. repeat split.
    + rewrite lookup_insert_ne by discriminate. apply lookup_insert_eq.
    + exact Hentry.
    + apply lookup_insert_eq.
  - intros w' r. unfold logout, bind, set_session, ret. simpl.
    intros [= <- _]. simpl. left. apply lookup_empty.
  - unfold not_admin, bind, get_world, ret.
    destruct Hok as [Hnone | (u & entry & Hu & _ & Hrole)].
    + rewrite Hnone. eauto.
    + rewrite Hu, Hrole. eauto.
Qed.

Lemma denied_everywhere (r : admin_route) (req : request) (w : world) :
  not_admin w = (w, inr true) ->
  handler r req w = (w, inr (error "Acceso denegado" 403)).
Proof.
  intros Hdenied.
  destruct r; simpl handler;
    unfold get_device_config, get_interfaces, get_cdp_neighbors,
           get_interface_traffic, monitoring, simulate_patch,
           apply_yaml_template, maintenance_backup, change_device_password,
           manage_users, configure_acls, security_audit;
    rewrite (bind_returned _ _ _ _ _ Hdenied); reflexivity.
Qed.

(** X3. After [logout] nothing is open: every admin route answers 403, the
    device list and the ping route answer 401, and [check_auth] says that
    nobody is authenticated; none of them reads the inventory or calls a
    device. *)
Theorem logout_locks_every_route (w : world) (r : admin_route) (req : request) :
  exists w1 : world,
    logout w = (w1, inr (jsonify [("success", PBool true)] 200)) /\
    trace w1 = trace w /\
    handler r req w1 = (w1, inr (error "Acceso denegado" 403)) /\
    get_devices w1 = (w1, inr (error "No autenticado" 401)) /\
    ping_routers req w1 = (w1, inr (PingJson (error "No autenticado" 401))) /\
    check_auth w1 = (w1, inr (jsonify [("authenticated", PBool false)] 200)).
Proof.
  exists (World (inventory w) (outside w) ∅ (printed w) (trace w)).
  split; [reflexivity|]. split; [reflexivity|]. split; [|repeat split].
  apply denied_everywhere. reflexivity.
Qed.

(** X4. After a [login] with a pair of [USERS], [check_auth] reports that
    user and the role of that user, and the role decides about the admin
    routes: the user [user] gets 403 from every one of them, and for the
    user [admin] the guard opens. *)
Theorem login_decides_what_is_open (req : request) (w : world)
    (name : string) (entry : user_entry) :
  get (get_json req) "username" PNone = inr (PStr name) ->
  get (get_json req) "password" PNone = inr (PStr (user_password entry)) ->
  USERS !! name = Some entry ->
  exists (w1 : world) (resp : response),
    login req w = (w1, inr resp) /\
    check_auth w1 = (w1, inr (jsonify [("authenticated", PBool true);
                                       ("username", PStr name);
                                       ("role", PStr (user_role entry))] 200)) /\
    (name = "user" ->
     forall r req', handler r req' w1 = (w1, inr (error "Acceso denegado" 403))) /\
    (name = "admin" -> not_admin w1 = (w1, inr false)).
Proof.
  intros Hu Hp Hentry.
  set (w1 := World (inventory w) (outside w)
                   (<["role" := user_role entry]> (<["username" := name]> (session w)))
                   (printed w) (trace w)).
  assert (Hname : session w1 !! "username" = Some name).
  { simpl. rewrite lookup_insert_ne by discriminate. apply lookup_insert_eq. }
  assert (Hrole : session w1 !! "role" = Some (user_role entry)).
  { simpl. apply lookup_insert_eq. }
  exists w1. eexists. split; [|split; [|split]].
  - unfold login.
    rewrite (bind_returned _ _ w w (PStr name)) by (unfold lift; now rewrite Hu).
    rewrite (bind_returned _ _ w w (PStr (user_password entry)))
      by (unfold lift; now rewrite Hp).
    rewrite (bind_returned _ _ w w (Some entry)) by (unfold ret; now rewrite Hentry).
    assert (Heq : py_eq (PStr (user_password entry)) (PStr (user_password entry)) = true)
      by now apply py_eq_str.
    rewrite Heq. reflexivity.
  - unfold check_auth, bind, get_world. now rewrite Hname, Hrole.
  - intros -> r req'. apply denied_everywhere.
    apply users_lookup in Hentry as [[Hname' _] | [_ ->]]; [discriminate|].
    unfold not_admin, bind, get_world. now rewrite Hname, Hrole.
  - intros ->.
    apply users_lookup in Hentry as [[_ ->] | [Hname' _]]; [|discriminate].
    unfold not_admin, bind, get_world. now rewrite Hname, Hrole.
Qed.
End Facts.

Lemma login_decides_what_is_open_witness :
  exists (w1 : @world lab) (resp : response),
    @login lab (login_request "user" "user123") (lab_world two_devices ∅)
      = (w1, inr resp) /\
    @handler lab SecurityAudit config_request w1
      = (w1, inr (error "Acceso denegado" 403)).
Proof.
  destruct (@login_decides_what_is_open lab (login_request "user" "user123")
              (lab_world two_devices ∅) "user"
              {| user_password := "user123"; user_role := "user" |}
              eq_refl eq_refl eq_refl)
    as (w1 & resp & Hlogin & _ & Huser & _).
  exists w1, resp. split; [exact Hlogin|]. now apply Huser.
Defined.

Lemma login_succeeds_exactly_on_the_table_witness :
  let w := lab_world two_devices ∅ in
  (@login lab (login_request "admin" "admin123") w
   = (lab_world two_devices admin_session,
      inr (jsonify [("success", PBool true); ("role", PStr "admin");
                    ("username", PStr "admin")] 200))) /\
  (@login lab (login_request "admin" "user123") w = (w, inr login_failure)).
Proof.
  intros w. split.
  - destruct (@login_succeeds_exactly_on_the_table lab
                (login_request "admin" "admin123") w (PStr "admin")
                (PStr "admin123") eq_refl eq_refl eq_refl) as [Hgood _].
    apply (Hgood "admin" {| user_password := "admin123"; user_role := "admin" |});
      reflexivity.
  - destruct (@login_succeeds_exactly_on_the_table lab
                (login_request "admin" "user123") w (PStr "admin")
                (PStr "user123") eq_refl eq_refl eq_refl) as [_ Hbad].
    apply Hbad. intros name entry [= <-] Hentry.
    apply users_lookup in Hentry as [[_ ->] | [Hname _]]; discriminate.
Defined.

Lemma session_ok_is_kept_witness :
  session_ok admin_session /\
  exists denied,
    @not_admin lab (lab_world two_devices admin_session)
    = (lab_world two_devices admin_session, inr denied).
Proof.
  assert (Hok : session_ok admin_session).
  { right. exists "admin", {| user_password := "admin123"; user_role := "admin" |}.
    repeat split. }
  split; [exact Hok|].
  apply (@session_ok_is_kept lab (lab_world two_devices admin_session) Hok).
Defined.

End Sessions.

(* ===================================================================== *)
(** * The device list and the ping route                                   *)
(* ===================================================================== *)

Module Listing.
Import Py Spec App Sessions.

Section Facts.
Context `{Outside}.

Lemma load_devices_document (w : world) (doc devices : pyval) :
  inventory w = Document doc ->
  getitem doc "devices" = inr devices ->
  App.load_devices w = (opened w, inr devices).
Proof.
  intros Hinv Hdoc.
  unfold App.load_devices, try_except, bind, read_yaml, lift, opened.
  now rewrite Hinv, Hdoc.
Qed.

Lemma device_listing_spec (devs : list pyval) :
  forall acc : list pyval,
    Forall (fun d => exists e, listed d e) devs ->
    exists listing,
      device_listing devs acc = inr (acc ++ listing) /\
      Forall2 listed devs listing.
Proof.
  induction devs as [|d devs IH]; intros acc Hall; simpl.
  - exists []. rewrite app_nil_r. split; [reflexivity | constructor].
  - inversion Hall as [|? ? (e & n & h & t & Hn & Hh & Ht & ->) Hrest]; subst.
    rewrite Hn, Hh, Ht.
    destruct (IH (acc ++ [PDict [("name", n); ("host", h); ("device_type", t)]]) Hrest)
      as (listing & -> & Hlisted).
    exists (PDict [("name", n); ("host", h); ("device_type", t)] :: listing).
    rewrite <- app_assoc. split; [reflexivity|].
    constructor; [|exact Hlisted].
    exists n, h, t. auto.
Qed.

Lemma status_listing_spec (devs : list pyval) :
  forall acc : list pyval,
    Forall pingable devs ->
    exists listing,
      status_listing devs acc = inr (acc ++ listing) /\
      Forall2 listed_unknown devs listing.
Proof.
  induction devs as [|d devs IH]; intros acc Hall; simpl.
  - exists []. rewrite app_nil_r. split; [reflexivity | constructor].
  - inversion Hall as [|? ? (n & h & Hn & Hh) Hrest]; subst.
    rewrite Hn, Hh.
    destruct (IH (acc ++ [PDict [("name", n); ("host", h); ("status", PStr "unknown")]])
                 Hrest) as (listing & -> & Hlisted).
    exists (PDict [("name", n); ("host", h); ("status", PStr "unknown")] :: listing).
    rewrite <- app_assoc. split; [reflexivity|].
    constructor; [|exact Hlisted].
    exists n, h. auto.
Qed.

(** [ping_device] runs one command, which ends in the host, and returns. *)
Lemma ping_device_runs_once (host : pyval) (w : world) :
  exists (cmd : list pyval) (w' : world) (result : ping_result),
    ping_device host w = (w', inr result) /\
    List.last cmd PNone = host /\
    inventory w' = inventory w /\ session w' = session w /\
    printed w' = printed w /\ trace w' = trace w ++ [EvRun cmd].
Proof.
  unfold ping_device, try_except, bind, get_world, call.
  match goal with
  | |- context [subprocess_run ?c (outside w)] => set (cmd := c)
  end.
  exists cmd.
  assert (Hlast : List.last cmd PNone = host).
  { subst cmd. destruct (String.eqb _ _); reflexivity. }
  destruct (subprocess_run cmd (outside w)) as [n [e|process]].
  - destruct (is_class TimeoutExpired e); eexists; eexists;
      (split; [reflexivity|]); repeat split; exact Hlast.
  - destruct (returncode process =? 0)%Z; eexists; eexists;
      (split; [reflexivity|]); repeat split; exact Hlast.
Qed.

(** What [ping_routers] does with one record that has a name and a host. *)
Lemma ping_one_spec (d : pyval) (w : world) :
  pingable d ->
  exists (e : ping_entry) (cmd : list pyval) (w' : world),
    ping_one d w = (w', inr e) /\ probed d e cmd /\
    inventory w' = inventory w /\ session w' = session w /\
    trace w' = trace w ++ [EvRun cmd].
Proof.
  intros (n & h & Hn & Hh). unfold ping_one.
  rewrite (bind_returned_l n) by (unfold lift; now rewrite Hn).
  rewrite (bind_returned_l h) by (unfold lift; now rewrite Hh).
  unfold bind at 1, print at 1.
  set (w1 := World _ _ _ _ _).
  rewrite (bind_returned_l h) by (unfold lift; now rewrite Hh).
  destruct (ping_device_runs_once h w1)
    as (cmd & w2 & result & Hping & Hlast & Hinv & Hses & _ & Htrace).
  unfold bind at 1. rewrite Hping.
  rewrite (bind_returned_l n) by (unfold lift; now rewrite Hn).
  rewrite (bind_returned_l h) by (unfold lift; now rewrite Hh).
  unfold bind, now, ret.
  eexists; exists cmd, w2. split; [reflexivity|].
  repeat split; simpl; assumption.
Qed.

Lemma ping_all_spec (devs : list pyval) :
  forall (results : list ping_entry) (w : world),
    Forall pingable devs ->
    exists (entries : list ping_entry) (cmds : list (list pyval)) (w' : world),
      ping_all devs results w = (w', inr (results ++ entries)) /\
      Forall3 probed devs entries cmds /\
      inventory w' = inventory w /\ session w' = session w /\
      trace w' = trace w ++ map EvRun cmds.
Proof.
  induction devs as [|d devs IH]; intros results w Hall; simpl.
  - exists [], [], w. rewrite !app_nil_r. repeat split. constructor.
  - inversion Hall as [|? ? Hd Hrest]; subst.
    destruct (ping_one_spec d w Hd)
      as (e & cmd & w1 & Hone & Hprobed & Hinv & Hses & Htrace).
    unfold bind. rewrite Hone.
    destruct (IH (results ++ [e]) w1 Hrest)
      as (entries & cmds & w' & -> & Hall3 & Hinv' & Hses' & Htrace').
    exists (e :: entries), (cmd :: cmds), w'.
    rewrite <- app_assoc. split; [reflexivity|].
    split; [constructor; assumption|].
    repeat split; try congruence.
    rewrite Htrace', Htrace, <- app_assoc. reflexivity.
Qed.

Lemma first_named_app (n : pyval) (l1 l2 : list pyval) :
  Forall (not_named n) l1 ->
  first_named (l1 ++ l2) n = first_named l2 n.
Proof.
  induction 1 as [|d l1 (v & Hv & Hne) _ IH]; simpl; [reflexivity|].
  now rewrite Hv, Hne.
Qed.

Lemma named_truthy (n d : pyval) : named n d -> truthy d = true.
Proof.
  intros (v & Hv & _). destruct d as [| | | | |entries]; try discriminate.
  destruct entries; [discriminate | reflexivity].
Qed.

Lemma first_named_found (l : list pyval) (n d : pyval) :
  Forall pingable l -> first_named l n = inr (Some d) ->
  pingable d /\ truthy d = true.
Proof.
  induction 1 as [|x l Hx _ IH]; simpl; [discriminate|].
  destruct (getitem x "name") as [e|v] eqn:Hv; [discriminate|].
  destruct (py_eq v n) eqn:Heq; [|exact IH].
  intros [= <-]. split; [exact Hx|].
  apply (named_truthy n). exists v. auto.
Qed.

(** X5. For who has a session, [get_devices] opens the inventory and returns
    one entry for each record, in the order of the file, made of the name,
    the host and the device type of the record and of nothing else: no user
    name, password or secret of a device is in the answer. *)
Theorem get_devices_lists_no_credentials (w : world) (u : string)
    (doc : pyval) (devs : list pyval) :
  session w !! "username" = Some u ->
  inventory w = Document doc ->
  getitem doc "devices" = inr (PList devs) ->
  Forall (fun d => exists e, listed d e) devs ->
  exists listing : list pyval,
    get_devices w = (opened w, inr (jsonify [("devices", PList listing)] 200)) /\
    Forall2 listed devs listing.
Proof.
  intros Hu Hinv Hdoc Hall.
  destruct (device_listing_spec devs [] Hall) as (listing & Hlist & Hlisted).
  exists listing. split; [|exact Hlisted].
  unfold get_devices, bind at 1, get_world. rewrite Hu.
  rewrite (bind_returned _ _ _ _ _ (load_devices_document w doc _ Hinv Hdoc)).
  unfold bind, lift. simpl iterate. cbv iota beta. now rewrite Hlist.
Qed.

(** X6. The [GET] of [/ping] only lists: one entry for each record with its
    name, its host and the status [unknown]; the inventory is read and no
    ping is run. *)
Theorem ping_get_lists_without_probing (req : request) (w : world) (u : string)
    (doc : pyval) (devs : list pyval) :
  session w !! "username" = Some u ->
  method req = "GET" ->
  inventory w = Document doc ->
  getitem doc "devices" = inr (PList devs) ->
  Forall pingable devs ->
  exists listing : list pyval,
    ping_routers req w
      = (opened w, inr (PingJson (jsonify [("devices", PList listing)] 200))) /\
    Forall2 listed_unknown devs listing.
Proof.
  intros Hu Hget Hinv Hdoc Hall.
  destruct (status_listing_spec devs [] Hall) as (listing & Hlist & Hlisted).
  exists listing. split; [|exact Hlisted].
  unfold ping_routers, bind at 1, get_world. rewrite Hu.
  rewrite (bind_returned _ _ _ _ _ (load_devices_document w doc _ Hinv Hdoc)).
  rewrite Hget. change (String.eqb "GET" "GET") with true. cbv iota.
  unfold bind, lift. simpl iterate. cbv iota beta. now rewrite Hlist.
Qed.

(** X7. The [POST] of [/ping] for all devices probes every record, one after
    the other in the order of the file: the answer has one result for each
    record, with its name and host, and the commands that were run are one
    for each record, in the same order, each ending in the host of its
    record. *)
Theorem ping_all_probes_in_order (req : request) (w : world) (u : string)
    (doc : pyval) (devs : list pyval) :
  session w !! "username" = Some u ->
  method req = "POST" ->
  get (get_json req) "target" (PStr "all") = inr (PStr "all") ->
  inventory w = Document doc ->
  getitem doc "devices" = inr (PList devs) ->
  Forall pingable devs ->
  exists (entries : list ping_entry) (cmds : list (list pyval)) (w' : world),
    ping_routers req w = (w', inr (PingResults entries)) /\
    Forall3 probed devs entries cmds /\
    inventory w' = inventory w /\
    trace w' = trace w ++ EvOpenInventory :: map EvRun cmds.
Proof.
  intros Hu Hpost Htarget Hinv Hdoc Hall.
  destruct (ping_all_spec devs [] (opened w) Hall)
    as (entries & cmds & w' & Hping & Hall3 & Hinv' & _ & Htrace).
  exists entries, cmds, w'.
  split; [|split; [exact Hall3 | split; [exact Hinv'|]]].
  - unfold ping_routers, bind at 1, get_world. rewrite Hu.
    rewrite (bind_returned _ _ _ _ _ (load_devices_document w doc _ Hinv Hdoc)).
    rewrite Hpost. change (String.eqb "POST" "GET") with false.
    change (String.eqb "POST" "POST") with true. cbv iota.
    rewrite (bind_returned_l (PStr "all")) by (unfold lift; now rewrite Htarget).
    change (py_eq (PStr "all") (PStr "all")) with true. cbv iota.
    rewrite (bind_returned_l devs) by reflexivity.
    rewrite (bind_returned _ _ _ _ _ Hping). reflexivity.
  - rewrite Htrace. simpl. now rewrite <- app_assoc.
Qed.

(** X8. The [POST] of [/ping] for one name probes the first record of that
    name and no other; for a name no record has it answers 404 and runs no
    ping. *)
Theorem ping_one_target (req : request) (w : world) (u : string)
    (target doc : pyval) (devs : list pyval) (found : option pyval) :
  session w !! "username" = Some u ->
  method req = "POST" ->
  get (get_json req) "target" (PStr "all") = inr target ->
  py_eq target (PStr "all") = false ->
  inventory w = Document doc ->
  getitem doc "devices" = inr (PList devs) ->
  Forall pingable devs ->
  first_named devs target = inr found ->
  match found with
  | None =>
      ping_routers req w
        = (opened w, inr (PingJson (error "Dispositivo no encontrado" 404)))
  | Some d =>
      exists (e : ping_entry) (cmd : list pyval) (w' : world),
        ping_routers req w = (w', inr (PingResults [e])) /\
        probed d e cmd /\
        trace w' = trace w ++ [EvOpenInventory; EvRun cmd]
  end.
Proof.
  intros Hu Hpost Htarget Hne Hinv Hdoc Hall Hfound.
  assert (Hroute : ping_routers req w =
            match found with
            | Some dev =>
                if truthy dev
                then bind (ping_one dev) (fun entry => ret (PingResults [entry]))
                else ret (PingJson (error "Dispositivo no encontrado" 404))
            | None => ret (PingJson (error "Dispositivo no encontrado" 404))
            end (opened w)).
  { unfold ping_routers, bind at 1, get_world. rewrite Hu.
    rewrite (bind_returned _ _ _ _ _ (load_devices_document w doc _ Hinv Hdoc)).
    rewrite Hpost. change (String.eqb "POST" "GET") with false.
    change (String.eqb "POST" "POST") with true. cbv iota.
    rewrite (bind_returned_l target) by (unfold lift; now rewrite Htarget).
    rewrite Hne.
    rewrite (bind_returned_l found)
      by (unfold find_device, bind, lift; simpl iterate; cbv iota beta;
          now rewrite Hfound).
    reflexivity. }
  rewrite Hroute. destruct found as [d|]; [|reflexivity].
  destruct (first_named_found _ _ _ Hall Hfound) as [Hd ->].
  destruct (ping_one_spec d (opened w) Hd)
    as (e & cmd & w' & Hone & Hprobed & _ & _ & Htrace).
  exists e, cmd, w'. split; [|split; [exact Hprobed|]].
  - unfold bind. now rewrite Hone.
  - rewrite Htrace. simpl. now rewrite <- app_assoc.
Qed.

(** X9. The search of a device by name returns the first record of that name:
    the records before it have other names, so of two records with one name
    the first is taken; and it returns nothing exactly when every record has
    another name. *)
Theorem first_named_is_the_first_match (l : list pyval) (n : pyval) :
  (forall d : pyval,
     first_named l n = inr (Some d) <->
     exists l1 l2,
       l = l1 ++ d :: l2 /\ Forall (not_named n) l1 /\ named n d) /\
  (first_named l n = inr None <-> Forall (not_named n) l).
Proof.
  split.
  - intros d. split.
    + induction l as [|x l IH]; simpl; [discriminate|].
      destruct (getitem x "name") as [e|v] eqn:Hv; [discriminate|].
      destruct (py_eq v n) eqn:Heq.
      * intros [= <-]. exists [], l. repeat split; [constructor|].
        exists v. auto.
      * intros Hrest. destruct (IH Hrest) as (l1 & l2 & -> & Hl1 & Hd).
        exists (x :: l1), l2. repeat split; [|exact Hd].
        constructor; [|exact Hl1]. exists v. auto.
    + intros (l1 & l2 & -> & Hl1 & v & Hv & Heq).
      rewrite (first_named_app _ _ _ Hl1). simpl. now rewrite Hv, Heq.
  - split.
    + induction l as [|x l IH]; simpl; [constructor|].
      destruct (getitem x "name") as [e|v] eqn:Hv; [discriminate|].
      destruct (py_eq v n) eqn:Heq; [discriminate|].
      intros Hrest. constructor; [|now apply IH]. exists v. auto.
    + intros Hall. rewrite <- (app_nil_r l).
      now rewrite (first_named_app _ _ _ Hall).
Qed.
End Facts.

Lemma two_devices_pingable :
  Forall pingable [device_record 1 "R1" "10.0.0.1"; device_record 2 "R2" "10.0.0.2"].
Proof.
  repeat constructor.
  - exists (PStr "R1"), (PStr "10.0.0.1"). split; reflexivity.
  - exists (PStr "R2"), (PStr "10.0.0.2"). split; reflexivity.
Qed.

Lemma get_devices_lists_no_credentials_witness :
  let w := lab_world two_devices user_session in
  session w !! "username" = Some "user" /\
  exists listing : list pyval,
    @get_devices lab w
      = (opened w, inr (jsonify [("devices", PList listing)] 200)) /\
    List.length listing = 2%nat.
Proof.
  intros w. split; [reflexivity|].
  destruct (@get_devices_lists_no_credentials lab w "user"
              (inventory_of [device_record 1 "R1" "10.0.0.1";
                             device_record 2 "R2" "10.0.0.2"])
              [device_record 1 "R1" "10.0.0.1"; device_record 2 "R2" "10.0.0.2"]
              eq_refl eq_refl eq_refl)
    as (listing & Hres & Hlisted).
  - repeat constructor; eexists; eexists; eexists; eexists;
      repeat split; reflexivity.
  - exists listing. split; [exact Hres|].
    inversion Hlisted as [|? ? ? ? _ Hrest]; subst.
    inversion Hrest as [|? ? ? ? _ Hnil]; subst.
    inversion Hnil. reflexivity.
Defined.

Lemma ping_get_lists_without_probing_witness :
  let w := lab_world two_devices user_session in
  let req := {| method := "GET"; get_json := PNone |} in
  session w !! "username" = Some "user" /\
  exists listing : list pyval,
    @ping_routers lab req w
      = (opened w, inr (PingJson (jsonify [("devices", PList listing)] 200))).
Proof.
  intros w req. split; [reflexivity|].
  destruct (@ping_get_lists_without_probing lab req w "user"
              (inventory_of [device_record 1 "R1" "10.0.0.1";
                             device_record 2 "R2" "10.0.0.2"])
              [device_record 1 "R1" "10.0.0.1"; device_record 2 "R2" "10.0.0.2"]
              eq_refl eq_refl eq_refl eq_refl two_devices_pingable)
    as (listing & Hres & _).
  exists listing. exact Hres.
Defined.

Lemma ping_all_probes_in_order_witness :
  let w := lab_world two_devices user_session in
  session w !! "username" = Some "user" /\
  exists (entries : list ping_entry) (cmds : list (list pyval)) (w' : @world lab),
    @ping_routers lab (ping_request "all") w = (w', inr (PingResults entries)) /\
    List.length entries = 2%nat /\
    trace w' = EvOpenInventory :: map EvRun cmds.
Proof.
  intros w. split; [reflexivity|].
  destruct (@ping_all_probes_in_order lab (ping_request "all") w "user"
              (inventory_of [device_record 1 "R1" "10.0.0.1";
                             device_record 2 "R2" "10.0.0.2"])
              [device_record 1 "R1" "10.0.0.1"; device_record 2 "R2" "10.0.0.2"]
              eq_refl eq_refl eq_refl eq_refl eq_refl two_devices_pingable)
    as (entries & cmds & w' & Hres & Hall3 & _ & Htrace).
  exists entries, cmds, w'. split; [exact Hres|]. split; [|exact Htrace].
  inversion Hall3 as [|? ? ? ? ? ? _ Hrest]; subst.
  inversion Hrest as [|? ? ? ? ? ? _ Hnil]; subst.
  inversion Hnil. reflexivity.
Defined.

Lemma ping_one_target_witness :
  let w := lab_world two_devices user_session in
  session w !! "username" = Some "user" /\
  (exists (e : ping_entry) (cmd : list pyval) (w' : @world lab),
     @ping_routers lab (ping_request "R2") w = (w', inr (PingResults [e])) /\
     entry_host e = PStr "10.0.0.2" /\
     trace w' = [EvOpenInventory; EvRun cmd]) /\
  @ping_routers lab (ping_request "R9") w
    = (opened w, inr (PingJson (error "Dispositivo no encontrado" 404))).
Proof.
  intros w. split; [reflexivity|]. split.
  - destruct (@ping_one_target lab (ping_request "R2") w "user" (PStr "R2")
                (inventory_of [device_record 1 "R1" "10.0.0.1";
                               device_record 2 "R2" "10.0.0.2"])
                [device_record 1 "R1" "10.0.0.1"; device_record 2 "R2" "10.0.0.2"]
                (Some (device_record 2 "R2" "10.0.0.2"))
                eq_refl eq_refl eq_refl eq_refl eq_refl eq_refl
                two_devices_pingable eq_refl)
      as (e & cmd & w' & Hres & (_ & Hhost & _) & Htrace).
    exists e, cmd, w'. split; [exact Hres|]. split; [|exact Htrace].
    simpl in Hhost. now injection Hhost.
  - apply (@ping_one_target lab (ping_request "R9") w "user" (PStr "R9")
             (inventory_of [device_record 1 "R1" "10.0.0.1";
                            device_record 2 "R2" "10.0.0.2"])
             [device_record 1 "R1" "10.0.0.1"; device_record 2 "R2" "10.0.0.2"]
             None eq_refl eq_refl eq_refl eq_refl eq_refl eq_refl
             two_devices_pingable eq_refl).
Defined.

End Listing.

(* ===================================================================== *)
(** * The admin routes behind the guard                                    *)
(* ===================================================================== *)

Module AdminRoutes.
Import Py Spec App Sessions Listing.

Section Facts.
Context `{Outside}.

Lemma admin_passes (w : world) (u : string) :
  session w !! "username" = Some u ->
  session w !! "role" = Some "admin" ->
  not_admin w = (w, inr false).
Proof.
  intros Hu Hrole. unfold not_admin, bind, get_world. now rewrite Hu, Hrole.
Qed.

Lemma get_of_dict (v : pyval) (k : string) (default x : pyval) :
  get v k default = inr x -> exists d, v = PDict d.
Proof. destruct v; simpl; try discriminate. eauto. Qed.

Lemma find_device_result (devs : list pyval) (n : pyval)
    (found : option pyval) (w : world) :
  first_named devs n = inr found ->
  find_device (PList devs) n w = (w, inr found).
Proof.
  intros Hfound. unfold find_device, bind, lift. simpl. now rewrite Hfound.
Qed.

(** The steps every admin route takes up to the search of the device. *)
Ltac to_the_device Hgate Hload Hfind :=
  rewrite (bind_returned_l false) by exact Hgate; cbv iota;
  repeat (erewrite bind_returned_l by reflexivity);
  rewrite (bind_returned _ _ _ _ _ Hload);
  rewrite (bind_returned _ _ _ _ _ Hfind).

Ltac unfold_routes :=
  unfold get_device_config, get_interfaces, get_cdp_neighbors,
         get_interface_traffic, monitoring, simulate_patch,
         apply_yaml_template, maintenance_backup, change_device_password,
         manage_users, configure_acls, security_audit.

(** X10. An admin who names a device that the inventory does not hold gets
    404 from every admin route; the route has read the inventory and has
    called no device. *)
Theorem unknown_device_is_404_on_every_route (r : admin_route) (req : request)
    (w : world) (u : string) (device_name doc : pyval) (devs : list pyval) :
  session w !! "username" = Some u ->
  session w !! "role" = Some "admin" ->
  get (get_json req) "device_name" PNone = inr device_name ->
  inventory w = Document doc ->
  getitem doc "devices" = inr (PList devs) ->
  first_named devs device_name = inr None ->
  handler r req w = (opened w, inr (error "Dispositivo no encontrado" 404)).
Proof.
  intros Hu Hrole Hname Hinv Hdoc Hnone.
  pose proof (admin_passes w u Hu Hrole) as Hgate.
  pose proof (load_devices_document w doc _ Hinv Hdoc) as Hload.
  destruct (get_of_dict _ _ _ _ Hname) as [d Hd].
  assert (Hfind : find_device (PList devs)
                    (match assoc "device_name" d with Some x => x | None => PNone end)
                    (opened w) = (opened w, inr None)).
  { apply find_device_result. rewrite Hd in Hname. simpl in Hname.
    injection Hname as ->. exact Hnone. }
  destruct r; simpl handler; unfold_routes; rewrite Hd;
    to_the_device Hgate Hload Hfind; reflexivity.
Qed.

Lemma getitem_error (v : pyval) (k : string) (e : exn) :
  getitem v k = inl e ->
  is_class NetmikoTimeoutException e = false /\
  is_class NetmikoAuthenticationException e = false.
Proof.
  destruct v as [| | | | |d]; simpl; try (intros [= <-]; split; reflexivity).
  destruct (assoc k d); [discriminate|]. intros [= <-]. split; reflexivity.
Qed.

(** X11. [connect_to_device] never raises. For a record that lacks one of
    the keys it reads it calls no device and returns the text of a connection
    error. For a record that has them it makes one call, with a timeout of
    10, and returns the connection, or one of three texts: for a timeout, for
    refused credentials, and for any other error. *)
Theorem connect_to_device_never_raises (device : pyval) (w : world) :
  exists (w' : world) (r : string + unit),
    connect_to_device device w = (w', inr r) /\
    inventory w' = inventory w /\ session w' = session w /\
    ((exists k e, In k connection_keys /\ getitem device k = inl e) ->
     w' = w /\ exists e, r = inl ("Error de conexión: " +:+ exn_str e)) /\
    ((forall k, In k connection_keys -> exists v, getitem device k = inr v) ->
     exists args n outcome,
       connect_handler args (outside w) = (n, outcome) /\
       assoc "timeout" args = Some (PInt 10) /\
       outside w' = n /\ trace w' = trace w ++ [EvConnect args] /\
       r = match outcome with
           | inr _ => inr tt
           | inl e => inl (connection_error e)
           end).
Proof.
  assert (Hmissing : forall k e (P : Prop),
             getitem device k = inl e -> In k connection_keys ->
             (forall k, In k connection_keys -> exists v, getitem device k = inr v) ->
             P).
  { intros k e P Hk Hin Hall. destruct (Hall k Hin) as [v Hv]. congruence. }
  unfold connect_to_device, try_except, bind, lift.
  destruct (getitem device "device_type") as [e|device_type] eqn:H1.
  { destruct (getitem_error _ _ _ H1) as [-> ->].
    exists w; eexists; repeat split; eauto.
    intros Hall. eapply Hmissing; [exact H1 | simpl; auto | exact Hall]. }
  destruct (getitem device "host") as [e|host] eqn:H2.
  { destruct (getitem_error _ _ _ H2) as [-> ->].
    exists w; eexists; repeat split; eauto.
    intros Hall. eapply Hmissing; [exact H2 | simpl; auto | exact Hall]. }
  destruct (getitem device "username") as [e|username] eqn:H3.
  { destruct (getitem_error _ _ _ H3) as [-> ->].
    exists w; eexists; repeat split; eauto.
    intros Hall. eapply Hmissing; [exact H3 | simpl; auto | exact Hall]. }
  destruct (getitem device "password") as [e|password] eqn:H4.
  { destruct (getitem_error _ _ _ H4) as [-> ->].
    exists w; eexists; repeat split; eauto.
    intros Hall. eapply Hmissing; [exact H4 | simpl; auto 6 | exact Hall]. }
  assert (Hhas : forall P : Prop,
             (exists k e, In k connection_keys /\ getitem device k = inl e) -> P).
  { intros P (k & e & Hin & Hk). simpl in Hin.
    destruct Hin as [<- | [<- | [<- | [<- | []]]]]; congruence. }
  destruct device as [| | | | |d]; try discriminate. simpl get. cbv iota beta.
  unfold call, ret.
  match goal with
  | |- context [connect_handler ?a (outside w)] => set (args := a)
  end.
  destruct (connect_handler args (outside w)) as [n [e|[]]] eqn:Hconn.
  - unfold connection_error.
    destruct (is_class NetmikoTimeoutException e) eqn:Ht;
      [|destruct (is_class NetmikoAuthenticationException e) eqn:Ha];
      eexists; eexists; (split; [reflexivity|]);
      (split; [reflexivity|]); (split; [reflexivity|]);
      (split; [apply Hhas|]); intros _; exists args, n, (inl e);
      rewrite ?Ht, ?Ha; (split; [exact Hconn|]); repeat split; reflexivity.
  - eexists; eexists; (split; [reflexivity|]);
      (split; [reflexivity|]); (split; [reflexivity|]);
      (split; [apply Hhas|]); intros _; exists args, n, (inr tt);
      (split; [exact Hconn|]); repeat split; reflexivity.
Qed.

Lemma first_named_named (l : list pyval) (n d : pyval) :
  first_named l n = inr (Some d) -> named n d.
Proof.
  induction l as [|x l IH]; simpl; [discriminate|].
  destruct (getitem x "name") as [e|v] eqn:Hv; [discriminate|].
  destruct (py_eq v n) eqn:Heq; [|exact IH].
  intros [= <-]. exists v. auto.
Qed.

(** The steps of an admin route up to the device it found. *)
Ltac to_the_found_device Hgate Hload Hfind Htruthy :=
  to_the_device Hgate Hload Hfind; cbv iota; rewrite Htruthy;
  change (negb true) with false; cbv iota.

(** X17. When [connect_to_device] reports an error for the device an admin
    named, every route that connects to it answers 500 with the text of
    that error, and does nothing after the attempt to connect. *)
Theorem connect_failure_is_500 (r : admin_route) (req : request) (w w1 : world)
    (u err : string) (device_name doc dev : pyval) (devs : list pyval) :
  connects_first r = true ->
  session w !! "username" = Some u ->
  session w !! "role" = Some "admin" ->
  get (get_json req) "device_name" PNone = inr device_name ->
  inventory w = Document doc ->
  getitem doc "devices" = inr (PList devs) ->
  first_named devs device_name = inr (Some dev) ->
  connect_to_device dev (opened w) = (w1, inr (inl err)) ->
  handler r req w = (w1, inr (error err 500)).
Proof.
  intros Hr Hu Hrole Hname Hinv Hdoc Hsome Hconn.
  pose proof (admin_passes w u Hu Hrole) as Hgate.
  pose proof (load_devices_document w doc _ Hinv Hdoc) as Hload.
  pose proof (named_truthy _ _ (first_named_named _ _ _ Hsome)) as Htruthy.
  destruct (get_of_dict _ _ _ _ Hname) as [d Hd].
  assert (Hfind : find_device (PList devs)
                    (match assoc "device_name" d with Some x => x | None => PNone end)
                    (opened w) = (opened w, inr (Some dev))).
  { apply find_device_result. rewrite Hd in Hname. simpl in Hname.
    injection Hname as ->. exact Hsome. }
  destruct r; try discriminate Hr; simpl handler; unfold_routes; rewrite Hd;
    to_the_found_device Hgate Hload Hfind Htruthy;
    unfold try_except; rewrite ?(bind_returned _ _ _ _ _ Hconn);
    reflexivity.
Qed.

(** X12. A monitoring route that got its connection closes it on both ways
    out: it sends its one command and disconnects, and answers 200 when the
    command returned and 500 when the command raised. *)
Theorem monitoring_always_disconnects (command key failure : string)
    (req : request) (w w1 : world) (u : string)
    (device_name doc dev : pyval) (devs : list pyval)
    (n2 n3 : net) (out : exn + string) :
  session w !! "username" = Some u ->
  session w !! "role" = Some "admin" ->
  get (get_json req) "device_name" PNone = inr device_name ->
  inventory w = Document doc ->
  getitem doc "devices" = inr (PList devs) ->
  first_named devs device_name = inr (Some dev) ->
  connect_to_device dev (opened w) = (w1, inr (inr tt)) ->
  conn_send_command command (outside w1) = (n2, out) ->
  conn_disconnect n2 = (n3, inr tt) ->
  exists (resp : response) (w3 : world),
    monitoring command key failure req w = (w3, inr resp) /\
    outside w3 = n3 /\
    trace w3 = trace w1 ++ [EvSendCommand command; EvDisconnect] /\
    status_code resp = match out with inr _ => 200%Z | inl _ => 500%Z end.
Proof.
  intros Hu Hrole Hname Hinv Hdoc Hsome Hconn Hsend Hclose.
  pose proof (admin_passes w u Hu Hrole) as Hgate.
  pose proof (load_devices_document w doc _ Hinv Hdoc) as Hload.
  pose proof (named_truthy _ _ (first_named_named _ _ _ Hsome)) as Htruthy.
  destruct (get_of_dict _ _ _ _ Hname) as [d Hd].
  assert (Hfind : find_device (PList devs)
                    (match assoc "device_name" d with Some x => x | None => PNone end)
                    (opened w) = (opened w, inr (Some dev))).
  { apply find_device_result. rewrite Hd in Hname. simpl in Hname.
    injection Hname as ->. exact Hsome. }
  unfold monitoring. rewrite Hd.
  to_the_found_device Hgate Hload Hfind Htruthy.
  rewrite (bind_returned _ _ _ _ _ Hconn).
  unfold try_except, bind, call, now, ret. rewrite Hsend.
  destruct out as [e|text]; simpl; rewrite Hclose;
    eexists; eexists; (split; [reflexivity|]); simpl;
    rewrite <- app_assoc; repeat split.
Qed.

(** X13. [manage_users] with an action that is neither [add] nor [remove]
    answers 400 after it has connected and entered the privileged mode, and
    it does not disconnect: the session to the device stays open. *)
Theorem manage_users_bad_action_keeps_the_session (req : request)
    (w w1 : world) (u : string) (device_name action doc dev : pyval)
    (devs : list pyval) (n2 : net) :
  session w !! "username" = Some u ->
  session w !! "role" = Some "admin" ->
  get (get_json req) "device_name" PNone = inr device_name ->
  get (get_json req) "action" PNone = inr action ->
  py_eq action (PStr "add") = false ->
  py_eq action (PStr "remove") = false ->
  inventory w = Document doc ->
  getitem doc "devices" = inr (PList devs) ->
  first_named devs device_name = inr (Some dev) ->
  connect_to_device dev (opened w) = (w1, inr (inr tt)) ->
  conn_enable (outside w1) = (n2, inr tt) ->
  exists w2 : world,
    manage_users req w = (w2, inr (error "Acción no válida" 400)) /\
    outside w2 = n2 /\
    trace w2 = trace w1 ++ [EvEnable].
Proof.
  intros Hu Hrole Hname Haction Hadd Hremove Hinv Hdoc Hsome Hconn Henable.
  pose proof (admin_passes w u Hu Hrole) as Hgate.
  pose proof (load_devices_document w doc _ Hinv Hdoc) as Hload.
  pose proof (named_truthy _ _ (first_named_named _ _ _ Hsome)) as Htruthy.
  destruct (get_of_dict _ _ _ _ Hname) as [d Hd].
  assert (Hfind : find_device (PList devs)
                    (match assoc "device_name" d with Some x => x | None => PNone end)
                    (opened w) = (opened w, inr (Some dev))).
  { apply find_device_result. rewrite Hd in Hname. simpl in Hname.
    injection Hname as ->. exact Hsome. }
  rewrite Hd in Haction. simpl in Haction. injection Haction as Haction.
  unfold manage_users. rewrite Hd.
  to_the_found_device Hgate Hload Hfind Htruthy.
  rewrite (bind_returned _ _ _ _ _ Hconn).
  unfold try_except, bind at 1, call at 1. rewrite Henable.
  rewrite Haction, Hadd, Hremove.
  eexists. split; [reflexivity|]. split; reflexivity.
Qed.

(** The loop of the audit stops at the first command that raises. *)
Lemma audit_loop_stops (cmds : list string) :
  forall (audit_results : list (string * pyval)) (w : world),
  exists (w' : world) (r : exn + list (string * pyval)) (sent : list string),
    audit_loop cmds audit_results w = (w', r) /\
    audit_run (outside w) cmds audit_results sent (outside w') r /\
    trace w' = trace w ++ map EvSendCommand sent /\
    match r with
    | inr _ => sent = cmds
    | inl _ => exists before failing after,
                 cmds = before ++ failing :: after /\ sent = before ++ [failing]
    end.
Proof.
  induction cmds as [|cmd cmds IH]; intros audit_results w.
  - exists w, (inr audit_results), []. simpl.
    rewrite app_nil_r. repeat split. constructor.
  - simpl. unfold bind, call.
    destruct (conn_send_command cmd (outside w)) as [n [e|text]] eqn:Hsend.
    + eexists; exists (inl e), [cmd].
      split; [reflexivity|]. split; [|split; [reflexivity|]].
      * simpl. eapply audit_run_raised. exact Hsend.
      * exists [], cmd, cmds. auto.
    + match goal with
      | |- context [audit_loop cmds ?acc ?w1] =>
          destruct (IH acc w1) as (w' & r & sent & Hloop & Hrun & Htrace & Hsent)
      end.
      exists w', r, (cmd :: sent).
      split; [exact Hloop|]. split; [|split].
      * eapply audit_run_returned; [exact Hsend | exact Hrun].
      * rewrite Htrace. simpl. now rewrite <- app_assoc.
      * destruct r as [e|results].
        -- destruct Hsent as (before & failing & after & -> & ->).
           exists (cmd :: before), failing, after. auto.
        -- now rewrite Hsent.
Qed.

(** X14. The security audit, once connected, stops at the first of its three
    commands that raises. The commands are sent in order, each to the device
    as the one before left it; the first one the device answers with an
    exception is the last that is sent, the session is closed and the answer
    is 500 with the text of that exception. When the device answers all
    three, the three were sent, the session is closed and the answer is 200
    with the output of each command under its name. *)
Theorem audit_stops_at_the_first_error (req : request) (w w1 : world)
    (u : string) (device_name doc dev : pyval) (devs : list pyval) (n2 : net) :
  session w !! "username" = Some u ->
  session w !! "role" = Some "admin" ->
  get (get_json req) "device_name" PNone = inr device_name ->
  inventory w = Document doc ->
  getitem doc "devices" = inr (PList devs) ->
  first_named devs device_name = inr (Some dev) ->
  connect_to_device dev (opened w) = (w1, inr (inr tt)) ->
  conn_enable (outside w1) = (n2, inr tt) ->
  (forall n, exists n', conn_disconnect n = (n', inr tt)) ->
  exists (resp : response) (w' : world) (sent : list string) (n3 : net)
         (r : exn + list (string * pyval)),
    security_audit req w = (w', inr resp) /\
    audit_run n2 audit_commands [] sent n3 r /\
    conn_disconnect n3 = (outside w', inr tt) /\
    trace w' = trace w1 ++ EvEnable :: map EvSendCommand sent ++ [EvDisconnect] /\
    match r with
    | inr results =>
        status_code resp = 200%Z /\
        getitem (body resp) "results" = inr (PDict results) /\
        sent = audit_commands
    | inl e =>
        resp = error ("Error al realizar auditoría: " +:+ exn_str e) 500 /\
        exists before failing after,
          audit_commands = before ++ failing :: after /\
          sent = before ++ [failing]
    end.
Proof.
  intros Hu Hrole Hname Hinv Hdoc Hsome Hconn Henable Hclose.
  pose proof (admin_passes w u Hu Hrole) as Hgate.
  pose proof (load_devices_document w doc _ Hinv Hdoc) as Hload.
  pose proof (named_truthy _ _ (first_named_named _ _ _ Hsome)) as Htruthy.
  destruct (get_of_dict _ _ _ _ Hname) as [d Hd].
  assert (Hfind : find_device (PList devs)
                    (match assoc "device_name" d with Some x => x | None => PNone end)
                    (opened w) = (opened w, inr (Some dev))).
  { apply find_device_result. rewrite Hd in Hname. simpl in Hname.
    injection Hname as ->. exact Hsome. }
  unfold security_audit. rewrite Hd.
  to_the_found_device Hgate Hload Hfind Htruthy.
  rewrite (bind_returned _ _ _ _ _ Hconn).
  unfold try_except, bind at 1, call at 1. rewrite Henable.
  match goal with
  | |- context [bind (audit_loop audit_commands [])_ ?w2] =>
      destruct (audit_loop_stops audit_commands [] w2)
        as (w3 & r & sent & Hloop & Hrun & Htrace & Hsent);
      unfold bind at 1; rewrite Hloop
  end.
  simpl in Hrun.
  destruct (Hclose (outside w3)) as [n4 Hn4].
  destruct r as [e|results].
  - unfold bind, call, ret. rewrite Hn4.
    eexists; eexists; exists sent, (outside w3), (inl e).
    split; [reflexivity|]. split; [exact Hrun|]. split; [exact Hn4|]. split.
    + simpl. rewrite Htrace. simpl. now rewrite <- !app_assoc.
    + split; [reflexivity | exact Hsent].
  - unfold bind, call, now, ret. rewrite Hn4.
    eexists; eexists; exists sent, (outside w3), (inr results).
    split; [reflexivity|]. split; [exact Hrun|]. split; [exact Hn4|]. split.
    + simpl. rewrite Htrace. simpl. now rewrite <- !app_assoc.
    + split; [reflexivity|]. split; [reflexivity | exact Hsent].
Qed.


(** The world after [load_devices] of [app.py]: the file was opened, and a
    complaint may have been printed. *)
Lemma load_devices_world (w : world) :
  exists (r : exn + pyval) (p : list string),
    App.load_devices w
    = (World (inventory w) (outside w) (session w) p
             (trace w ++ [EvOpenInventory]), r).
Proof.
  unfold App.load_devices, try_except, bind, read_yaml, lift, print, ret, raise.
  destruct (inventory w) as [|why|v]; simpl; eauto.
  destruct (getitem v "devices") as [e|x] eqn:E; [|eauto].
  destruct v as [| | | | |d]; simpl in E; try (injection E as <-; simpl; eauto).
  destruct (assoc "devices" d); [discriminate|]. injection E as <-. simpl. eauto.
Qed.

(** X16. The patch simulation is only a simulation: whatever the request and
    the inventory, it calls no device and writes nothing; the most it does is
    open the inventory file. *)
Theorem simulate_patch_never_calls_a_device (req : request) (w w' : world)
    (r : exn + response) :
  simulate_patch req w = (w', r) ->
  outside w' = outside w /\ inventory w' = inventory w /\
  (trace w' = trace w \/ trace w' = trace w ++ [EvOpenInventory]).
Proof.
  unfold simulate_patch. unfold bind at 1.
  assert (Hgate : exists g, not_admin w = (w, g)).
  { unfold not_admin, bind, get_world, ret, raise.
    destruct (session w !! "username"); [|eauto].
    destruct (session w !! "role"); eauto. }
  destruct Hgate as [g ->].
  destruct g as [e|[|]]; try (intros [= <- _]; auto).
  unfold bind at 1, lift at 1.
  destruct (get (get_json req) "device_name" PNone) as [e|device_name];
    [intros [= <- _]; auto|].
  unfold bind at 1.
  destruct (load_devices_world w) as (lr & p & ->).
  destruct lr as [e|devices]; [intros [= <- _]; simpl; auto|].
  unfold bind at 1. unfold find_device, bind at 1, lift.
  destruct (iterate devices) as [e|items]; [intros [= <- _]; simpl; auto|].
  destruct (first_named items device_name) as [e|device];
    [intros [= <- _]; simpl; auto|].
  destruct (missing device); [intros [= <- _]; simpl; auto|].
  unfold bind, now, ret. intros [= <- _]. simpl. auto.
Qed.

(** X28. Once the device is found, the backup route and the template route
    always answer: whatever the device and the file system do, and whatever
    the template holds, every error ends in a response of the route and
    nothing is raised to the caller. *)
Theorem backup_and_template_always_answer (req : request) (w : world)
    (u : string) (device_name doc dev : pyval) (devs : list pyval) :
  session w !! "username" = Some u ->
  session w !! "role" = Some "admin" ->
  get (get_json req) "device_name" PNone = inr device_name ->
  inventory w = Document doc ->
  getitem doc "devices" = inr (PList devs) ->
  first_named devs device_name = inr (Some dev) ->
  (exists w' resp, maintenance_backup req w = (w', inr resp)) /\
  (exists w' resp, apply_yaml_template req w = (w', inr resp)).
Proof.
  intros Hu Hrole Hname Hinv Hdoc Hsome.
  pose proof (admin_passes w u Hu Hrole) as Hgate.
  pose proof (load_devices_document w doc _ Hinv Hdoc) as Hload.
  pose proof (named_truthy _ _ (first_named_named _ _ _ Hsome)) as Htruthy.
  destruct (get_of_dict _ _ _ _ Hname) as [d Hd].
  assert (Hfind : find_device (PList devs)
                    (match assoc "device_name" d with Some x => x | None => PNone end)
                    (opened w) = (opened w, inr (Some dev))).
  { apply find_device_result. rewrite Hd in Hname. simpl in Hname.
    injection Hname as ->. exact Hsome. }
  split.
  - unfold maintenance_backup. rewrite Hd.
    to_the_found_device Hgate Hload Hfind Htruthy.
    unfold try_except.
    match goal with
    | |- context [bind ?m ?f (opened w)] =>
        destruct (bind m f (opened w)) as [w1 [e|resp]]
    end; unfold ret; eauto.
  - unfold apply_yaml_template. rewrite Hd.
    to_the_found_device Hgate Hload Hfind Htruthy.
    unfold try_except.
    match goal with
    | |- context [bind ?m ?f (opened w)] =>
        destruct (bind m f (opened w)) as [w1 [e|resp]]
    end; [destruct (is_class YAMLError e)|]; unfold ret; eauto.
Qed.
End Facts.

Lemma backup_and_template_always_answer_witness :
  let w := lab_world two_devices admin_session in
  session w !! "role" = Some "admin" /\
  (exists w' resp, @maintenance_backup lab template_request w = (w', inr resp)) /\
  (exists w' resp, @apply_yaml_template lab template_request w = (w', inr resp)).
Proof.
  intros w. split; [reflexivity|].
  apply (@backup_and_template_always_answer lab template_request w "admin"
           (PStr "R1")
           (inventory_of [device_record 1 "R1" "10.0.0.1";
                          device_record 2 "R2" "10.0.0.2"])
           (device_record 1 "R1" "10.0.0.1")
           [device_record 1 "R1" "10.0.0.1"; device_record 2 "R2" "10.0.0.2"]);
    reflexivity.
Defined.

Lemma unknown_device_is_404_on_every_route_witness :
  let w := lab_world two_devices admin_session in
  session w !! "role" = Some "admin" /\
  @handler lab MaintenanceBackup far_request w
    = (opened w, inr (error "Dispositivo no encontrado" 404)).
Proof.
  intros w. split; [reflexivity|].
  apply (@unknown_device_is_404_on_every_route lab MaintenanceBackup far_request w
           "admin" (PStr "R9")
           (inventory_of [device_record 1 "R1" "10.0.0.1";
                          device_record 2 "R2" "10.0.0.2"])
           [device_record 1 "R1" "10.0.0.1"; device_record 2 "R2" "10.0.0.2"]);
    reflexivity.
Defined.

Lemma connect_failure_is_500_witness :
  let w := lab_world far_device admin_session in
  session w !! "role" = Some "admin" /\
  snd (@handler lab SecurityConfigureAcls far_request w)
    = inr (error "Timeout - No se pudo conectar al dispositivo" 500).
Proof.
  intros w. split; [reflexivity|].
  pose proof (fun w1 err =>
                @connect_failure_is_500 lab SecurityConfigureAcls far_request w w1
                  "admin" err (PStr "R9")
                  (inventory_of [device_record 9 "R9" "10.0.0.9"])
                  (device_record 9 "R9" "10.0.0.9")
                  [device_record 9 "R9" "10.0.0.9"]
                  eq_refl eq_refl eq_refl eq_refl eq_refl eq_refl eq_refl)
    as Hroute.
  erewrite Hroute; reflexivity.
Defined.

Lemma monitoring_always_disconnects_witness :
  let w := lab_world two_devices admin_session in
  session w !! "role" = Some "admin" /\
  exists (resp : response) (w3 : @world lab),
    @monitoring lab "show bad" "config" "Error: " config_request w
      = (w3, inr resp) /\
    status_code resp = 500%Z /\
    List.last (trace w3) EvOpenInventory = EvDisconnect.
Proof.
  intros w. split; [reflexivity|].
  pose proof (fun w1 =>
                @monitoring_always_disconnects lab "show bad" "config" "Error: "
                  config_request w w1 "admin" (PStr "R1")
                  (inventory_of [device_record 1 "R1" "10.0.0.1";
                                 device_record 2 "R2" "10.0.0.2"])
                  (device_record 1 "R1" "10.0.0.1")
                  [device_record 1 "R1" "10.0.0.1"; device_record 2 "R2" "10.0.0.2"])
    as Hroute.
  edestruct Hroute as (resp & w3 & Hres & _ & Htrace & Hcode);
    [reflexivity | reflexivity | reflexivity | reflexivity | reflexivity
    | reflexivity | reflexivity | reflexivity | reflexivity |].
  exists resp, w3. split; [exact Hres|]. split; [exact Hcode|].
  rewrite Htrace. reflexivity.
Defined.

Lemma manage_users_bad_action_keeps_the_session_witness :
  let w := lab_world two_devices admin_session in
  session w !! "role" = Some "admin" /\
  exists w2 : @world lab,
    @manage_users lab (users_request "rename") w
      = (w2, inr (error "Acción no válida" 400)) /\
    List.last (trace w2) EvOpenInventory = EvEnable.
Proof.
  intros w. split; [reflexivity|].
  pose proof (fun w1 =>
                @manage_users_bad_action_keeps_the_session lab
                  (users_request "rename") w w1 "admin" (PStr "R1") (PStr "rename")
                  (inventory_of [device_record 1 "R1" "10.0.0.1";
                                 device_record 2 "R2" "10.0.0.2"])
                  (device_record 1 "R1" "10.0.0.1")
                  [device_record 1 "R1" "10.0.0.1"; device_record 2 "R2" "10.0.0.2"])
    as Hroute.
  edestruct Hroute as (w2 & Hres & _ & Htrace);
    [reflexivity | reflexivity | reflexivity | reflexivity | reflexivity
    | reflexivity | reflexivity | reflexivity | reflexivity | reflexivity
    | reflexivity |].
  exists w2. split; [exact Hres|]. rewrite Htrace. reflexivity.
Defined.

Lemma audit_stops_at_the_first_error_witness :
  let w := @World strict_lab two_devices tt admin_session [] [] in
  session w !! "role" = Some "admin" /\
  exists (resp : response) (w' : @world strict_lab) (sent : list string),
    @security_audit strict_lab config_request w = (w', inr resp) /\
    resp = error "Error al realizar auditoría: % Authorization failed" 500 /\
    sent = ["show running-config"; "show users"] /\
    exists before,
      trace w' = before ++ EvEnable :: map EvSendCommand sent ++ [EvDisconnect].
Proof.
  intros w. split; [reflexivity|].
  pose proof (fun w1 =>
                @audit_stops_at_the_first_error strict_lab config_request w w1
                  "admin" (PStr "R1")
                  (inventory_of [device_record 1 "R1" "10.0.0.1";
                                 device_record 2 "R2" "10.0.0.2"])
                  (device_record 1 "R1" "10.0.0.1")
                  [device_record 1 "R1" "10.0.0.1"; device_record 2 "R2" "10.0.0.2"])
    as Hroute.
  edestruct Hroute as (resp & w' & sent & n3 & r & Hres & Hrun & _ & Htrace & Hr);
    [reflexivity | reflexivity | reflexivity | reflexivity | reflexivity
    | reflexivity | reflexivity | reflexivity | intros n; exists n; reflexivity |].
  exists resp, w', sent.
  inversion Hrun as [| ? ? ? ? ? ? ? ? ? Hfirst Hrest | ? ? ? ? ? ? Hfirst];
    subst; [|discriminate Hfirst].
  inversion Hrest as [| ? ? ? ? ? ? ? ? ? Hsecond _ | ? ? ? ? ? ? Hsecond];
    subst; [discriminate Hsecond|].
  injection Hsecond as _ <-.
  destruct Hr as [-> _].
  split; [exact Hres|]. split; [reflexivity|]. split; [reflexivity|].
  eexists. exact Htrace.
Defined.


Lemma simulate_patch_never_calls_a_device_witness :
  let w := lab_world two_devices admin_session in
  exists (w' : @world lab) (r : exn + response),
    @simulate_patch lab config_request w = (w', r) /\
    outside w' = outside w /\ inventory w' = inventory w.
Proof.
  intros w.
  destruct (@simulate_patch lab config_request w) as [w' r] eqn:Hrun.
  exists w', r. split; [reflexivity|].
  destruct (@simulate_patch_never_calls_a_device lab config_request w w' r Hrun)
    as (Hout & Hinv & _).
  split; assumption.
Defined.

End AdminRoutes.

(* ===================================================================== *)
(** * The queries and mutations, one after the other                       *)
(* ===================================================================== *)

Module Crud.
Import Py Spec GraphqlSchema Inventory.

Section Facts.
Context `{Outside}.

(** A record without the key [ip] is not pushed to: [configure_device]
    returns the text of its handler and has called nothing. *)
Lemma configure_device_without_ip (device device_type name : pyval)
    (e : exn) (commands : list string) (w : world) :
  getitem device "device_type" = inr device_type ->
  getitem device "ip" = inl e ->
  getitem device "name" = inr name ->
  NetmikoConfig.configure_device device commands w
  = (w, inr ("Error configurando " +:+ str name +:+ ": " +:+ exn_str e)).
Proof.
  intros Htype Hip Hname.
  unfold NetmikoConfig.configure_device, try_except, bind, lift.
  now rewrite Htype, Hip, Hname.
Qed.

Lemma next_id_steps (devs ids : list pyval) (ns : list Z) (w : world) :
  ids_of devs = inr ids -> numbers ids = Some ns ->
  (if truthy (PList devs)
   then bind (lift (iterate (PList devs)))
          (fun items => bind (lift (ids_of items))
             (fun ids => lift (max_plus_1 ids)))
   else ret 1%Z) w = (w, inr (next_id ns)).
Proof.
  intros Hids Hns. destruct devs as [|d devs]; simpl.
  - simpl in Hids. injection Hids as <-. simpl in Hns.
    injection Hns as <-. reflexivity.
  - unfold bind, lift. simpl iterate. cbv iota beta. rewrite Hids.
    unfold max_plus_1. rewrite Hns.
    destruct ns as [|n ns]; [|reflexivity].
    simpl in Hids. destruct (getitem d "id") as [e|v]; [discriminate|].
    destruct (ids_of devs) as [e|ids']; [discriminate|].
    injection Hids as <-. simpl in Hns.
    destruct (number v), (numbers ids'); discriminate.
Qed.

(** X18. [CreateDevice.mutate] never reaches a device: the record it builds
    has a [host] and no [ip], which is the key [configure_device] reads, so
    the push ends in the handler before any connection. All the mutation does
    is read the inventory and write it. *)
Theorem create_never_calls_a_device (w : world) (device_data : DeviceInput)
    (devs ids : list pyval) (ns : list Z) :
  snd (NetmikoConfig.load_devices w) = inr (PList devs) ->
  ids_of devs = inr ids -> numbers ids = Some ns ->
  exists w' : world,
    let document :=
      inventory_of (devs ++ [created_record (next_id ns) device_data]) in
    CreateDevice_mutate device_data w
      = (w', inr (created_record (next_id ns) device_data)) /\
    outside w' = outside w /\
    trace w' = trace w ++ [EvOpenInventory; EvSaveInventory document] /\
    NetmikoConfig.configure_device (created_record (next_id ns) device_data)
      ["hostname " +:+ in_name device_data] w'
      = (w', inr ("Error configurando " +:+ in_name device_data +:+ ": 'ip'")).
Proof.
  intros Hload Hids Hns. apply load_devices_pair in Hload.
  eexists. cbv zeta. split; [|split; [|split]].
  - unfold CreateDevice_mutate. unfold bind at 1. rewrite Hload.
    unfold bind at 1. rewrite (next_id_steps devs ids ns _ Hids Hns).
    unfold bind at 1. unfold lift at 1. simpl append.
    unfold bind at 1. rewrite save_devices_saved.
    unfold bind at 1.
    rewrite (configure_device_without_ip _ (PStr (in_device_type device_data))
               (PStr (in_name device_data)) (Exn KeyError (quoted "ip")))
      by reflexivity.
    reflexivity.
  - reflexivity.
  - simpl. now rewrite <- app_assoc.
  - rewrite (configure_device_without_ip _ (PStr (in_device_type device_data))
               (PStr (in_name device_data)) (Exn KeyError (quoted "ip")))
      by reflexivity.
    reflexivity.
Qed.

Lemma find_by_id_found_app (l tail : list pyval) (i : Z) (d : Device) :
  find_by_id l i = inr (Some d) -> find_by_id (l ++ tail) i = inr (Some d).
Proof.
  induction l as [|x l IH]; simpl; [discriminate|].
  destruct x as [| | | | |entries]; try exact IH.
  destruct (eq_int (field entries "id") i); [|exact IH].
  destruct (Device_of entries); [discriminate|]. auto.
Qed.

Lemma resolve_after (w : world) (l : list pyval) (i : Z) :
  inventory w = Document (inventory_of l) ->
  resolve_device_by_id i w = (opened w, find_by_id l i).
Proof.
  intros Hinv. unfold resolve_device_by_id. unfold bind at 1.
  rewrite load_devices_value, Hinv. reflexivity.
Qed.

(** X19. Creating a device does not disturb the others: a device that
    [resolve_device_by_id] found in the inventory before the mutation is what
    it finds, under the same identifier, after it. *)
Theorem create_keeps_the_other_devices (w : world) (device_data : DeviceInput)
    (devs ids : list pyval) (ns : list Z) (i : Z) (d : Device) :
  snd (NetmikoConfig.load_devices w) = inr (PList devs) ->
  ids_of devs = inr ids -> numbers ids = Some ns ->
  find_by_id devs i = inr (Some d) ->
  exists (w' : world) (new_device : pyval),
    CreateDevice_mutate device_data w = (w', inr new_device) /\
    resolve_device_by_id i w' = (opened w', inr (Some d)).
Proof.
  intros Hload Hids Hns Hfound.
  destruct (create_result w device_data devs ids ns Hload Hids Hns)
    as (w' & Hcreate & Hinv & _).
  exists w'. eexists. split; [exact Hcreate|].
  rewrite (resolve_after w' _ i Hinv).
  now rewrite (find_by_id_found_app _ _ _ _ Hfound).
Qed.

Lemma numbers_app (l1 l2 : list pyval) (n1 n2 : list Z) :
  numbers l1 = Some n1 -> numbers l2 = Some n2 ->
  numbers (l1 ++ l2) = Some (n1 ++ n2).
Proof.
  revert n1. induction l1 as [|v l1 IH]; intros n1; simpl.
  - now intros [= <-].
  - destruct (number v) as [n|]; [|discriminate].
    destruct (numbers l1) as [ns|]; [|discriminate].
    intros [= <-] H2. now rewrite (IH ns eq_refl H2).
Qed.

Lemma next_id_is_new (ns : list Z) : Forall (fun n => (n < next_id ns)%Z) ns.
Proof.
  destruct ns as [|n ns]; [constructor|]. simpl next_id.
  destruct (fold_max_spec ns n) as [_ Hall].
  eapply Forall_impl; [exact Hall|]. simpl. intros; lia.
Qed.

(** X20. [CreateDevice.mutate] keeps the identifiers of the inventory numbers
    that are all different: if they were so before, they are so after, with
    the new identifier added at the end, so that the mutation can be run
    again on what it wrote. *)
Theorem create_keeps_identifiers_distinct (w : world) (device_data : DeviceInput)
    (devs ids : list pyval) (ns : list Z) :
  snd (NetmikoConfig.load_devices w) = inr (PList devs) ->
  ids_of devs = inr ids -> numbers ids = Some ns ->
  NoDup ns ->
  exists (w' : world) (new_device : pyval) (devs' ids' : list pyval),
    CreateDevice_mutate device_data w = (w', inr new_device) /\
    snd (NetmikoConfig.load_devices w') = inr (PList devs') /\
    ids_of devs' = inr ids' /\
    numbers ids' = Some (ns ++ [next_id ns]) /\
    NoDup (ns ++ [next_id ns]).
Proof.
  intros Hload Hids Hns Hnodup.
  destruct (create_result w device_data devs ids ns Hload Hids Hns)
    as (w' & Hcreate & Hinv & _).
  exists w'. eexists. exists (devs ++ [created_record (next_id ns) device_data]),
    (ids ++ [PInt (next_id ns)]).
  split; [exact Hcreate|]. split; [|split; [|split]].
  - rewrite load_devices_value, Hinv. reflexivity.
  - apply ids_of_app; [exact Hids | reflexivity].
  - apply numbers_app; [exact Hns | reflexivity].
  - apply NoDup_app. split; [exact Hnodup|]. split.
    + intros n Hin Hnew. apply list_elem_of_In in Hin.
      apply list_elem_of_In in Hnew. simpl in Hnew.
      destruct Hnew as [<- | []].
      pose proof (next_id_is_new ns) as Hlt.
      rewrite List.Forall_forall in Hlt. specialize (Hlt _ Hin). lia.
    + apply NoDup_singleton.
Qed.

Lemma without_id_filter (items ids : list pyval) (i : Z) :
  ids_of items = inr ids ->
  without_id items i = inr (List.filter (has_other_id i) items).
Proof.
  revert ids. induction items as [|d items IH]; intros ids; simpl.
  - reflexivity.
  - unfold has_other_id at 1.
    destruct (getitem d "id") as [e|v]; [discriminate|].
    destruct (ids_of items) as [e|ids'] eqn:Hids; [discriminate|].
    intros _. rewrite (IH ids' eq_refl).
    now destruct (eq_int v i).
Qed.

Lemma ids_of_filter (items ids : list pyval) (i : Z) :
  ids_of items = inr ids ->
  exists ids', ids_of (List.filter (has_other_id i) items) = inr ids' /\
               Forall (fun v => eq_int v i = false) ids'.
Proof.
  revert ids. induction items as [|d items IH]; intros ids; simpl.
  - intros _. exists []. split; [reflexivity | constructor].
  - unfold has_other_id at 1.
    destruct (getitem d "id") as [e|v] eqn:Hv; [discriminate|].
    destruct (ids_of items) as [e|ids0] eqn:Hids; [discriminate|].
    intros _. destruct (IH ids0 eq_refl) as (ids' & Hids' & Hall).
    destruct (eq_int v i) eqn:Heq; simpl.
    + eauto.
    + rewrite Hv, Hids'. exists (v :: ids'). split; [reflexivity|].
      constructor; assumption.
Qed.

Lemma find_by_id_none (l ids : list pyval) (i : Z) :
  ids_of l = inr ids -> Forall (fun v => eq_int v i = false) ids ->
  find_by_id l i = inr None.
Proof.
  revert ids. induction l as [|d l IH]; intros ids; simpl; [reflexivity|].
  destruct (getitem d "id") as [e|v] eqn:Hv; [discriminate|].
  destruct (ids_of l) as [e|ids'] eqn:Hids; [discriminate|].
  intros [= <-] Hall. inversion Hall as [|? ? Hne Hrest]; subst.
  apply getitem_id in Hv. destruct Hv as (entries & -> & Hid).
  unfold field. rewrite Hid, Hne. eapply IH; eauto.
Qed.

Lemma delete_result (w : world) (i : Z) (items ids : list pyval) :
  snd (NetmikoConfig.load_devices w) = inr (PList items) ->
  ids_of items = inr ids ->
  DeleteDevice_mutate i w
  = (saved (inventory_of (List.filter (has_other_id i) items)) (opened w),
     inr true).
Proof.
  intros Hload Hids. apply load_devices_pair in Hload.
  unfold DeleteDevice_mutate. unfold bind at 1. rewrite Hload.
  unfold bind at 1. unfold lift at 1. simpl iterate. cbv iota beta.
  unfold bind at 1. unfold lift at 1.
  rewrite (without_id_filter _ _ _ Hids). reflexivity.
Qed.

(** X21. After [DeleteDevice.mutate] with an identifier,
    [resolve_device_by_id] with that identifier finds nothing. *)
Theorem deleted_device_is_not_found (w : world) (i : Z)
    (items ids : list pyval) :
  snd (NetmikoConfig.load_devices w) = inr (PList items) ->
  ids_of items = inr ids ->
  exists w' : world,
    DeleteDevice_mutate i w = (w', inr true) /\
    resolve_device_by_id i w' = (opened w', inr None).
Proof.
  intros Hload Hids. eexists.
  split; [apply (delete_result w i items ids Hload Hids)|].
  rewrite (resolve_after _ (List.filter (has_other_id i) items) i) by reflexivity.
  destruct (ids_of_filter items ids i Hids) as (ids' & Hids' & Hall).
  now rewrite (find_by_id_none _ _ _ Hids' Hall).
Qed.

Lemma filter_twice {A} (f : A -> bool) (l : list A) :
  List.filter f (List.filter f l) = List.filter f l.
Proof.
  induction l as [|x l IH]; simpl; [reflexivity|].
  destruct (f x) eqn:E; simpl; [|exact IH]. now rewrite E, IH.
Qed.

(** X22. [DeleteDevice.mutate] removes every record with the identifier, not
    only the first, and no other: what it writes are the records with another
    identifier, in the order they had. Deleting the same identifier again
    writes the same inventory. *)
Theorem delete_removes_exactly_that_id (w : world) (i : Z)
    (items ids : list pyval) :
  snd (NetmikoConfig.load_devices w) = inr (PList items) ->
  ids_of items = inr ids ->
  exists w' w'' : world,
    DeleteDevice_mutate i w = (w', inr true) /\
    inventory w' = Document (inventory_of (List.filter (has_other_id i) items)) /\
    DeleteDevice_mutate i w' = (w'', inr true) /\
    inventory w'' = inventory w'.
Proof.
  intros Hload Hids.
  destruct (ids_of_filter items ids i Hids) as (ids' & Hids' & _).
  eexists; eexists.
  split; [apply (delete_result w i items ids Hload Hids)|].
  split; [reflexivity|].
  split.
  - apply (delete_result _ i (List.filter (has_other_id i) items) ids');
      [|exact Hids'].
    rewrite load_devices_value. reflexivity.
  - simpl. now rewrite filter_twice.
Qed.

Lemma devices_of_app (l1 l2 : list pyval) (d1 d2 : list Device) :
  devices_of l1 = inr d1 -> devices_of l2 = inr d2 ->
  devices_of (l1 ++ l2) = inr (d1 ++ d2).
Proof.
  revert d1. induction l1 as [|x l1 IH]; intros d1; simpl.
  - now intros [= <-].
  - destruct x as [| | | | |entries]; try (apply IH).
    destruct (Device_of entries) as [e|dev]; [discriminate|].
    destruct (devices_of l1) as [e|devs]; [discriminate|].
    intros [= <-] H2. now rewrite (IH devs eq_refl H2).
Qed.

(** X24. After [CreateDevice.mutate] the query [devices] returns what it
    returned before, followed by the device that was created. *)
Theorem created_device_is_listed_last (w : world) (device_data : DeviceInput)
    (devs ids : list pyval) (ns : list Z) (listing : list Device) :
  snd (NetmikoConfig.load_devices w) = inr (PList devs) ->
  ids_of devs = inr ids -> numbers ids = Some ns ->
  snd (resolve_devices w) = inr listing ->
  exists (w' : world) (new_device : pyval),
    CreateDevice_mutate device_data w = (w', inr new_device) /\
    resolve_devices w'
      = (opened w', inr (listing ++ [created_device (next_id ns) device_data])).
Proof.
  intros Hload Hids Hns Hlisting.
  destruct (create_result w device_data devs ids ns Hload Hids Hns)
    as (w' & Hcreate & Hinv & _).
  exists w'. eexists. split; [exact Hcreate|].
  assert (Hold : devices_of devs = inr listing).
  { revert Hlisting. unfold resolve_devices. unfold bind at 1.
    rewrite (load_devices_pair _ _ Hload). unfold bind, lift. simpl iterate.
    cbv iota beta. now destruct (devices_of devs). }
  unfold resolve_devices. unfold bind at 1.
  rewrite load_devices_value, Hinv. unfold inventory_of. simpl truthy.
  cbv iota. simpl get. unfold bind, lift. simpl iterate. cbv iota beta.
  rewrite (devices_of_app devs _ listing
             [created_device (next_id ns) device_data] Hold);
    reflexivity.
Qed.

(** X25. On a inventory file that is a dictionary with the key [devices],
    the [load_devices] of [app.py] and the one of [netmiko_config.py] return
    the same value, and both only open the file. *)
Theorem both_loaders_agree (w : world) (d : list (string * pyval)) (v : pyval) :
  inventory w = Document (PDict d) ->
  assoc "devices" d = Some v ->
  App.load_devices w = (opened w, inr v) /\
  NetmikoConfig.load_devices w = (opened w, inr v).
Proof.
  intros Hinv Hv. split.
  - apply (Listing.load_devices_document w (PDict d)); [exact Hinv|].
    simpl. now rewrite Hv.
  - rewrite load_devices_value, Hinv.
    assert (Htruthy : truthy (PDict d) = true)
      by (destruct d; [discriminate | reflexivity]).
    rewrite Htruthy. unfold get. now rewrite Hv.
Qed.

Lemma find_by_id_skip_others (l tail ids : list pyval) (i : Z) :
  ids_of l = inr ids -> Forall (fun v => eq_int v i = false) ids ->
  find_by_id (l ++ tail) i = find_by_id tail i.
Proof.
  revert ids. induction l as [|d l IH]; intros ids; simpl; [reflexivity|].
  destruct (getitem d "id") as [e|v] eqn:Hv; [discriminate|].
  destruct (ids_of l) as [e|ids'] eqn:Hids; [discriminate|].
  intros [= <-] Hall. inversion Hall as [|? ? Hne Hrest]; subst.
  apply getitem_id in Hv. destruct Hv as (entries & -> & Hid).
  unfold field. rewrite Hid, Hne. eapply IH; eauto.
Qed.

Lemma assoc_set_fields (k : string) (v : pyval) (d : list (string * pyval)) :
  is_field (k, v) = true ->
  Forall (fun kv => is_field kv = true) d ->
  Forall (fun kv => is_field kv = true) (assoc_set k v d).
Proof.
  intros Hk. induction 1 as [|[k' v'] d Hkv Hd IH]; simpl.
  - repeat constructor. exact Hk.
  - destruct (String.eqb k k'); constructor; assumption.
Qed.

Lemma Device_of_fields (d : list (string * pyval)) :
  Forall (fun kv => is_field kv = true) d ->
  Device_of d
  = inr {| id := field d "id"; name := field d "name";
           host := field d "host"; username := field d "username";
           password := field d "password"; secret := field d "secret";
           device_type := field d "device_type" |}.
Proof.
  intros Hall. unfold Device_of.
  replace (List.find _ d) with (@None (string * pyval)); [reflexivity|].
  symmetry. induction Hall as [|kv d Hkv _ IH]; [reflexivity|].
  cbn [List.find]. unfold is_field in Hkv. rewrite Hkv. exact IH.
Qed.

(** [UpdateDevice.mutate] at the first record with the identifier. *)
Lemma update_result (w : world) (i : Z) (device_data : DeviceInput)
    (before after ids : list pyval) (dev found : pyval) :
  snd (NetmikoConfig.load_devices w) = inr (PList (before ++ dev :: after)) ->
  ids_of before = inr ids ->
  Forall (fun v => eq_int v i = false) ids ->
  getitem dev "id" = inr found -> eq_int found i = true ->
  exists (w' : world) (dev' : pyval),
    assign dev device_data = inr dev' /\
    UpdateDevice_mutate i device_data w = (w', inr (Some dev')) /\
    inventory w' = Document (inventory_of (before ++ dev' :: after)).
Proof.
  intros Hload Hids Hall Hfound Hmatch. apply load_devices_pair in Hload.
  assert (exists dev', assign dev device_data = inr dev') as [dev' Hassign].
  { destruct (getitem_id _ _ Hfound) as (entries & -> & _). simpl. eauto. }
  destruct (configure_device_returns dev'
              ["hostname " +:+ in_name device_data]
              (saved (inventory_of (before ++ dev' :: after)) (opened w)))
    as (w' & text & Hconf & Hpushed).
  { eapply assign_name; eassumption. }
  exists w', dev'. split; [exact Hassign|]. split.
  - unfold UpdateDevice_mutate. unfold bind at 1. rewrite Hload.
    unfold bind at 1. unfold lift at 1. simpl iterate. cbv iota beta.
    rewrite (update_loop_skip _ _ _ _ _ [] ids Hids Hall).
    simpl update_loop. unfold bind at 1. unfold lift at 1.
    rewrite Hfound. cbv iota beta. rewrite Hmatch.
    unfold bind at 1. unfold lift at 1. rewrite Hassign. cbv iota beta.
    unfold bind at 1. rewrite save_devices_saved.
    unfold bind at 1. unfold inventory_of in Hconf. simpl app in *.
    rewrite Hconf. reflexivity.
  - destruct Hpushed as (Hinv & _). now rewrite Hinv.
Qed.

(** X23. After [UpdateDevice.mutate] changed a record whose keys are fields
    of [Device], [resolve_device_by_id] with the same identifier returns the
    device with the six fields of the input and the identifier the record
    had. *)
Theorem updated_device_is_found (w : world) (i : Z) (device_data : DeviceInput)
    (before after ids : list pyval) (entries : list (string * pyval))
    (found : pyval) :
  snd (NetmikoConfig.load_devices w)
    = inr (PList (before ++ PDict entries :: after)) ->
  ids_of before = inr ids ->
  Forall (fun v => eq_int v i = false) ids ->
  assoc "id" entries = Some found -> eq_int found i = true ->
  Forall (fun kv => is_field kv = true) entries ->
  exists (w' : world) (dev' : pyval),
    UpdateDevice_mutate i device_data w = (w', inr (Some dev')) /\
    resolve_device_by_id i w'
      = (opened w', inr (Some (updated_device found device_data))).
Proof.
  intros Hload Hids Hall Hfound Hmatch Hfields.
  destruct (update_result w i device_data before after ids (PDict entries) found
              Hload Hids Hall) as (w' & dev' & Hassign & Hupdate & Hinv);
    [simpl; now rewrite Hfound | exact Hmatch |].
  exists w', dev'. split; [exact Hupdate|].
  rewrite (resolve_after w' _ i Hinv).
  rewrite (find_by_id_skip_others _ _ _ _ Hids Hall).
  simpl in Hassign. injection Hassign as <-.
  set (entries' := assoc_set "device_type" _ _).
  assert (Hfields' : Forall (fun kv => is_field kv = true) entries').
  { subst entries'. repeat (apply assoc_set_fields; [reflexivity|]).
    exact Hfields. }
  assert (Hid : field entries' "id" = found).
  { subst entries'. unfold field.
    rewrite !assoc_set_other by reflexivity. now rewrite Hfound. }
  simpl find_by_id. rewrite Hid, Hmatch.
  rewrite (Device_of_fields _ Hfields'). rewrite Hid.
  unfold updated_device. subst entries'. unfold field.
  repeat first [ rewrite assoc_set_same
               | rewrite assoc_set_other by reflexivity ].
  reflexivity.
Qed.
End Facts.

Lemma create_never_calls_a_device_witness :
  let w := lab_world two_devices ∅ in
  snd (@NetmikoConfig.load_devices lab w)
    = inr (PList [device_record 1 "R1" "10.0.0.1"; device_record 2 "R2" "10.0.0.2"]) /\
  exists w' : @world lab,
    @CreateDevice_mutate lab r3_input w = (w', inr (created_record 3 r3_input)) /\
    List.length (trace w') = 2%nat.
Proof.
  intros w. split; [reflexivity|].
  destruct (@create_never_calls_a_device lab w r3_input
              [device_record 1 "R1" "10.0.0.1"; device_record 2 "R2" "10.0.0.2"]
              [PInt 1; PInt 2] [1; 2]%Z eq_refl eq_refl eq_refl)
    as (w' & Hres & _ & Htrace & _).
  exists w'. split; [exact Hres|]. now rewrite Htrace.
Defined.

Lemma create_keeps_the_other_devices_witness :
  let w := lab_world two_devices ∅ in
  find_by_id [device_record 1 "R1" "10.0.0.1"; device_record 2 "R2" "10.0.0.2"] 2
    = inr (Some (updated_device (PInt 2)
                   {| in_name := "R2"; in_host := "10.0.0.2";
                      in_username := "cisco"; in_password := "cisco";
                      in_secret := "cisco"; in_device_type := "cisco_ios" |})) /\
  exists (w' : @world lab) (new_device : pyval),
    @CreateDevice_mutate lab r3_input w = (w', inr new_device) /\
    exists d, @resolve_device_by_id lab 2 w' = (opened w', inr (Some d)) /\
              name d = PStr "R2".
Proof.
  intros w. split; [reflexivity|].
  destruct (@create_keeps_the_other_devices lab w r3_input
              [device_record 1 "R1" "10.0.0.1"; device_record 2 "R2" "10.0.0.2"]
              [PInt 1; PInt 2] [1; 2]%Z 2%Z _ eq_refl eq_refl eq_refl eq_refl)
    as (w' & new_device & Hres & Hfound).
  exists w', new_device. split; [exact Hres|].
  eexists. split; [exact Hfound | reflexivity].
Defined.

Lemma create_keeps_identifiers_distinct_witness :
  let w := lab_world two_devices ∅ in
  NoDup [1; 2]%Z /\
  exists (w' : @world lab) (new_device : pyval) (devs' ids' : list pyval),
    @CreateDevice_mutate lab r3_input w = (w', inr new_device) /\
    ids_of devs' = inr ids' /\ numbers ids' = Some [1; 2; 3]%Z.
Proof.
  intros w.
  assert (Hnodup : NoDup [1; 2]%Z).
  { repeat constructor; rewrite ?list_elem_of_In; simpl; intuition discriminate. }
  split; [exact Hnodup|].
  destruct (@create_keeps_identifiers_distinct lab w r3_input
              [device_record 1 "R1" "10.0.0.1"; device_record 2 "R2" "10.0.0.2"]
              [PInt 1; PInt 2] [1; 2]%Z eq_refl eq_refl eq_refl Hnodup)
    as (w' & new_device & devs' & ids' & Hres & _ & Hids & Hns & _).
  exists w', new_device, devs', ids'. repeat split; assumption.
Defined.

Lemma deleted_device_is_not_found_witness :
  let w := lab_world two_devices ∅ in
  snd (@NetmikoConfig.load_devices lab w)
    = inr (PList [device_record 1 "R1" "10.0.0.1"; device_record 2 "R2" "10.0.0.2"]) /\
  exists w' : @world lab,
    @DeleteDevice_mutate lab 1 w = (w', inr true) /\
    @resolve_device_by_id lab 1 w' = (opened w', inr None).
Proof.
  intros w. split; [reflexivity|].
  apply (@deleted_device_is_not_found lab w 1%Z
           [device_record 1 "R1" "10.0.0.1"; device_record 2 "R2" "10.0.0.2"]
           [PInt 1; PInt 2] eq_refl eq_refl).
Defined.

Lemma delete_removes_exactly_that_id_witness :
  let w := lab_world two_devices ∅ in
  ids_of [device_record 1 "R1" "10.0.0.1"; device_record 2 "R2" "10.0.0.2"]
    = inr [PInt 1; PInt 2] /\
  exists w' : @world lab,
    @DeleteDevice_mutate lab 1 w = (w', inr true) /\
    inventory w' = Document (inventory_of [device_record 2 "R2" "10.0.0.2"]).
Proof.
  intros w. split; [reflexivity|].
  destruct (@delete_removes_exactly_that_id lab w 1%Z
              [device_record 1 "R1" "10.0.0.1"; device_record 2 "R2" "10.0.0.2"]
              [PInt 1; PInt 2] eq_refl eq_refl)
    as (w' & w'' & Hres & Hinv & _).
  exists w'. split; [exact Hres | exact Hinv].
Defined.

Lemma updated_device_is_found_witness :
  let w := lab_world two_devices ∅ in
  snd (@NetmikoConfig.load_devices lab w)
    = inr (PList [device_record 1 "R1" "10.0.0.1"; device_record 2 "R2" "10.0.0.2"]) /\
  exists (w' : @world lab) (dev' : pyval),
    @UpdateDevice_mutate lab 2 r3_input w = (w', inr (Some dev')) /\
    @resolve_device_by_id lab 2 w'
      = (opened w', inr (Some (updated_device (PInt 2) r3_input))).
Proof.
  intros w. split; [reflexivity|].
  apply (@updated_device_is_found lab w 2%Z r3_input
           [device_record 1 "R1" "10.0.0.1"] [] [PInt 1]
           [("id", PInt 2); ("name", PStr "R2"); ("host", PStr "10.0.0.2");
            ("username", PStr "cisco"); ("password", PStr "cisco");
            ("secret", PStr "cisco"); ("device_type", PStr "cisco_ios")]
           (PInt 2));
    try reflexivity; repeat constructor.
Defined.

Lemma created_device_is_listed_last_witness :
  let w := lab_world two_devices ∅ in
  exists (listing : list Device) (w' : @world lab) (new_device : pyval),
    snd (@resolve_devices lab w) = inr listing /\
    @CreateDevice_mutate lab r3_input w = (w', inr new_device) /\
    @resolve_devices lab w'
      = (opened w', inr (listing ++ [created_device 3 r3_input])).
Proof.
  intros w. eexists.
  destruct (@created_device_is_listed_last lab w r3_input
              [device_record 1 "R1" "10.0.0.1"; device_record 2 "R2" "10.0.0.2"]
              [PInt 1; PInt 2] [1; 2]%Z _ eq_refl eq_refl eq_refl eq_refl)
    as (w' & new_device & Hres & Hlist).
  exists w', new_device. split; [reflexivity|]. split; [exact Hres | exact Hlist].
Defined.

Lemma both_loaders_agree_witness :
  let w := lab_world two_devices ∅ in
  @App.load_devices lab w = @NetmikoConfig.load_devices lab w.
Proof.
  intros w.
  destruct (@both_loaders_agree lab w
              [("devices", PList [device_record 1 "R1" "10.0.0.1";
                                  device_record 2 "R2" "10.0.0.2"])]
              (PList [device_record 1 "R1" "10.0.0.1";
                      device_record 2 "R2" "10.0.0.2"]) eq_refl eq_refl)
    as [-> ->].
  reflexivity.
Defined.

End Crud.

(* ===================================================================== *)
(** * Lines of ping that are read                                          *)
(* ===================================================================== *)

Module Parser.
Import Py Spec App ResponseTime.
Local Arguments String.append !_ _ / : simpl nomatch.

Lemma star_greedy {R : Type} (ic : bool) (a : Re.atom) (t rest : string)
    (k : string -> option R) (x : R) :
  all_chars (Re.atom_ok ic a) t = true ->
  head_fails (Re.atom_ok ic a) rest ->
  k rest = Some x ->
  Re.star ic a (t +:+ rest) k = Some x.
Proof.
  intros Ht Hrest Hk. induction t as [|c t IH]; simpl.
  - destruct rest as [|c rest']; simpl; [exact Hk|].
    now rewrite (Hrest c rest' eq_refl).
  - simpl in Ht. apply andb_prop in Ht as [Hc Ht]. rewrite Hc.
    now rewrite (IH Ht).
Qed.

Lemma digit_is_plain (c : ascii) :
  Text.is_digit c = true ->
  Text.is_space c = false /\ Re.atom_ok true (Re.Lit "."%char) c = false.
Proof.
  destruct c as [[] [] [] [] [] [] [] []]; vm_compute;
    solve [discriminate | split; reflexivity].
Qed.

Lemma space_is_plain (c : ascii) :
  Text.is_space c = true ->
  Text.is_digit c = false /\ Re.atom_ok true (Re.Lit "."%char) c = false.
Proof.
  destruct c as [[] [] [] [] [] [] [] []]; vm_compute;
    solve [discriminate | split; reflexivity].
Qed.

(** What stands behind the numeral: white space and the unit. *)
Lemma unit_head (ws' rest : string) :
  all_chars Text.is_space ws' = true ->
  head_fails Text.is_digit (ws' +:+ "ms" +:+ rest) /\
  head_fails (Re.atom_ok true (Re.Lit "."%char)) (ws' +:+ "ms" +:+ rest).
Proof.
  intros Hws. destruct ws' as [|c ws']; simpl.
  - split; intros c s' [= <- _]; reflexivity.
  - simpl in Hws. apply andb_prop in Hws as [Hc _].
    destruct (space_is_plain c Hc) as [Hd Hdot].
    split; intros c0 s' [= <- _]; assumption.
Qed.

Lemma unit_matches {R : Type} (ws' rest : string) (g : option string)
    (k : option string -> string -> option R) (x : R) :
  all_chars Text.is_space ws' = true ->
  k g rest = Some x ->
  Re.star true Re.Space (ws' +:+ "ms" +:+ rest)
    (fun s => Re.rmatch true (Re.lits "m" (Re.Atom (Re.Lit "s"%char))) s g k)
  = Some x.
Proof.
  intros Hws Hk. apply star_greedy; [exact Hws | | exact Hk].
  intros c s' [= <- _]. reflexivity.
Qed.

Lemma rmatch_group {R : Type} (ic : bool) (r : Re.regex) (s : string)
    (g : option string) (k : option string -> string -> option R) :
  Re.rmatch ic (Re.Group r) s g k
  = Re.rmatch ic r s g (fun _ s' => k (Some (Re.consumed s s')) s').
Proof. reflexivity. Qed.

Lemma rmatch_seq {R : Type} (ic : bool) (r1 r2 : Re.regex) (s : string)
    (g : option string) (k : option string -> string -> option R) :
  Re.rmatch ic (Re.Seq r1 r2) s g k
  = Re.rmatch ic r1 s g (fun g' s' => Re.rmatch ic r2 s' g' k).
Proof. reflexivity. Qed.

Lemma rmatch_digits {R : Type} (c : ascii) (s : string)
    (g : option string) (k : option string -> string -> option R) :
  Text.is_digit c = true ->
  Re.rmatch true (Re.Plus Re.Digit) (String c s) g k
  = Re.star true Re.Digit s (k g).
Proof.
  intros Hc. cbn [Re.rmatch].
  change (Re.atom_ok true Re.Digit c) with (Text.is_digit c). now rewrite Hc.
Qed.

Lemma rmatch_no_fraction {R : Type} (r : Re.regex) (s : string)
    (g : option string) (k : option string -> string -> option R) :
  head_fails (Re.atom_ok true (Re.Lit "."%char)) s ->
  Re.rmatch true (Re.Opt (Re.Seq (Re.Atom (Re.Lit "."%char)) r)) s g k = k g s.
Proof.
  intros Hs. cbn [Re.rmatch]. destruct s as [|c s']; [reflexivity|].
  now rewrite (Hs c s' eq_refl).
Qed.

Lemma rmatch_fraction {R : Type} (d : ascii) (s : string)
    (g : option string) (k : option string -> string -> option R) (x : R) :
  Text.is_digit d = true ->
  Re.star true Re.Digit s (k g) = Some x ->
  Re.rmatch true (Re.Opt (Re.Seq (Re.Atom (Re.Lit "."%char)) (Re.Plus Re.Digit)))
    (String "."%char (String d s)) g k = Some x.
Proof.
  intros Hd Hstar. cbn [Re.rmatch].
  change (Re.atom_ok true (Re.Lit "."%char) "."%char) with true. cbv iota.
  change (Re.atom_ok true Re.Digit d) with (Text.is_digit d).
  now rewrite Hd, Hstar.
Qed.

(** The group of the pattern takes a numeral whole when white space and the
    unit follow. *)
Lemma numeral_matches {R : Type} (num ws' rest : string) (g : option string)
    (k : option string -> string -> option R) (x : R) :
  numeral num ->
  all_chars Text.is_space ws' = true ->
  k (Some num) (ws' +:+ "ms" +:+ rest) = Some x ->
  Re.rmatch true
    (Re.Group (Re.Seq (Re.Plus Re.Digit)
                      (Re.Opt (Re.Seq (Re.Atom (Re.Lit "."%char))
                                      (Re.Plus Re.Digit)))))
    (num +:+ ws' +:+ "ms" +:+ rest) g k = Some x.
Proof.
  intros (a & [Ha Hda] & Hnum) Hws Hk.
  destruct (unit_head ws' rest Hws) as [Hnodigit Hnodot].
  set (tail := ws' +:+ "ms" +:+ rest) in *.
  destruct a as [|c a]; [contradiction|].
  simpl in Hda. apply andb_prop in Hda as [Hc Hda].
  rewrite rmatch_group, rmatch_seq.
  destruct Hnum as [-> | (b & [Hb Hdb] & ->)].
  - change (String c a +:+ tail) with (String c (a +:+ tail)) at 1.
    rewrite (rmatch_digits c _ _ _ Hc).
    apply star_greedy; [exact Hda | exact Hnodigit |].
    rewrite (rmatch_no_fraction _ _ _ _ Hnodot).
    now rewrite consumed_append.
  - destruct b as [|d b]; [contradiction|].
    simpl in Hdb. apply andb_prop in Hdb as [Hd Hdb].
    replace ((String c a +:+ "." +:+ String d b) +:+ tail)
      with (String c (a +:+ String "."%char (String d (b +:+ tail))))
      by (rewrite !append_assoc; reflexivity).
    rewrite (rmatch_digits c _ _ _ Hc).
    apply star_greedy; [exact Hda | intros c0 s' [= <- _]; reflexivity |].
    apply (rmatch_fraction d _ _ _ _ Hd).
    apply star_greedy; [exact Hdb | exact Hnodigit |].
    replace (String c (a +:+ String "."%char (String d (b +:+ tail))))
      with ((String c a +:+ "." +:+ String d b) +:+ tail)
      by (rewrite !append_assoc; reflexivity).
    now rewrite consumed_append.
Qed.

Lemma rmatch_star {R : Type} (ic : bool) (a : Re.atom) (s : string)
    (g : option string) (k : option string -> string -> option R) :
  Re.rmatch ic (Re.Star a) s g k = Re.star ic a s (k g).
Proof. reflexivity. Qed.

Lemma rmatch_time {R : Type} (r : Re.regex) (s : string)
    (g : option string) (k : option string -> string -> option R) :
  Re.rmatch true
    (Re.lits "time" (Re.Seq (Re.Atom (Re.OneOf ["="%char; "<"%char])) r))
    ("time=" +:+ s) g k
  = Re.rmatch true r s g k.
Proof. reflexivity. Qed.

(** The pattern matches where [time=], white space, a numeral, white space
    and [ms] stand, and group 1 is the numeral. *)
Lemma marker_matches (ws num ws' rest : string) :
  all_chars Text.is_space ws = true ->
  all_chars Text.is_space ws' = true ->
  numeral num ->
  Re.match_at true time_pattern
    ("time=" +:+ ws +:+ num +:+ ws' +:+ "ms" +:+ rest)
  = Some {| Re.group1 := Some num |}.
Proof.
  intros Hws Hws' Hnum. unfold Re.match_at, time_pattern.
  rewrite rmatch_time, rmatch_seq, rmatch_star.
  apply star_greedy; [exact Hws | |].
  - destruct Hnum as (a & [Ha Hda] & Hshape).
    destruct a as [|c a]; [contradiction|].
    simpl in Hda. apply andb_prop in Hda as [Hc _].
    destruct (digit_is_plain c Hc) as [Hspace _].
    destruct Hshape as [-> | (b & _ & ->)]; intros c0 s' [= <- _]; exact Hspace.
  - rewrite rmatch_seq. apply numeral_matches; [exact Hnum | exact Hws' |].
    rewrite rmatch_seq, rmatch_star.
    apply unit_matches; [exact Hws' | reflexivity].
Qed.

Lemma prefix_append (needle rest : string) :
  String.prefix needle (needle +:+ rest) = true.
Proof.
  induction needle as [|c needle IH]; simpl; [now destruct rest|].
  destruct (ascii_dec c c); [exact IH | contradiction].
Qed.

Lemma contains_append (needle before rest : string) :
  Text.contains needle (before +:+ needle +:+ rest) = true.
Proof.
  induction before as [|c before IH]; simpl.
  - assert (Hp : forall hay, String.prefix needle hay = true ->
                             Text.contains needle hay = true)
      by (intros [|c hay] Hp; cbn [Text.contains]; now rewrite Hp).
    apply Hp, prefix_append.
  - rewrite IH. apply orb_true_r.
Qed.

Ltac settle_letters :=
  repeat match goal with
         | |- context [Re.atom_ok true (Re.Lit ?l) ?v] =>
             first
               [ is_var v; destruct (Re.atom_ok true (Re.Lit l) v)
               | let b := eval vm_compute in (Re.atom_ok true (Re.Lit l) v) in
                 change (Re.atom_ok true (Re.Lit l) v) with b ]
         end.

(** A place that begins inside a text free of the word does not become a
    place of the word when [time=] is written behind the text. *)
Lemma starts_with_time_span (c : ascii) (before rest : string) :
  starts_with_time (String c before) = false ->
  starts_with_time (String c (before +:+ "time=" +:+ rest)) = false.
Proof.
  destruct before as [|a [|b [|d before]]]; intros Hstart;
    unfold starts_with_time in *; cbn [String.append] in *.
  - settle_letters; reflexivity.
  - settle_letters; reflexivity.
  - settle_letters; reflexivity.
  - exact Hstart.
Qed.

Lemma search_skips_before (before rest : string) :
  mentions_time before = false ->
  Re.search true time_pattern (before +:+ "time=" +:+ rest)
  = Re.search true time_pattern ("time=" +:+ rest).
Proof.
  unfold Re.search, mentions_time.
  induction before as [|c before IH]; [reflexivity|].
  cbn [Text.suffixes existsb]. intros Hno.
  apply orb_false_iff in Hno as [Hstart Hrest].
  change (String c before +:+ "time=" +:+ rest)
    with (String c (before +:+ "time=" +:+ rest)).
  cbn [Text.suffixes Re.first_some].
  rewrite (match_at_needs_time _ (starts_with_time_span c before rest Hstart)).
  exact (IH Hrest).
Qed.

Lemma search_at_marker (ws num ws' rest : string) :
  all_chars Text.is_space ws = true ->
  all_chars Text.is_space ws' = true ->
  numeral num ->
  Re.search true time_pattern ("time=" +:+ ws +:+ num +:+ ws' +:+ "ms" +:+ rest)
  = Some {| Re.group1 := Some num |}.
Proof.
  intros Hws Hws' Hnum. unfold Re.search.
  change ("time=" +:+ ws +:+ num +:+ ws' +:+ "ms" +:+ rest)
    with (String "t"%char ("ime=" +:+ ws +:+ num +:+ ws' +:+ "ms" +:+ rest)).
  cbn [Text.suffixes Re.first_some].
  change (String "t"%char ("ime=" +:+ ws +:+ num +:+ ws' +:+ "ms" +:+ rest))
    with ("time=" +:+ ws +:+ num +:+ ws' +:+ "ms" +:+ rest).
  now rewrite (marker_matches ws num ws' rest Hws Hws' Hnum).
Qed.

(** X26. A line of ping in English is read right: when the output has a line
    with [time=], a numeral and [ms], with or without white space around the
    numeral, and the letters [time] stand nowhere before it, neither in that
    line nor in the lines above, [extract_response_time] returns the number
    of that numeral. *)
Theorem english_marker_is_read (ping_output : string)
    (earlier later : list string) (before ws num ws' rest : string) :
  Text.split Text.newline ping_output
    = earlier ++ (before +:+ "time=" +:+ ws +:+ num +:+ ws' +:+ "ms" +:+ rest)
              :: later ->
  Forall (fun line => mentions_time line = false) earlier ->
  mentions_time before = false ->
  all_chars Text.is_space ws = true ->
  all_chars Text.is_space ws' = true ->
  numeral num ->
  extract_response_time ping_output = Some (Text.float num).
Proof.
  intros Hsplit Hearlier Hbefore Hws Hws' Hnum.
  unfold extract_response_time. rewrite Hsplit.
  rewrite scan_lines_app.
  - cbn [scan_lines]. unfold line_time.
    rewrite contains_append. cbn [orb].
    rewrite (search_skips_before _ _ Hbefore).
    rewrite (search_at_marker ws num ws' rest Hws Hws' Hnum).
    reflexivity.
  - eapply Forall_impl; [exact Hearlier|].
    apply line_without_time_gives_no_value.
Qed.

Lemma english_marker_is_read_witness :
  numeral "23.4" /\
  extract_response_time ping_text = Some (Text.float "23.4") /\
  Qeq (Text.float "23.4") (Qmake 234 10).
Proof.
  assert (Hnum : numeral "23.4").
  { exists "23". split; [split; [discriminate | reflexivity]|].
    right. exists "4". split; [split; [discriminate | reflexivity] | reflexivity]. }
  split; [exact Hnum|]. split; [|reflexivity].
  apply (english_marker_is_read ping_text
           ["PING 10.0.0.1 (10.0.0.1) 56(84) bytes of data."] []
           "64 bytes from 10.0.0.1: icmp_seq=1 ttl=64 " "" "23.4" " " "");
    try reflexivity; try exact Hnum.
  repeat constructor.
Defined.

End Parser.
